(** * Isaac Sim warehouse utilities: a shallow embedding

    Three scripts of the repository are modelled here:
    - [change_arg_in_yaml.py]  (module [ChangeArgInYaml]),
    - [place_racks_startup.py] (module [PlaceRacksStartup]),
    - [warehouse_generator.py] (module [WarehouseGenerator]).

    Python text is a list of characters, a Python exception is a value of
    [exn] carried by the [result] monad, and what a function prints or shows
    is returned next to its result. Numbers come in two readings, IEEE 754
    doubles and exact rationals, behind one interface ([PyNumber.Number]).

    The file has three parts: the model of the scripts, the vocabulary the
    properties are stated in, and the properties with their proofs. *)

From Stdlib Require Import ZArith QArith Qround Qabs Lqa Floats Ascii String Lia.
From Stdlib Require Import DecimalNat.
From stdpp Require Import list.

Local Open Scope list_scope.
Set Warnings "-inexact-float".

(** * The model *)

(** ** Python text and exceptions *)

Module Py.

(** A Python [str], one character per element. Characters are the code
    points below 256. *)
Definition str := list ascii.

(** A literal of the source, written as a Rocq string. *)
Definition lit (s : string) : str := list_ascii_of_string s.

Inductive exn :=
| ValueError
| IndexError
| TypeError
| ZeroDivisionError
| OverflowError
| KeyError (key : str)
| RuntimeError (msg : str)
| KeyboardInterrupt
| SystemExit (code : Z).

(** [except Exception] catches every exception of the model except
    [KeyboardInterrupt] and [SystemExit], which derive from [BaseException]
    only. *)
Definition is_Exception (e : exn) : bool :=
  match e with
  | KeyboardInterrupt | SystemExit _ => false
  | _ => true
  end.

Inductive result (A : Type) :=
| Ok (a : A)
| Raise (e : exn).
Arguments Ok {A} a.
Arguments Raise {A} e.

Definition bind {A B} (r : result A) (k : A -> result B) : result B :=
  match r with
  | Ok a => k a
  | Raise e => Raise e
  end.

Definition ascii_eqb (a b : ascii) : bool := Ascii.eqb a b.

Fixpoint str_eqb (s t : str) : bool :=
  match s, t with
  | [], [] => true
  | a :: s', b :: t' => ascii_eqb a b && str_eqb s' t'
  | _, _ => false
  end.

(** [c in s] for a one-character [c]. *)
Definition contains (c : ascii) (s : str) : bool := existsb (ascii_eqb c) s.

(** [s.index(c)] for a one-character [c]: the position of the first
    occurrence, [ValueError] when there is none. *)
Fixpoint find_char (c : ascii) (s : str) : option nat :=
  match s with
  | [] => None
  | a :: s' => if ascii_eqb c a then Some 0 else option_map S (find_char c s')
  end.

Definition index (c : ascii) (s : str) : result nat :=
  match find_char c s with
  | Some i => Ok i
  | None => Raise ValueError
  end.

(** [str.isspace] on one character: the code points below 256 that Python
    counts as whitespace (also what [\s] matches in a [str] pattern). *)
Definition is_space (c : ascii) : bool :=
  let n := nat_of_ascii c in
  ((9 <=? n) && (n <=? 13)) || ((28 <=? n) && (n <=? 32))
  || (n =? 133) || (n =? 160).

Fixpoint lstrip (s : str) : str :=
  match s with
  | c :: s' => if is_space c then lstrip s' else s
  | [] => []
  end.

Definition strip (s : str) : str := rev (lstrip (rev (lstrip s))).

(** [s.replace(a, b)] for one-character [a] and [b]. *)
Definition replace (a b : ascii) (s : str) : str :=
  map (fun c => if ascii_eqb c a then b else c) s.

(** [s.split(sep)] for a one-character separator: never the empty list. *)
Fixpoint split (sep : ascii) (s : str) : list str :=
  match s with
  | [] => [[]]
  | c :: s' =>
      if ascii_eqb c sep then [] :: split sep s'
      else match split sep s' with
           | w :: ws => (c :: w) :: ws
           | [] => [[c]]
           end
  end.

(** [str.lower] on one character: the capital letters below 256 are A to Z
    and the accented ones from 192 to 222, but for the sign at 215. *)
Definition lower_char (c : ascii) : ascii :=
  let n := nat_of_ascii c in
  if ((65 <=? n) && (n <=? 90))
     || ((192 <=? n) && (n <=? 222) && negb (n =? 215))
  then ascii_of_nat (n + 32) else c.

Definition lower (s : str) : str := map lower_char s.

Definition newline : ascii := "010"%char.
Definition carriage_return : ascii := "013"%char.

(** What reading a file opened in text mode does to the line endings:
    ["\r\n"] and a lone ["\r"] arrive as ["\n"]. Writing in text mode on
    Linux leaves ["\n"] as it is. *)
Fixpoint universal_newlines (s : str) : str :=
  match s with
  | [] => []
  | c :: rest =>
      if ascii_eqb c carriage_return then
        match rest with
        | d :: rest' =>
            if ascii_eqb d newline then newline :: universal_newlines rest'
            else newline :: universal_newlines rest
        | [] => [newline]
        end
      else c :: universal_newlines rest
  end.

(** [file.readlines()] on the text read: the lines, each with its
    terminating newline, the last one possibly without. *)
Fixpoint readlines (content : str) : list str :=
  match content with
  | [] => []
  | c :: rest =>
      if ascii_eqb c newline then [c] :: readlines rest
      else match readlines rest with
           | l :: ls => (c :: l) :: ls
           | [] => [[c]]
           end
  end.

(** [file.writelines(lines)]: the lines one after the other. *)
Definition writelines (lines : list str) : str := concat lines.

End Py.

(** ** change_arg_in_yaml.py *)

Module ChangeArgInYaml.
Import Py.

(** *** The search pattern

    [re.search(fr"^\s*\S*{param_name}\S*:.*$", line)], for a [param_name]
    without regular-expression metacharacters: the name stands for itself.
    Only the pieces the pattern uses are modelled: a character class, a
    starred character class and the end anchor. The pattern opens with [^],
    so the search matches at position 0 or not at all. *)

Inductive atom :=
| Cls (p : ascii -> bool)
| Many (p : ascii -> bool)
| Dollar.

(** [$] matches at the end of the text and before a final newline. *)
Definition at_end (s : str) : bool :=
  match s with
  | [] => true
  | [c] => ascii_eqb c newline
  | _ => false
  end.

Fixpoint matches (r : list atom) (s : str) {struct r} : bool :=
  match r with
  | [] => true
  | Cls p :: r' =>
      match s with
      | c :: s' => p c && matches r' s'
      | [] => false
      end
  | Many p :: r' =>
      (fix many (s : str) : bool :=
         matches r' s
         || match s with
            | c :: s' => p c && many s'
            | [] => false
            end) s
  | Dollar :: r' => at_end s && matches r' s
  end.

Definition non_space (c : ascii) : bool := negb (is_space c).
(** [.] matches every character but the newline. *)
Definition dot (c : ascii) : bool := negb (ascii_eqb c newline).
Definition colon : ascii := ":"%char.
Definition hash : ascii := "#"%char.

Definition search_pattern (param_name : str) : list atom :=
  [Many is_space; Many non_space]
  ++ map (fun c => Cls (ascii_eqb c)) param_name
  ++ [Many non_space; Cls (ascii_eqb colon); Many dot; Dollar].

Definition re_search (param_name line : str) : bool :=
  matches (search_pattern param_name) line.

(** The characters a regular expression reads specially; a name free of
    them is a pattern that matches exactly itself. *)
Definition metachar (c : ascii) : bool :=
  existsb (ascii_eqb c) (lit ".^$*+?{}[]\|()").

Definition plain_name (name : str) : bool := forallb (fun c => negb (metachar c)) name.

(** *** replace_parameter *)

(** The [new_value] argument: a [str], or any other value, given by its
    [str(...)] text. *)
Inductive value :=
| StrValue (s : str)
| OtherValue (text : str).

Definition value_text (v : value) : str :=
  match v with
  | StrValue s => s
  | OtherValue t => lower t
  end.

(** The variables the loop over the lines reads and writes. *)
Record scan := Scan {
  param_tree : list str;
  param_name : str;
  match_str : str;
  lines : list str;
  replaced : bool
}.

(** The line written in place of a matched terminal line. *)
Definition rewrite_line (new_value : str) (colon_index : nat) (line : str) : result str :=
  if contains hash line then
    bind (index hash line) (fun comment_index =>
      Ok (take (colon_index + 1) line ++ lit " " ++ new_value ++ lit " "
          ++ drop comment_index line))
  else
    Ok (take (colon_index + 1) line ++ lit " " ++ new_value ++ [newline]).

(** One iteration of [for i, line in enumerate(lines)]; the boolean tells
    whether the iteration ended in [break]. *)
Definition scan_step (new_value : str) (i : nat) (line : str) (st : scan)
  : result (scan * bool) :=
  match param_tree st with
  | [] => Raise IndexError
  | p :: rest =>
      if re_search p line then
        bind (index colon line) (fun colon_index =>
          let m := match_str st
                   ++ (if str_eqb (match_str st) [] then [] else lit ".")
                   ++ strip (take colon_index line) in
          if 1 <? length (param_tree st) then
            Ok (Scan rest p m (lines st) (replaced st), false)
          else
            bind (rewrite_line new_value colon_index line) (fun new_line =>
              Ok (Scan (param_tree st) p m (<[i := new_line]> (lines st)) true, true)))
      else Ok (Scan (param_tree st) p (match_str st) (lines st) (replaced st), false)
  end.

(** The loop, over the lines still to visit. The list being enumerated is
    assigned to only in the iteration that breaks. *)
Fixpoint scan_lines (new_value : str) (i : nat) (todo : list str) (st : scan)
  : result scan :=
  match todo with
  | [] => Ok st
  | line :: todo' =>
      bind (scan_step new_value i line st) (fun '(st', stop) =>
        if stop then Ok st' else scan_lines new_value (S i) todo' st')
  end.

(** What a call leaves behind: the content of the file and what was
    printed. *)
Record outcome := Outcome {
  file_after : str;
  printed : str
}.

(** [param_name.replace(':', '.').split(".")] *)
Definition path_of (param : str) : list str :=
  split "."%char (replace colon "."%char param).

Definition replace_parameter (content filename param : str) (new_value : value)
  : result outcome :=
  let new_value := value_text new_value in
  let tree := path_of param in
  let ls := readlines (universal_newlines content) in
  bind (scan_lines new_value 0 ls (Scan tree param [] ls false)) (fun st =>
    if replaced st then
      Ok (Outcome (writelines (lines st))
            (lit "Replaced parameter '" ++ match_str st ++ lit "' with '"
             ++ new_value ++ lit "' in " ++ filename ++ [newline]))
    else
      Ok (Outcome content
            (lit "Parameter '" ++ param_name st ++ lit "' not found in "
             ++ filename ++ [newline]))).

(** *** read_parameter *)

(** What [yaml.full_load] returns: scalars, sequences and mappings. A
    mapping is the Python [dict], given by its items; a key of any kind
    may occur. *)
#[local] Unset Elimination Schemes.
Inductive yaml :=
| YNull
| YBool (b : bool)
| YInt (z : Z)
| YFloat (f : float)
| YStr (s : str)
| YSeq (items : list yaml)
| YMap (items : list (yaml * yaml)).
#[local] Set Elimination Schemes.

(** [d[p]] on the items of a dict, for a [str] key [p]: only a [str] key
    equal to [p] is found. *)
Fixpoint dict_item (items : list (yaml * yaml)) (p : str) : result yaml :=
  match items with
  | [] => Raise (KeyError p)
  | (YStr k, v) :: items' => if str_eqb k p then Ok v else dict_item items' p
  | _ :: items' => dict_item items' p
  end.

(** [config[p]] for a [str] index [p]: a lookup in a mapping, [TypeError]
    on everything else (a list and a [str] take integer indices, the other
    scalars take none). *)
Definition subscript (config : yaml) (p : str) : result yaml :=
  match config with
  | YMap items => dict_item items p
  | _ => Raise TypeError
  end.

(** What the function prints: the two messages, with the values they show. *)
Inductive message :=
| SearchFailed (param_name filename stage : str) (config : yaml)
| ReadAs (param_name : str) (config : yaml) (filename : str).

(** The loop [for p in param_tree], with its [try] and bare [except];
    [return None] is [YNull]. *)
Fixpoint walk (param_name filename : str) (param_tree : list str) (config : yaml)
  : result (yaml * list message) :=
  match param_tree with
  | [] => Ok (config, [ReadAs param_name config filename])
  | p :: rest =>
      match subscript config p with
      | Ok config' => walk param_name filename rest config'
      | Raise _ => Ok (YNull, [SearchFailed param_name filename p config])
      end
  end.

(** [read_parameter], from the value [yaml.full_load] returned for the
    file on. *)
Definition read_parameter (filename param_name : str) (loaded : yaml)
  : result (yaml * list message) :=
  let param_tree := split "."%char param_name in
  walk param_name filename param_tree loaded.

(** *** main *)

(** One [parser.add_argument(...)] with [action="store"] and [type=str]. *)
Record argument := Argument {
  flags : list str;
  dest : str;
  required : bool;
  default : option str
}.

Definition file_argument : argument :=
  Argument [lit "-f"; lit "--file"] (lit "filepath") true None.
Definition param_argument : argument :=
  Argument [lit "-p"; lit "--param"] (lit "param") true None.
Definition value_argument : argument :=
  Argument [lit "-v"; lit "--value"] (lit "value") false None.

Definition parser_arguments : list argument :=
  [file_argument; param_argument; value_argument].

(** The command line as [argparse] has read it: for each destination, the
    text given with one of its flags, if any. *)
Definition command_line := str -> option str.

(** The value [parse_args] stores for an argument; a required argument
    that was not given ends the program with status 2. *)
Definition stored (given : command_line) (a : argument) : result (option str) :=
  match given (dest a) with
  | Some text => Ok (Some text)
  | None => if required a then Raise (SystemExit 2) else Ok (default a)
  end.

Record namespace := Namespace {
  args_filepath : option str;
  args_param : option str;
  args_value : option str
}.

Definition parse_args (given : command_line) : result namespace :=
  bind (stored given file_argument) (fun filepath =>
  bind (stored given param_argument) (fun param =>
  bind (stored given value_argument) (fun value =>
  Ok (Namespace filepath param value)))).

(** The call [main] ends with. *)
Inductive call :=
| CallRead (filename param_name : option str)
| CallReplace (filename param_name : option str) (new_value : value).

Definition main (given : command_line) : result call :=
  bind (parse_args given) (fun args =>
    match args_value args with
    | None => Ok (CallRead (args_filepath args) (args_param args))
    | Some v => Ok (CallReplace (args_filepath args) (args_param args) (StrValue v))
    end).

End ChangeArgInYaml.

(** ** Python numbers

    The scripts compute with whatever numbers they are handed. Two readings
    are given: [binary64], the IEEE 754 doubles of Python's [float], and
    [exact], the rationals of [fractions.Fraction], where no operation
    rounds but [round] itself. An [int] of the source is the number of the
    same value. *)

Module PyNumber.
Import Py.

Class Number (N : Type) := {
  of_int : Z -> N;
  num_add : N -> N -> N;
  num_sub : N -> N -> N;
  num_mul : N -> N -> N;
  (** [a / b], [ZeroDivisionError] for a zero [b] *)
  num_truediv : N -> N -> result N;
  (** [a % b], [ZeroDivisionError] for a zero [b] *)
  num_mod : N -> N -> result N;
  (** [round(a, 3)] *)
  num_round3 : N -> N;
  (** [a < b] and [a == b] *)
  num_lt : N -> N -> bool;
  num_eq : N -> N -> bool;
  (** [int(a)], an exception for a value that is not finite *)
  num_int : N -> result Z
}.

(** Rounding a fraction to the nearest integer, a tie to the even one. *)
Definition round_half_even (num : Z) (den : positive) : Z :=
  let floor := (num / Zpos den)%Z in
  let remainder := (num mod Zpos den)%Z in
  match (2 * remainder ?= Zpos den)%Z with
  | Lt => floor
  | Gt => (floor + 1)%Z
  | Eq => if Z.even floor then floor else (floor + 1)%Z
  end.

(** *** IEEE 754 doubles *)

Module Binary64.

Definition prec : Z := 53.
Definition emax : Z := 1024.

(** [round(x, 3)]: the decimal with three digits after the point nearest
    to the exact value of [x] (a tie to the even digit), and then the double
    nearest to that decimal. Zeros, infinities and NaN round to themselves. *)
Definition round3 (x : float) : float :=
  match Prim2SF x with
  | S754_finite s m e =>
      let thousandths :=
        match e with
        | Zneg k => round_half_even (Zpos m * 1000) (2 ^ k)
        | _ => (Zpos m * 1000 * 2 ^ e)%Z
        end in
      match thousandths with
      | Zpos n => SF2Prim (SFdiv prec emax (S754_finite s n 0) (S754_finite false 1000 0))
      | _ => SF2Prim (S754_zero s)
      end
  | _ => x
  end.

(** C's [fmod]: the exact remainder of the division truncated toward zero,
    with the sign of [x]. *)
Definition fmod (x y : float) : float :=
  match Prim2SF x, Prim2SF y with
  | S754_finite sx mx ex, S754_finite _ my ey =>
      let e := Z.min ex ey in
      let r := ((Zpos mx * 2 ^ (ex - e)) mod (Zpos my * 2 ^ (ey - e)))%Z in
      SF2Prim (binary_normalize prec emax (if sx then - r else r)%Z e sx)
  | S754_finite _ _ _, S754_infinity _ => x
  | S754_zero _, S754_finite _ _ _ => x
  | S754_zero _, S754_infinity _ => x
  | _, _ => nan
  end.

(** [v % w] as CPython's [float_rem] computes it. *)
Definition rem (v w : float) : result float :=
  if (w =? 0)%float then Raise ZeroDivisionError
  else
    let md := fmod v w in
    if (md =? 0)%float then
      Ok (if (w <? 0)%float then PrimFloat.neg_zero else PrimFloat.zero)
    else if Bool.eqb (w <? 0)%float (md <? 0)%float then Ok md
    else Ok (md + w)%float.

Definition truediv (a b : float) : result float :=
  if (b =? 0)%float then Raise ZeroDivisionError else Ok (a / b)%float.

(** The double of an integer, rounded to nearest when it has more than 53
    significant bits. *)
Definition of_Z (z : Z) : float := SF2Prim (binary_normalize prec emax z 0 false).

(** [int(x)]: truncation toward zero. *)
Definition to_Z (x : float) : result Z :=
  match Prim2SF x with
  | S754_zero _ => Ok 0%Z
  | S754_finite s m e =>
      let magnitude := match e with
                       | Zneg k => (Zpos m / 2 ^ Zpos k)%Z
                       | _ => (Zpos m * 2 ^ e)%Z
                       end in
      Ok (if s then - magnitude else magnitude)%Z
  | S754_infinity _ => Raise OverflowError
  | S754_nan => Raise ValueError
  end.

End Binary64.

#[export] Instance binary64 : Number float := {|
  of_int := Binary64.of_Z;
  num_add := PrimFloat.add;
  num_sub := PrimFloat.sub;
  num_mul := PrimFloat.mul;
  num_truediv := Binary64.truediv;
  num_mod := Binary64.rem;
  num_round3 := Binary64.round3;
  num_lt := PrimFloat.ltb;
  num_eq := PrimFloat.eqb;
  num_int := Binary64.to_Z
|}.

(** *** Exact rationals *)

Module Exact.

Definition is_zero (a : Q) : bool := (Qnum a =? 0)%Z.

Definition truediv (a b : Q) : result Q :=
  if is_zero b then Raise ZeroDivisionError else Ok (a / b)%Q.

(** [a % b = a - b * floor(a / b)] *)
Definition rem (a b : Q) : result Q :=
  if is_zero b then Raise ZeroDivisionError
  else Ok (a - b * inject_Z (Qfloor (a / b)))%Q.

(** [round(a, 3) = Fraction(round(a * 1000), 1000)] *)
Definition round3 (a : Q) : Q :=
  let shifted := (a * 1000)%Q in
  (inject_Z (round_half_even (Qnum shifted) (Qden shifted)) / 1000)%Q.

Definition ltb (a b : Q) : bool := negb (Qle_bool b a).

End Exact.

#[export] Instance exact : Number Q := {|
  of_int := inject_Z;
  num_add := Qplus;
  num_sub := Qminus;
  num_mul := Qmult;
  num_truediv := Exact.truediv;
  num_mod := Exact.rem;
  num_round3 := Exact.round3;
  num_lt := Exact.ltb;
  num_eq := Qeq_bool;
  num_int := fun a => Ok (Z.quot (Qnum a) (Zpos (Qden a)))
|}.

End PyNumber.

(** ** Python objects

    The values [json.load] builds and the scripts pass around: a [dict] is
    the list of its items, in insertion order and with distinct keys. *)

Module PyObject.
Import Py PyNumber.

Section Objects.
Context {N : Type} `{Number N}.

#[local] Unset Elimination Schemes.
Inductive pyobj :=
| PyNone
| PyBool (b : bool)
| PyNum (n : N)
| PyStr (s : str)
| PyList (items : list pyobj)
| PyDict (items : list (str * pyobj)).
#[local] Set Elimination Schemes.

Definition dict := list (str * pyobj).

(** [d.get(key)], [None] of Rocq for a missing key *)
Fixpoint lookup_key (d : dict) (key : str) : option pyobj :=
  match d with
  | [] => None
  | (k, v) :: d' => if str_eqb k key then Some v else lookup_key d' key
  end.

(** [d[key]] *)
Definition getitem (d : dict) (key : str) : result pyobj :=
  match lookup_key d key with
  | Some v => Ok v
  | None => Raise (KeyError key)
  end.

(** [d.get(key, default)] *)
Definition get (d : dict) (key : str) (default : pyobj) : pyobj :=
  match lookup_key d key with
  | Some v => v
  | None => default
  end.

Definition keys (d : dict) : list str := map fst d.

(** [obj[key]] for a [str] key: a [dict] looks the key up, every other
    object raises [TypeError]. *)
Definition subscript (obj : pyobj) (key : str) : result pyobj :=
  match obj with
  | PyDict d => getitem d key
  | _ => Raise TypeError
  end.

(** The number an object stands for in arithmetic; [bool] is a subclass
    of [int]. Everything else raises [TypeError] when added to a number. *)
Definition as_number (obj : pyobj) : result N :=
  match obj with
  | PyNum n => Ok n
  | PyBool b => Ok (of_int (if b then 1 else 0))
  | _ => Raise TypeError
  end.

(** [obj + n] for a number [n] *)
Definition add_number (obj : pyobj) (n : N) : result N :=
  bind (as_number obj) (fun a => Ok (num_add a n)).

(** [obj != 0] *)
Definition ne_zero (obj : pyobj) : bool :=
  match obj with
  | PyNum n => negb (num_eq n (of_int 0))
  | PyBool b => b
  | _ => true
  end.

End Objects.

Arguments pyobj N : clear implicits.
Arguments dict N : clear implicits.

End PyObject.

(** ** place_racks_startup.py

    The loop that places the racks. Isaac Sim is outside the program: what
    its calls do for the rack of index [i] is a parameter of the model. *)

Module PlaceRacksStartup.
Import Py PyNumber PyObject.

Section Placement.
Context {N : Type} `{Number N}.

(** The answers of Isaac Sim in iteration [i]. *)
Record isaac_sim := IsaacSim {
  (** [omni.kit.commands.execute('CreateReference', ...)] *)
  create_reference : nat -> result unit;
  (** [simulation_app.update()] *)
  app_update : nat -> result unit;
  (** [prim_utils.get_prim_at_path(rack_path)], and whether the prim it
      returns counts as true *)
  get_prim_at_path : nat -> result bool;
  (** [UsdGeom.Xformable(rack_prim)] and [xformable.AddTranslateOp()] *)
  add_translate_op : nat -> result unit;
  (** [.Set(Gf.Vec3d(x_m, y_m, 0.0))] on the translate op *)
  set_translate : nat -> N -> N -> result unit;
  (** [xformable.AddRotateZOp()] *)
  add_rotate_op : nat -> result unit;
  (** [.Set(rack["rotation"])] on the rotate op *)
  set_rotate : nat -> pyobj N -> result unit
}.

Inductive line :=
| Placed (i : nat) (x_m y_m : N)
| NoPrim (i : nat)
| ErrorWith (i : nat) (e : exn)
| Complete (successful total : nat).

(** [Gf.Vec3d(x_m, y_m, 0.0)] takes numbers. *)
Definition Vec3d (x_m y_m : pyobj N) : result (N * N) :=
  bind (as_number x_m) (fun x =>
  bind (as_number y_m) (fun y => Ok (x, y))).

(** The body of the [try], up to [successful += 1]: the position the rack
    was placed at when that line was reached, nothing when there was no
    prim. *)
Definition try_place (sim : isaac_sim) (i : nat) (rack x_m y_m : pyobj N)
  : result (option (N * N)) :=
  bind (create_reference sim i) (fun _ =>
  bind (app_update sim i) (fun _ =>
  bind (get_prim_at_path sim i) (fun rack_prim =>
  if rack_prim then
    bind (add_translate_op sim i) (fun _ =>
    bind (Vec3d x_m y_m) (fun '(x, y) =>
    bind (set_translate sim i x y) (fun _ =>
    bind (subscript rack (lit "rotation")) (fun rotation =>
    bind (if ne_zero rotation
          then bind (add_rotate_op sim i) (fun _ =>
               bind (subscript rack (lit "rotation")) (set_rotate sim i))
          else Ok tt) (fun _ =>
    Ok (Some (x, y)))))))
  else Ok None))).

Record progress := Progress {
  successful : nat;
  printed : list line
}.

(** One iteration of [for i, rack in enumerate(racks)]. *)
Definition place_rack (sim : isaac_sim) (i : nat) (rack : pyobj N) (st : progress)
  : result progress :=
  bind (subscript rack (lit "x")) (fun x_m =>
  bind (subscript rack (lit "y")) (fun y_m =>
  match try_place sim i rack x_m y_m with
  | Ok (Some (x, y)) =>
      Ok (Progress (successful st + 1) (printed st ++ [Placed i x y]))
  | Ok None => Ok (Progress (successful st) (printed st ++ [NoPrim i]))
  | Raise e =>
      if is_Exception e
      then Ok (Progress (successful st) (printed st ++ [ErrorWith i e]))
      else Raise e
  end)).

Fixpoint place_from (sim : isaac_sim) (i : nat) (racks : list (pyobj N)) (st : progress)
  : result progress :=
  match racks with
  | [] => Ok st
  | rack :: racks' =>
      bind (place_rack sim i rack st) (place_from sim (S i) racks')
  end.

(** The loop and the report after it. *)
Definition place_racks (sim : isaac_sim) (racks : list (pyobj N)) : result progress :=
  bind (place_from sim 0 racks (Progress 0 [])) (fun st =>
    Ok (Progress (successful st)
          (printed st ++ [Complete (successful st) (length racks)]))).

End Placement.

Arguments isaac_sim N : clear implicits.
Arguments line N : clear implicits.
Arguments progress N : clear implicits.

End PlaceRacksStartup.

(** ** warehouse_generator.py

    The racks and the designer's state, for any kind of number. The tk
    widgets are outside the model: the text of an entry arrives as what
    [float(...)] makes of it ([None] when it raises [ValueError]), a message
    box is the value a function returns next to the state, drawing on the
    canvas arrives as its outcome (done, or the exception it raised), and a
    rack's [canvas_id], which only names its canvas item, is left out. *)

Module WarehouseGenerator.
Import Py PyNumber PyObject.

(** *** class Rack *)

Module Rack.
Section Rack.
Context {N : Type} `{Number N}.

Record t := Make {
  x : N;
  y : N;
  width_m : pyobj N;
  depth_m : pyobj N;
  rotation : pyobj N;
  rack_type : pyobj N
}.

Definition to_dict (self : t) (origin_x_m origin_y_m scale : N) : result (dict N) :=
  bind (num_truediv (x self) scale) (fun x_m =>
  bind (num_truediv (y self) scale) (fun y_m =>
  let world_x := num_sub x_m origin_x_m in
  let world_y := num_sub y_m origin_y_m in
  Ok [ (lit "type", rack_type self);
       (lit "x", PyNum (num_round3 world_y));
       (lit "y", PyNum (num_round3 world_x));
       (lit "width_m", width_m self);
       (lit "depth_m", depth_m self);
       (lit "rotation", rotation self) ])).

Definition from_dict (data : dict N) (origin_x_m origin_y_m scale : N) : result t :=
  bind (getitem data (lit "y")) (fun world_x =>
  bind (getitem data (lit "x")) (fun world_y =>
  bind (add_number world_x origin_x_m) (fun x_m =>
  bind (add_number world_y origin_y_m) (fun y_m =>
  let x_px := num_mul x_m scale in
  let y_px := num_mul y_m scale in
  bind (getitem data (lit "width_m")) (fun width =>
  bind (getitem data (lit "depth_m")) (fun depth =>
  Ok (Make x_px y_px width depth
        (get data (lit "rotation") (PyNum (of_int 0)))
        (get data (lit "type") (PyStr (lit "SmallRack")))))))))).

End Rack.
Arguments t N : clear implicits.
End Rack.

(** *** class WarehouseDesigner *)

Module WarehouseDesigner.
Section Designer.
Context {N : Type} `{Number N}.

(** The attributes the modelled methods use. [selected_rack] is the place
    in [racks] of the rack object that [self.selected_rack] refers to: the
    two names share one object. *)
Record t := Make {
  scale : N;
  warehouse_width_m : N;
  warehouse_height_m : N;
  origin_x_m : N;
  origin_y_m : N;
  racks : list (Rack.t N);
  selected_rack : option nat;
  waypoints : list (N * N)
}.

Inductive messagebox :=
| showinfo
| showwarning
| showerror.

(** How a callback ends: without a message box, with one, or with an
    exception no handler of the method takes. *)
Inductive ending :=
| Quiet
| Box (b : messagebox)
| Uncaught (e : exn).

Definition messagebox_or_none := option messagebox.

(** [update_warehouse_size]: the two [int(...)] of the canvas size, then
    the redrawing, which changes no attribute of the model. *)
Definition update_warehouse_size (self : t) (drawing : result unit) : result unit :=
  bind (num_int (num_mul (warehouse_width_m self) (scale self))) (fun _ =>
  bind (num_int (num_mul (warehouse_height_m self) (scale self))) (fun _ =>
  drawing)).

Definition scale_rack (scale_factor : N) (rack : Rack.t N) : Rack.t N :=
  Rack.Make (num_mul (Rack.x rack) scale_factor) (num_mul (Rack.y rack) scale_factor)
    (Rack.width_m rack) (Rack.depth_m rack) (Rack.rotation rack) (Rack.rack_type rack).

Definition scale_waypoint (scale_factor : N) (w : N * N) : N * N :=
  (num_mul (fst w) scale_factor, num_mul (snd w) scale_factor).

(** How a method ends after the [try] body ended with [r], under an
    [except ValueError] that shows the error box. *)
Definition except_ValueError (r : result messagebox_or_none) : ending :=
  match r with
  | Ok None => Quiet
  | Ok (Some b) => Box b
  | Raise ValueError => Box showerror
  | Raise e => Uncaught e
  end.

(** [update_scale], [entry] being [float(self.scale_var.get())] and
    [drawing] the outcome of the redrawing. *)
Definition update_scale (self : t) (entry : option N) (drawing : result unit)
  : t * ending :=
  match entry with
  | None => (self, Box showerror)
  | Some new_scale =>
      if num_lt new_scale (of_int 10) || num_lt (of_int 200) new_scale
      then (self, Box showerror)
      else
        match num_truediv new_scale (scale self) with
        | Raise e => (self, except_ValueError (Raise e))
        | Ok scale_factor =>
            let self' :=
              Make new_scale (warehouse_width_m self) (warehouse_height_m self)
                (origin_x_m self) (origin_y_m self)
                (map (scale_rack scale_factor) (racks self))
                (selected_rack self)
                (map (scale_waypoint scale_factor) (waypoints self)) in
            (self', except_ValueError
                      (bind (update_warehouse_size self' drawing) (fun _ => Ok None)))
        end
  end.

Definition set_rotation (rotation : pyobj N) (rack : Rack.t N) : Rack.t N :=
  Rack.Make (Rack.x rack) (Rack.y rack) (Rack.width_m rack) (Rack.depth_m rack)
    rotation (Rack.rack_type rack).

(** [apply_rotation_to_selected], [entry] being
    [float(self.rotation_var.get())] and [drawing] the outcome of
    [draw_rack]. *)
Definition apply_rotation_to_selected (self : t) (entry : option N)
    (drawing : result unit) : t * ending :=
  match selected_rack self with
  | None => (self, Box showwarning)
  | Some idx =>
      match entry with
      | None => (self, Box showerror)
      | Some new_rotation =>
          match num_mod new_rotation (of_int 360) with
          | Raise e => (self, except_ValueError (Raise e))
          | Ok r =>
              (Make (scale self) (warehouse_width_m self) (warehouse_height_m self)
                 (origin_x_m self) (origin_y_m self)
                 (alter (set_rotation (PyNum r)) idx (racks self))
                 (selected_rack self) (waypoints self),
               except_ValueError (bind drawing (fun _ => Ok (Some showinfo))))
          end
      end
  end.

Definition waypoint_to_dict (self : t) (w : N * N) : result (dict N) :=
  let '(x_px, y_px) := w in
  bind (num_truediv x_px (scale self)) (fun x_m =>
  bind (num_truediv y_px (scale self)) (fun y_m =>
  let world_x := num_sub x_m (origin_x_m self) in
  let world_y := num_sub y_m (origin_y_m self) in
  Ok [ (lit "x", PyNum (num_round3 world_y));
       (lit "y", PyNum (num_round3 world_x)) ])).

Fixpoint waypoints_to_dict_from (self : t) (todo : list (N * N)) : result (list (dict N)) :=
  match todo with
  | [] => Ok []
  | w :: todo' =>
      bind (waypoint_to_dict self w) (fun d =>
      bind (waypoints_to_dict_from self todo') (fun ds => Ok (d :: ds)))
  end.

Definition waypoints_to_dict (self : t) : result (list (dict N)) :=
  waypoints_to_dict_from self (waypoints self).

Definition waypoint_from_dict (self : t) (wp : dict N) : result (N * N) :=
  bind (getitem wp (lit "y")) (fun world_x =>
  bind (getitem wp (lit "x")) (fun world_y =>
  bind (add_number world_x (origin_x_m self)) (fun x_m =>
  bind (add_number world_y (origin_y_m self)) (fun y_m =>
  Ok (num_mul x_m (scale self), num_mul y_m (scale self)))))).

Definition with_waypoints (self : t) (ws : list (N * N)) : t :=
  Make (scale self) (warehouse_width_m self) (warehouse_height_m self)
    (origin_x_m self) (origin_y_m self) (racks self) (selected_rack self) ws.

(** The loop of [waypoints_from_dict]: the state when it ends, and the
    exception that ended it early, if any. *)
Fixpoint append_waypoints (self : t) (waypoints_data : list (dict N)) : t * option exn :=
  match waypoints_data with
  | [] => (self, None)
  | wp :: rest =>
      match waypoint_from_dict self wp with
      | Ok w => append_waypoints (with_waypoints self (waypoints self ++ [w])) rest
      | Raise e => (self, Some e)
      end
  end.

Definition waypoints_from_dict (self : t) (waypoints_data : list (dict N)) : t * option exn :=
  append_waypoints (with_waypoints self []) waypoints_data.



End Designer.
Arguments t N : clear implicits.
End WarehouseDesigner.

End WarehouseGenerator.

(** ** More of Python's objects

    Methods and operators on the values [json.load] and [yaml.safe_load]
    build. A mapping is kept by its items with a [str] key: the scripts
    look nothing else up. *)

Module PyMethods.
Import Py PyNumber PyObject.

(** What ends a piece of the program early: an exception of [exn], the
    [AttributeError] of a method called on an object that does not have it,
    or the [OSError] of a file that cannot be opened. *)
Inductive failure :=
| Exn (e : exn)
| AttributeError
| OSError.

(** [except Exception] on a failure. *)
Definition caught (f : failure) : bool :=
  match f with
  | Exn e => is_Exception e
  | AttributeError | OSError => true
  end.

Inductive outcome (A : Type) :=
| Done (a : A)
| Failed (f : failure).
Arguments Done {A} a.
Arguments Failed {A} f.

Definition and_then {A B} (o : outcome A) (k : A -> outcome B) : outcome B :=
  match o with
  | Done a => k a
  | Failed f => Failed f
  end.

Definition of_result {A} (r : result A) : outcome A :=
  match r with
  | Ok a => Done a
  | Raise e => Failed (Exn e)
  end.

Section Methods.
Context {N : Type} `{Number N}.

(** [obj.get(key, default)]: a method of [dict]. *)
Definition get_method (obj : pyobj N) (key : str) (default : pyobj N)
  : outcome (pyobj N) :=
  match obj with
  | PyDict d => Done (get d key default)
  | _ => Failed AttributeError
  end.

(** [obj.lower()]: a method of [str]. *)
Definition lower_method (obj : pyobj N) : outcome str :=
  match obj with
  | PyStr s => Done (lower s)
  | _ => Failed AttributeError
  end.

(** The truth value of an object, as [if obj] and [not obj] take it. *)
Definition truthy (obj : pyobj N) : bool :=
  match obj with
  | PyNone => false
  | PyBool b => b
  | PyNum n => negb (num_eq n (of_int 0))
  | PyStr s => match s with [] => false | _ :: _ => true end
  | PyList items => match items with [] => false | _ :: _ => true end
  | PyDict items => match items with [] => false | _ :: _ => true end
  end.

(** [obj == text] for a [str] literal [text] *)
Definition eq_text (obj : pyobj N) (text : str) : bool :=
  match obj with
  | PyStr s => str_eqb s text
  | _ => false
  end.

(** [for item in obj]: the items of a list, the keys of a dict, the
    characters of a [str]; nothing else is iterable. *)
Definition iterate (obj : pyobj N) : result (list (pyobj N)) :=
  match obj with
  | PyList items => Ok items
  | PyDict d => Ok (map PyStr (keys d))
  | PyStr s => Ok (map (fun c => PyStr [c]) s)
  | _ => Raise TypeError
  end.

Fixpoint startswith (s prefix : str) : bool :=
  match prefix, s with
  | [], _ => true
  | p :: prefix', c :: s' => ascii_eqb c p && startswith s' prefix'
  | _ :: _, [] => false
  end.

(** [sub in s] for two [str] *)
Fixpoint substring (sub s : str) : bool :=
  startswith s sub
  || match s with
     | [] => false
     | _ :: s' => substring sub s'
     end.

(** [key in obj] for a [str] key: a key of a dict, an item of a list, a
    part of a [str]; on anything else the operator raises [TypeError]. *)
Definition contains_key (key : str) (obj : pyobj N) : result bool :=
  match obj with
  | PyDict d => Ok (match lookup_key d key with Some _ => true | None => false end)
  | PyList items => Ok (existsb (fun item => eq_text item key) items)
  | PyStr s => Ok (substring key s)
  | _ => Raise TypeError
  end.

End Methods.

End PyMethods.

(** ** place_racks_startup.py: before Isaac Sim is launched

    The lines that read the two configuration files and settle the paths.
    [config] is what [yaml.safe_load] returned for [./place_racks.yaml];
    the file system is outside the program: [json_load] is what opening the
    file of a given path and [json.load] make of it. What is printed on the
    way is left out. *)

Module PlaceRacksConfiguration.
Import Py PyNumber PyObject PyMethods.

Section Configuration.
Context {N : Type} `{Number N}.

(** The variables the script goes on with. *)
Record settings := Settings {
  warehouse_type : str;
  scale : pyobj N;
  racks : pyobj N;
  warehouse_usd_file : pyobj N;
  rack_asset_file : pyobj N
}.

(** [not path or path == "default path"] *)
Definition unusable (path : pyobj N) : bool :=
  negb (truthy path) || eq_text path (lit "default path").

Definition configure (config : pyobj N) (json_load : pyobj N -> outcome (pyobj N))
  : outcome settings :=
  and_then (get_method config (lit "json_file_path") (PyStr [])) (fun json_file_path =>
  and_then (json_load json_file_path) (fun data =>
  and_then (get_method data (lit "warehouse_type") (PyStr (lit "small"))) (fun given_type =>
  and_then (lower_method given_type) (fun warehouse_type =>
  and_then (of_result (subscript data (lit "scale"))) (fun scale =>
  and_then (of_result (subscript data (lit "racks"))) (fun racks =>
  and_then (of_result (subscript config (lit "warehouse_usd_file"))) (fun usd_files =>
  and_then (get_method usd_files warehouse_type (PyStr [])) (fun warehouse_usd_file =>
  if unusable warehouse_usd_file then Failed (Exn ValueError)
  else
    and_then (of_result (subscript config (lit "rack_asset_file"))) (fun asset_files =>
    and_then (get_method asset_files (lit "narrow_standard") (PyStr [])) (fun rack_asset_file =>
    if unusable rack_asset_file then Failed (Exn ValueError)
    else Done (Settings warehouse_type scale racks warehouse_usd_file rack_asset_file)))
  )))))))).

End Configuration.

Arguments settings N : clear implicits.

(** *** The prim path of a rack *)

Fixpoint uint_text (d : Decimal.uint) : str :=
  match d with
  | Decimal.Nil => []
  | Decimal.D0 d' => "0"%char :: uint_text d'
  | Decimal.D1 d' => "1"%char :: uint_text d'
  | Decimal.D2 d' => "2"%char :: uint_text d'
  | Decimal.D3 d' => "3"%char :: uint_text d'
  | Decimal.D4 d' => "4"%char :: uint_text d'
  | Decimal.D5 d' => "5"%char :: uint_text d'
  | Decimal.D6 d' => "6"%char :: uint_text d'
  | Decimal.D7 d' => "7"%char :: uint_text d'
  | Decimal.D8 d' => "8"%char :: uint_text d'
  | Decimal.D9 d' => "9"%char :: uint_text d'
  end.

(** [f"{i:03d}"]: the decimal digits of [i], with zeros in front up to
    three characters. *)
Definition format_03d (i : nat) : str :=
  let digits := uint_text (Nat.to_uint i) in
  repeat "0"%char (3 - length digits) ++ digits.

Definition environment_prim_path : str := lit "/World".

Definition racks_parent_path : str := environment_prim_path ++ lit "/Racks".

(** [f"{racks_parent_path}/Rack_{i:03d}"] *)
Definition rack_path (i : nat) : str :=
  racks_parent_path ++ lit "/Rack_" ++ format_03d i.

End PlaceRacksConfiguration.

(** ** warehouse_generator.py: editing the layout

    More methods of [WarehouseDesigner], on the same state. A dialog
    arrives as its answer, the text of an entry as what [float(...)] or
    [int(...)] makes of it, and what is drawn after the state was changed as
    the outcome of the drawing; clearing the canvas and setting the text of
    an entry are taken to go through. [selected_rack] names a rack of
    [racks]: a state where it names none stands for no state of the
    program. *)

Module WarehouseEditing.
Import Py PyNumber PyObject PyMethods WarehouseGenerator.
Import WarehouseDesigner.

Section Editing.
Context {N : Type} `{Number N}.

(** [a <= b] *)
Definition num_le (a b : N) : bool := num_lt a b || num_eq a b.

Definition with_racks (self : t N) (rs : list (Rack.t N)) : t N :=
  Make (scale self) (warehouse_width_m self) (warehouse_height_m self)
    (origin_x_m self) (origin_y_m self) rs (selected_rack self) (waypoints self).

Definition with_selected (self : t N) (selected : option nat) : t N :=
  Make (scale self) (warehouse_width_m self) (warehouse_height_m self)
    (origin_x_m self) (origin_y_m self) (racks self) selected (waypoints self).

Definition with_scale (self : t N) (new_scale : N) : t N :=
  Make new_scale (warehouse_width_m self) (warehouse_height_m self)
    (origin_x_m self) (origin_y_m self) (racks self) (selected_rack self) (waypoints self).

Definition with_size (self : t N) (width height : N) : t N :=
  Make (scale self) width height (origin_x_m self) (origin_y_m self)
    (racks self) (selected_rack self) (waypoints self).

Definition with_origin_x (self : t N) (x_m : N) : t N :=
  Make (scale self) (warehouse_width_m self) (warehouse_height_m self)
    x_m (origin_y_m self) (racks self) (selected_rack self) (waypoints self).

Definition with_origin_y (self : t N) (y_m : N) : t N :=
  Make (scale self) (warehouse_width_m self) (warehouse_height_m self)
    (origin_x_m self) y_m (racks self) (selected_rack self) (waypoints self).

(** How a method without a [try] ends after [r]. *)
Definition uncaught (r : result unit) : ending :=
  match r with
  | Ok _ => Quiet
  | Raise e => Uncaught e
  end.

(** How a method ends after the body of its [try] ended with [r], under an
    [except Exception] that shows the error box, [done] being what the body
    shows last. *)
Definition except_Exception (done : messagebox) (r : outcome unit) : ending :=
  match r with
  | Done _ => Box done
  | Failed (Exn e) => if is_Exception e then Box showerror else Uncaught e
  | Failed _ => Box showerror
  end.

(** *** The bounds of the warehouse *)

(** [0 <= x <= self.warehouse_width_m * self.scale and
     0 <= y <= self.warehouse_height_m * self.scale] *)
Definition within_bounds (self : t N) (x y : N) : bool :=
  (num_le (of_int 0) x && num_le x (num_mul (warehouse_width_m self) (scale self)))
  && (num_le (of_int 0) y && num_le y (num_mul (warehouse_height_m self) (scale self))).

(** *** Placing racks *)

(** The entries of the rack panel. *)
Record rack_entries := RackEntries {
  width_var : option N;
  depth_var : option N;
  count_var : option Z;
  rows_var : option Z;
  spacing_var : option N;
  row_spacing_var : option N;
  rotation_var : option N;
  preset_var : str
}.

(** [place_rack], [drawing] being the outcome of [draw_rack] and
    [update_stats]. *)
Definition place_rack (self : t N) (entries : rack_entries) (x y : N)
    (drawing : result unit) : t N * ending :=
  match width_var entries, depth_var entries, rotation_var entries with
  | Some width, Some depth, Some rotation =>
      let rack := Rack.Make x y (PyNum width) (PyNum depth) (PyNum rotation)
                    (PyStr (preset_var entries)) in
      (with_racks self (racks self ++ [rack]),
       except_ValueError (bind drawing (fun _ => Ok None)))
  | _, _, _ => (self, Box showerror)
  end.

(** The cells of the grid in the order of the two loops. *)
Definition grid_cells (rows count : Z) : list (nat * nat) :=
  flat_map (fun row => map (fun col => (row, col)) (seq 0 (Z.to_nat count)))
    (seq 0 (Z.to_nat rows)).

(** The two loops of [place_grid] over the cells still to visit: the state
    when they end, and the exception of [draw_rack] that ended them early,
    if any. [draw_rack i] is the outcome of drawing the rack stored at index
    [i] of [racks]. *)
Fixpoint place_cells (self : t N) (x y spacing_px row_spacing_px : N)
    (width depth rotation : N) (rack_type : str) (draw_rack : nat -> result unit)
    (cells : list (nat * nat)) : t N * result unit :=
  match cells with
  | [] => (self, Ok tt)
  | (row, col) :: cells' =>
      let rx := num_add x (num_mul (of_int (Z.of_nat col)) spacing_px) in
      let ry := num_add y (num_mul (of_int (Z.of_nat row)) row_spacing_px) in
      if within_bounds self rx ry then
        let rack := Rack.Make rx ry (PyNum width) (PyNum depth) (PyNum rotation)
                      (PyStr rack_type) in
        let self' := with_racks self (racks self ++ [rack]) in
        match draw_rack (length (racks self)) with
        | Ok _ =>
            place_cells self' x y spacing_px row_spacing_px width depth rotation
              rack_type draw_rack cells'
        | Raise e => (self', Raise e)
        end
      else
        place_cells self x y spacing_px row_spacing_px width depth rotation
          rack_type draw_rack cells'
  end.

Definition place_grid (self : t N) (entries : rack_entries) (x y : N)
    (draw_rack : nat -> result unit) (update_stats : result unit) : t N * ending :=
  match width_var entries, depth_var entries, count_var entries, rows_var entries,
        spacing_var entries, row_spacing_var entries, rotation_var entries with
  | Some width, Some depth, Some count, Some rows, Some spacing, Some row_spacing,
    Some rotation =>
      let spacing_px := num_mul spacing (scale self) in
      let row_spacing_px := num_mul row_spacing (scale self) in
      let '(self', drawn) :=
        place_cells self x y spacing_px row_spacing_px width depth rotation
          (preset_var entries) draw_rack (grid_cells rows count) in
      (self', except_ValueError
                (bind drawn (fun _ => bind update_stats (fun _ => Ok None))))
  | _, _, _, _, _, _, _ => (self, Box showerror)
  end.

(** [duplicate_selected] *)
Definition duplicate_selected (self : t N) (drawing : result unit) : t N * ending :=
  match selected_rack self with
  | None => (self, Quiet)
  | Some idx =>
      match racks self !! idx with
      | None => (self, Quiet)
      | Some rack =>
          let new_rack :=
            Rack.Make (num_add (Rack.x rack) (of_int 20)) (num_add (Rack.y rack) (of_int 20))
              (Rack.width_m rack) (Rack.depth_m rack) (Rack.rotation rack)
              (Rack.rack_type rack) in
          (with_racks self (racks self ++ [new_rack]), uncaught drawing)
      end
  end.

(** [delete_selected], [canvas_delete] and [update_stats] being the
    outcomes of the two calls around the [pop]. *)
Definition delete_selected (self : t N) (canvas_delete update_stats : result unit)
  : t N * ending :=
  match selected_rack self with
  | None => (self, Quiet)
  | Some idx =>
      match canvas_delete with
      | Raise e => (self, Uncaught e)
      | Ok _ =>
          if idx <? length (racks self)
          then (with_selected (with_racks self (delete idx (racks self))) None,
                uncaught update_stats)
          else (self, Uncaught IndexError)
      end
  end.

(** *** Dragging the selected rack *)

Inductive mode :=
| Single
| Row
| Grid
| Select
| Path.

(** The designer with the state of the mouse: the mode, where the drag
    started, and whether the line of a row being drawn is on the canvas. *)
Record canvas := Canvas {
  state : t N;
  mode_of : mode;
  drag_start : option (N * N);
  temp_line : bool
}.

Definition move_to (x y : N) (rack : Rack.t N) : Rack.t N :=
  Rack.Make x y (Rack.width_m rack) (Rack.depth_m rack) (Rack.rotation rack)
    (Rack.rack_type rack).

(** [canvas_drag], [x] and [y] being the canvas coordinates of the event. *)
Definition canvas_drag (c : canvas) (x y : N) (drawing : result unit) : canvas * ending :=
  match mode_of c with
  | Row =>
      match drag_start c with
      | Some _ => if temp_line c then (c, uncaught drawing) else (c, Quiet)
      | None => (c, Quiet)
      end
  | Select =>
      match selected_rack (state c), drag_start c with
      | Some idx, Some (start_x, start_y) =>
          match racks (state c) !! idx with
          | None => (c, Quiet)
          | Some rack =>
              let dx := num_sub x start_x in
              let dy := num_sub y start_y in
              let new_x := num_add (Rack.x rack) dx in
              let new_y := num_add (Rack.y rack) dy in
              if within_bounds (state c) new_x new_y then
                (Canvas (with_racks (state c)
                           (<[idx := move_to new_x new_y rack]> (racks (state c))))
                   (mode_of c) (Some (x, y)) (temp_line c),
                 uncaught drawing)
              else (c, Quiet)
          end
      | _, _ => (c, Quiet)
      end
  | _ => (c, Quiet)
  end.

(** *** The path *)

Definition add_waypoint (self : t N) (x y : N) (drawing : result unit) : t N * ending :=
  (with_waypoints self (waypoints self ++ [(x, y)]), uncaught drawing).

Definition undo_last_waypoint (self : t N) (drawing : result unit) : t N * ending :=
  match waypoints self with
  | [] => (self, Box showinfo)
  | _ :: _ => (with_waypoints self (removelast (waypoints self)), uncaught drawing)
  end.

(** [clear_path], [askyesno] being the answer to the question. *)
Definition clear_path (self : t N) (askyesno : bool) (drawing : result unit)
  : t N * ending :=
  match waypoints self with
  | [] => (self, Quiet)
  | _ :: _ => if askyesno then (with_waypoints self [], uncaught drawing) else (self, Quiet)
  end.

(** *** Clicking *)


(** *** The size and the origin *)


(** [update_origin]: the first entry is stored before the second is read. *)
Definition update_origin (self : t N) (x_entry y_entry : option N)
    (drawing : result unit) : t N * ending :=
  match x_entry with
  | None => (self, Box showerror)
  | Some x_m =>
      let self' := with_origin_x self x_m in
      match y_entry with
      | None => (self', Box showerror)
      | Some y_m =>
          (with_origin_y self' y_m,
           except_ValueError (bind drawing (fun _ => Ok (Some showinfo))))
      end
  end.

(** [set_origin_center] *)
Definition set_origin_center (self : t N) (drawing : result unit) : t N * ending :=
  match num_truediv (warehouse_width_m self) (of_int 2) with
  | Raise e => (self, Uncaught e)
  | Ok x_m =>
      let self' := with_origin_x self x_m in
      match num_truediv (warehouse_height_m self') (of_int 2) with
      | Raise e => (self', Uncaught e)
      | Ok y_m => (with_origin_y self' y_m, uncaught drawing)
      end
  end.

(** Where [draw_origin] puts the marker "Origin (0,0)" on the canvas. *)
Definition origin_marker (self : t N) : N * N :=
  (num_mul (origin_x_m self) (scale self), num_mul (origin_y_m self) (scale self)).

(** *** Loading a layout *)

Definition cleared (self : t N) : t N :=
  Make (scale self) (warehouse_width_m self) (warehouse_height_m self)
    (origin_x_m self) (origin_y_m self) [] (selected_rack self) [].

(** [clear_all], [askyesno] being the answer to the question. *)
Definition clear_all (self : t N) (askyesno : bool) (drawing : result unit)
  : t N * ending :=
  if askyesno then
    let self' := with_selected (cleared self) None in
    (self', uncaught (update_warehouse_size self' drawing))
  else (self, Quiet).

(** The number an attribute of the state holds after it was assigned
    [obj]; an attribute that holds no number is outside the model. *)
Definition number_setting (obj : pyobj N) : option N :=
  match as_number obj with
  | Ok n => Some n
  | Raise _ => None
  end.

(** [Rack.from_dict(rack_data, ...)] for any object: the first subscript
    raises on what is not a mapping. *)
Definition rack_from_obj (self : t N) (rack_data : pyobj N) : result (Rack.t N) :=
  match rack_data with
  | PyDict d => Rack.from_dict d (origin_x_m self) (origin_y_m self) (scale self)
  | _ => Raise TypeError
  end.

(** The loop [for rack_data in data['racks']]: the state when it ends, and
    the exception that ended it early, if any. *)
Fixpoint load_racks (self : t N) (todo : list (pyobj N)) : t N * result unit :=
  match todo with
  | [] => (self, Ok tt)
  | rack_data :: todo' =>
      match rack_from_obj self rack_data with
      | Ok rack => load_racks (with_racks self (racks self ++ [rack])) todo'
      | Raise e => (self, Raise e)
      end
  end.

Definition waypoint_from_obj (self : t N) (wp : pyobj N) : result (N * N) :=
  match wp with
  | PyDict d => waypoint_from_dict self d
  | _ => Raise TypeError
  end.

Fixpoint append_waypoint_objects (self : t N) (todo : list (pyobj N)) : t N * result unit :=
  match todo with
  | [] => (self, Ok tt)
  | wp :: todo' =>
      match waypoint_from_obj self wp with
      | Ok w => append_waypoint_objects (with_waypoints self (waypoints self ++ [w])) todo'
      | Raise e => (self, Raise e)
      end
  end.

(** [waypoints_from_dict] on any object *)
Definition waypoints_from_obj (self : t N) (waypoints_data : pyobj N) : t N * result unit :=
  let self' := with_waypoints self [] in
  match iterate waypoints_data with
  | Ok items => append_waypoint_objects self' items
  | Raise e => (self', Raise e)
  end.

(** The lines of [load_layout] that load the path. *)
Definition load_path (self : t N) (data : dict N) : t N * result unit :=
  match lookup_key data (lit "path") with
  | None => (self, Ok tt)
  | Some path =>
      match contains_key (lit "waypoints") path with
      | Raise e => (self, Raise e)
      | Ok false => (self, Ok tt)
      | Ok true =>
          match subscript path (lit "waypoints") with
          | Raise e => (self, Raise e)
          | Ok waypoints_data => waypoints_from_obj self waypoints_data
          end
      end
  end.

(** [load_layout] from the value [json.load] returned on, when no rack is
    selected; [load_preset_template] goes on with the same lines once it
    has loaded the file of the preset. Nothing is returned for a layout
    whose scale, size or origin is not a number: the attributes of the model
    hold numbers. *)
Definition load_layout (self : t N) (data : pyobj N) (drawing : result unit)
  : option (t N * ending) :=
  match selected_rack self with
  | Some _ => None
  | None =>
  let self := cleared self in
  let ends (self : t N) (r : outcome unit) := Some (self, except_Exception showinfo r) in
  match data with
  | PyDict d =>
      match number_setting (get d (lit "scale") (PyNum (of_int 50))),
            number_setting (get d (lit "warehouse_width_m") (PyNum (of_int 40))),
            number_setting (get d (lit "warehouse_height_m") (PyNum (of_int 30))) with
      | Some new_scale, Some width, Some height =>
          let self := with_size (with_scale self new_scale) width height in
          match num_truediv width (of_int 2), num_truediv height (of_int 2) with
          | Ok half_width, Ok half_height =>
              let origin :=
                get d (lit "world_origin")
                  (PyDict [ (lit "x", PyNum half_width); (lit "y", PyNum half_height) ]) in
              match subscript origin (lit "x") with
              | Raise e => ends self (Failed (Exn e))
              | Ok x_obj =>
                  match number_setting x_obj with
                  | None => None
                  | Some x_m =>
                      let self := with_origin_x self x_m in
                      match subscript origin (lit "y") with
                      | Raise e => ends self (Failed (Exn e))
                      | Ok y_obj =>
                          match number_setting y_obj with
                          | None => None
                          | Some y_m =>
                              let self := with_origin_y self y_m in
                              match bind (getitem d (lit "racks")) iterate with
                              | Raise e => ends self (Failed (Exn e))
                              | Ok items =>
                                  match load_racks self items with
                                  | (self, Raise e) => ends self (Failed (Exn e))
                                  | (self, Ok _) =>
                                      match load_path self d with
                                      | (self, Raise e) => ends self (Failed (Exn e))
                                      | (self, Ok _) =>
                                          ends self
                                            (of_result (update_warehouse_size self drawing))
                                      end
                                  end
                              end
                          end
                      end
                  end
              end
          | Raise e, _ => ends self (Failed (Exn e))
          | _, Raise e => ends self (Failed (Exn e))
          end
      | _, _, _ => None
      end
  | _ => ends self (Failed AttributeError)
  end
  end.

(** *** The path as text *)

(** The text [export_path_txt] and [save_layout] write for the waypoints
    [waypoints_to_dict] returned, [str_of] being Python's [str]: the text
    written when the loop ends, and the exception that ended it early, if
    any. *)
Fixpoint goto_lines (str_of : pyobj N -> str) (waypoints_world : list (dict N))
  : str * result unit :=
  match waypoints_world with
  | [] => ([], Ok tt)
  | wp :: rest =>
      match getitem wp (lit "x") with
      | Raise e => ([], Raise e)
      | Ok x =>
          match getitem wp (lit "y") with
          | Raise e => ([], Raise e)
          | Ok y =>
              let line := lit "Character GoTo " ++ str_of x ++ lit " " ++ str_of y
                          ++ lit " 0.0 _" ++ [newline] in
              let '(text, r) := goto_lines str_of rest in
              (line ++ text, r)
          end
      end
  end.

(** [export_path_txt], [filename] being the answer of the file dialog
    (nothing when it was cancelled): the text in the file, if one was
    opened, and how the method ends. *)
Definition export_path_txt (self : t N) (filename : option str) (str_of : pyobj N -> str)
  : option str * ending :=
  match waypoints self with
  | [] => (None, Box showwarning)
  | _ :: _ =>
      match filename with
      | None => (None, Quiet)
      | Some _ =>
          match waypoints_to_dict self with
          | Raise e => (None, except_Exception showinfo (Failed (Exn e)))
          | Ok waypoints_world =>
              let '(text, r) := goto_lines str_of waypoints_world in
              (Some (lit "Character Idle 10" ++ [newline] ++ text),
               except_Exception showinfo (of_result r))
          end
      end
  end.

(** One line of the file [load_path_txt] reads: the waypoint record it
    adds, if any. [float_of] is Python's [float] on a [str], nothing when it
    raises [ValueError]. *)
Definition parse_line (float_of : str -> option N) (line : str) : option (dict N) :=
  let line := strip line in
  match line with
  | [] => None
  | _ :: _ =>
      if startswith line (lit "#") then None
      else
        let parts := split ","%char line in
        if 3 <=? length parts then
          match parts !! 1, parts !! 2 with
          | Some part1, Some part2 =>
              match float_of (strip part1) with
              | None => None
              | Some x =>
                  match float_of (strip part2) with
                  | None => None
                  | Some y => Some [ (lit "x", PyNum x); (lit "y", PyNum y) ]
                  end
              end
          | _, _ => None
          end
        else None
  end.

(** [load_path_txt] from the content of the chosen file on. *)
Definition load_path_txt (self : t N) (content : str) (float_of : str -> option N)
    (drawing : result unit) : t N * ending :=
  let waypoints_data :=
    omap (parse_line float_of) (readlines (universal_newlines content)) in
  match waypoints_data with
  | [] => (self, Box showwarning)
  | _ :: _ =>
      match waypoints_from_dict self waypoints_data with
      | (self', Some e) => (self', except_Exception showinfo (Failed (Exn e)))
      | (self', None) => (self', except_Exception showinfo (of_result drawing))
      end
  end.

End Editing.

Arguments rack_entries N : clear implicits.
Arguments canvas N : clear implicits.

End WarehouseEditing.

(** * Vocabulary of the properties *)

(** ** change_arg_in_yaml.py *)

Module ChangeArgInYamlSpec.
Import Py ChangeArgInYaml.

(** What the text after the colon has to look like: anything without a
    newline, then at most one final newline. *)
Definition line_rest (rest : str) : Prop :=
  exists r, forallb dot r = true /\ (rest = r \/ rest = r ++ [newline]).

(** The components of a parameter path match lines in order: component
    after component on strictly later lines, the terminal component on the
    line of index [k]. *)
Inductive ordered_match : list str -> list str -> nat -> Prop :=
| om_terminal p line ls :
    re_search p line = true -> ordered_match [p] (line :: ls) 0
| om_component p q tree line ls k :
    re_search p line = true -> ordered_match (q :: tree) ls k ->
    ordered_match (p :: q :: tree) (line :: ls) (S k)
| om_later tree line ls k :
    ordered_match tree ls k -> ordered_match tree (line :: ls) (S k).

(** The order in which the loop takes the lines: each component on the
    first line that matches it. *)
Fixpoint first_match (tree : list str) (ls : list str) : option nat :=
  match ls, tree with
  | line :: ls', p :: rest =>
      if re_search p line then
        match rest with
        | [] => Some 0
        | _ :: _ => option_map S (first_match rest ls')
        end
      else option_map S (first_match tree ls')
  | _, _ => None
  end.

(** The text that replaces a matched terminal line. *)
Definition new_line_of (new_value line : str) : option str :=
  match find_char colon line with
  | None => None
  | Some colon_index =>
      Some (take (colon_index + 1) line ++ lit " " ++ new_value
            ++ match find_char hash line with
               | Some comment_index => lit " " ++ drop comment_index line
               | None => [newline]
               end)
  end.

(** The lines [replace_parameter] reads from a file. *)
Definition lines_read (content : str) : list str :=
  readlines (universal_newlines content).

(** All lines of the file but the one of index [i] are, byte for byte, what
    they were. *)
Definition other_lines_unchanged (before after : str) (i : nat) : Prop :=
  forall j, j <> i -> readlines after !! j = readlines before !! j.

(** A file with the line endings of Windows. *)
Definition crlf_yaml : str :=
  lit "a: 1" ++ [carriage_return; newline] ++ lit "b: 2" ++ [carriage_return; newline].

(** A file to try the functions on. *)
Definition features_yaml : str := lit "# features
kilo-v1:
  lidar_mapper: true # keep
  other: 1
last: 5".

(** A value is reached from a configuration by a path when every component
    is a key of the mapping reached so far. *)
Inductive reaches : yaml -> list str -> yaml -> Prop :=
| reaches_here config : reaches config [] config
| reaches_down items p rest config v :
    dict_item items p = Ok config -> reaches config rest v ->
    reaches (YMap items) (p :: rest) v.

End ChangeArgInYamlSpec.

(** ** place_racks_startup.py *)

Module PlaceRacksStartupSpec.
Import Py PyNumber PyObject PlaceRacksStartup.

(** The call returned. *)
Definition is_ok {A} (r : result A) : bool :=
  match r with
  | Ok _ => true
  | Raise _ => false
  end.

Section Placement.
Context {N : Type} `{Number N}.

(** The prim of rack [i] is obtained: the reference is created, the
    application updates and [get_prim_at_path] returns a prim that counts
    as true. *)
Definition prim_obtained (sim : isaac_sim N) (i : nat) : bool :=
  is_ok (create_reference sim i) && is_ok (app_update sim i)
  && match get_prim_at_path sim i with
     | Ok b => b
     | Raise _ => false
     end.

(** Every step inside the [try] went through for rack [i]. *)
Definition fully_placed (sim : isaac_sim N) (i : nat) (rack : pyobj N) : bool :=
  prim_obtained sim i
  && is_ok (add_translate_op sim i)
  && match subscript rack (lit "x"), subscript rack (lit "y") with
     | Ok x_m, Ok y_m =>
         match Vec3d x_m y_m with
         | Ok (x, y) => is_ok (set_translate sim i x y)
         | Raise _ => false
         end
     | _, _ => false
     end
  && match subscript rack (lit "rotation") with
     | Ok rotation =>
         if ne_zero rotation
         then is_ok (add_rotate_op sim i) && is_ok (set_rotate sim i rotation)
         else true
     | Raise _ => false
     end.

(** Isaac Sim raises nothing but subclasses of [Exception]. *)
Definition raises_exceptions_only (sim : isaac_sim N) : Prop :=
  forall i e,
    (create_reference sim i = Raise e \/ app_update sim i = Raise e
     \/ get_prim_at_path sim i = Raise e \/ add_translate_op sim i = Raise e
     \/ (exists x y, set_translate sim i x y = Raise e)
     \/ add_rotate_op sim i = Raise e
     \/ (exists r, set_rotate sim i r = Raise e)) ->
    is_Exception e = true.

(** The rack has an ["x"] and a ["y"]. *)
Definition has_position (rack : pyobj N) : Prop :=
  exists x_m y_m, subscript rack (lit "x") = Ok x_m /\ subscript rack (lit "y") = Ok y_m.

(** The rack a printed line is about. *)
Definition about (l : line N) : option nat :=
  match l with
  | Placed i _ _ | NoPrim i | ErrorWith i _ => Some i
  | Complete _ _ => None
  end.

(** The line reports a placed rack. *)
Definition is_placed (l : line N) : bool :=
  match l with
  | Placed _ _ _ => true
  | _ => false
  end.

(** Racks [i], [i+1], ... of [racks] that were fully placed. *)
Fixpoint count_placed (sim : isaac_sim N) (i : nat) (racks : list (pyobj N)) : nat :=
  match racks with
  | [] => 0
  | rack :: racks' =>
      (if fully_placed sim i rack then 1 else 0) + count_placed sim (S i) racks'
  end.

(** Racks [i], [i+1], ... of [racks] whose prim is obtained. *)
Fixpoint count_prims (sim : isaac_sim N) (i : nat) (racks : list (pyobj N)) : nat :=
  match racks with
  | [] => 0
  | _ :: racks' => (if prim_obtained sim i then 1 else 0) + count_prims sim (S i) racks'
  end.

(** The counter as the specification states it: one for every rack whose
    prim is obtained. *)
Definition counts_obtained_prims (sim : isaac_sim N) (racks : list (pyobj N)) : Prop :=
  exists st, place_racks sim racks = Ok st /\ successful st = count_prims sim 0 racks.

End Placement.

(** Isaac Sim doing everything it is asked. *)
Definition obliging_sim : isaac_sim float :=
  IsaacSim (fun _ => Ok tt) (fun _ => Ok tt) (fun _ => Ok true)
    (fun _ => Ok tt) (fun _ _ _ => Ok tt) (fun _ => Ok tt) (fun _ _ => Ok tt).

(** Isaac Sim failing to create the reference of rack 1. *)
Definition sim_failing_once : isaac_sim float :=
  IsaacSim (fun i => if i =? 1 then Raise (RuntimeError (lit "no asset")) else Ok tt)
    (fun _ => Ok tt) (fun _ => Ok true)
    (fun _ => Ok tt) (fun _ _ _ => Ok tt) (fun _ => Ok tt) (fun _ _ => Ok tt).

(** A rack record as the designer saves it. *)
Definition rack_at (x_m y_m rotation : float) : pyobj float :=
  PyDict [ (lit "type", PyStr (lit "SmallRack"));
           (lit "x", PyNum x_m); (lit "y", PyNum y_m);
           (lit "width_m", PyNum 2%float); (lit "depth_m", PyNum 1%float);
           (lit "rotation", PyNum rotation) ].

Definition three_racks : list (pyobj float) :=
  [rack_at 1 2 0; rack_at 3 2 90; rack_at 5 2 0].

(** A rack without a ["rotation"]: its prim is obtained and its translation
    is set, then [rack["rotation"]] raises inside the [try]. *)
Definition rack_without_rotation : pyobj float :=
  PyDict [ (lit "x", PyNum 1%float); (lit "y", PyNum 2%float) ].

End PlaceRacksStartupSpec.

(** ** warehouse_generator.py *)

Module WarehouseGeneratorSpec.
Import Py PyNumber PyObject WarehouseGenerator.
Import PlaceRacksStartupSpec (is_ok).


Section AnyNumber.
Context {N : Type} `{Number N}.

(** Division by [scale] is defined, whatever is divided. *)
Definition divides (scale : N) : Prop :=
  forall a, is_ok (num_truediv a scale) = true.

(** The record [to_dict] builds from the two quotients. *)
Definition rack_record (self : Rack.t N) (origin_x_m origin_y_m x_m y_m : N) : dict N :=
  [ (lit "type", Rack.rack_type self);
    (lit "x", PyNum (num_round3 (num_sub y_m origin_y_m)));
    (lit "y", PyNum (num_round3 (num_sub x_m origin_x_m)));
    (lit "width_m", Rack.width_m self);
    (lit "depth_m", Rack.depth_m self);
    (lit "rotation", Rack.rotation self) ].

(** The record [waypoints_to_dict] builds from the two quotients. *)
Definition waypoint_record (self : WarehouseDesigner.t N) (x_m y_m : N) : dict N :=
  [ (lit "x", PyNum (num_round3 (num_sub y_m (WarehouseDesigner.origin_y_m self))));
    (lit "y", PyNum (num_round3 (num_sub x_m (WarehouseDesigner.origin_x_m self)))) ].



(** The canvas coordinate read back from the record of a quotient. *)
Definition back (origin scale quotient : N) : N :=
  num_mul (num_add (num_round3 (num_sub quotient origin)) origin) scale.

(** A waypoint read back from the record of its two quotients. *)
Definition waypoint_back (self : WarehouseDesigner.t N) (q : N * N) : N * N :=
  (back (WarehouseDesigner.origin_x_m self) (WarehouseDesigner.scale self) (fst q),
   back (WarehouseDesigner.origin_y_m self) (WarehouseDesigner.scale self) (snd q)).

End AnyNumber.

(** Two canvas positions, a rounding of the world coordinates apart. *)
Definition close (scale : Q) (a b : Q * Q) : Prop :=
  (Qabs (fst b - fst a) <= (5 # 10000) * scale
   /\ Qabs (snd b - snd a) <= (5 # 10000) * scale)%Q.

(** The distance the specification allows after a round trip, in doubles. *)
Definition within_rounding (scale a b : float) : bool :=
  (abs (b - a) <=? 0.0005 * scale)%float.

(** *** Concrete layouts *)

(** A small-rack at canvas position (100, 200), in doubles. *)
Definition small_rack : Rack.t float :=
  Rack.Make 100%float 200%float (PyNum 2%float) (PyNum 0.96%float)
    (PyNum 0%float) (PyStr (lit "SmallRack")).

(** The designer as it starts (50 pixels per meter, origin at the centre
    of the 30 m by 20 m warehouse) with one rack, selected, and one
    waypoint. *)
Definition designer : WarehouseDesigner.t float :=
  WarehouseDesigner.Make 50%float 30%float 20%float 15%float 10%float
    [small_rack] (Some 0%nat) [(250%float, 125%float)].

(** The same rack and designer with exact numbers. *)
Definition exact_rack : Rack.t Q :=
  Rack.Make 100%Q 200%Q (PyNum 2%Q) (PyNum (96 # 100)%Q) (PyNum 0%Q)
    (PyStr (lit "SmallRack")).

Definition exact_designer : WarehouseDesigner.t Q :=
  WarehouseDesigner.Make 50%Q 30%Q 20%Q 15%Q 10%Q [exact_rack] (Some 0%nat)
    [(250%Q, 125%Q)].



End WarehouseGeneratorSpec.

(** ** change_arg_in_yaml.py: what is printed *)

Module ChangeArgInYamlReport.
Import Py ChangeArgInYaml.

(** The key of a line: the text before its first colon, without the
    whitespace around it. *)
Definition key_of (line : str) : str :=
  match find_char colon line with
  | Some colon_index => strip (take colon_index line)
  | None => []
  end.

(** The keys of the lines the components of a path are found on, each
    component on the first line that matches it after the line of the
    component before. *)
Fixpoint matched_keys (tree : list str) (ls : list str) : list str :=
  match ls, tree with
  | line :: ls', p :: rest =>
      if re_search p line then
        key_of line :: match rest with
                       | [] => []
                       | _ :: _ => matched_keys rest ls'
                       end
      else matched_keys tree ls'
  | _, _ => []
  end.

(** Keys written one after the other with dots between them; no dot
    follows an empty beginning. *)
Definition join_keys (keys : list str) : str :=
  fold_left (fun joined key =>
               joined ++ (if str_eqb joined [] then [] else lit ".") ++ key)
    keys [].

(** A file whose second line holds a parameter that is commented out. *)
Definition commented_yaml : str := lit "paths:
  #spoof_kpc: false
".

End ChangeArgInYamlReport.

(** ** place_racks_startup.py: the configuration *)

Module PlaceRacksConfigurationSpec.
Import Py PyNumber PyObject PyMethods PlaceRacksConfiguration.

(** The number a text of decimal digits stands for, read digit by digit. *)
Fixpoint text_uint (s : str) : Decimal.uint :=
  match s with
  | [] => Decimal.Nil
  | c :: s' =>
      let d := text_uint s' in
      if ascii_eqb c "0" then Decimal.D0 d
      else if ascii_eqb c "1" then Decimal.D1 d
      else if ascii_eqb c "2" then Decimal.D2 d
      else if ascii_eqb c "3" then Decimal.D3 d
      else if ascii_eqb c "4" then Decimal.D4 d
      else if ascii_eqb c "5" then Decimal.D5 d
      else if ascii_eqb c "6" then Decimal.D6 d
      else if ascii_eqb c "7" then Decimal.D7 d
      else if ascii_eqb c "8" then Decimal.D8 d
      else Decimal.D9 d
  end.

(** The index a prim path ends with. *)
Definition index_of_path (rack_path : str) : nat :=
  Nat.of_uint (text_uint (drop (length (racks_parent_path ++ lit "/Rack_")) rack_path)).

(** *** Files to try the configuration on *)

(** A [place_racks.yaml] with a path for every kind of warehouse. *)
Definition place_racks_yaml : pyobj float :=
  PyDict [ (lit "json_file_path", PyStr (lit "layout.json"));
           (lit "warehouse_usd_file",
              PyDict [ (lit "small", PyStr (lit "/assets/small.usd"));
                       (lit "big", PyStr (lit "default path")) ]);
           (lit "rack_asset_file",
              PyDict [ (lit "narrow_standard", PyStr (lit "/assets/rack.usd")) ]) ].

(** A layout as the designer saves it, for the warehouse type "Small". *)
Definition layout_json : pyobj float :=
  PyDict [ (lit "warehouse_type", PyStr (lit "Small"));
           (lit "scale", PyNum 50%float);
           (lit "racks", PyList []) ].

(** A file system that holds the layout under [layout.json] only. *)
Definition one_file (path : pyobj float) : outcome (pyobj float) :=
  if eq_text path (lit "layout.json") then Done layout_json else Failed OSError.

End PlaceRacksConfigurationSpec.

(** ** warehouse_generator.py: editing the layout *)

Module WarehouseEditingSpec.
Import Py PyNumber PyObject PyMethods WarehouseGenerator WarehouseEditing.
Import WarehouseDesigner.

Definition comma : ascii := ","%char.

Section AnyNumber.
Context {N : Type} `{Number N}.

(** Every rack of the layout lies within the bounds of the warehouse. *)
Definition racks_within_bounds (self : t N) : Prop :=
  Forall (fun rack => within_bounds self (Rack.x rack) (Rack.y rack) = true) (racks self).

(** Clicking the waypoints [ws] one after the other in path mode. *)
Fixpoint add_waypoints (self : t N) (ws : list (N * N)) (drawing : result unit) : t N :=
  match ws with
  | [] => self
  | w :: ws' => add_waypoints (fst (add_waypoint self (fst w) (snd w) drawing)) ws' drawing
  end.

(** Undoing the last waypoint [n] times. *)
Fixpoint undo_waypoints (self : t N) (n : nat) (drawing : result unit) : t N :=
  match n with
  | O => self
  | S n' => undo_waypoints (fst (undo_last_waypoint self drawing)) n' drawing
  end.

(** What [load_path_txt] makes of a line of the file: nothing of a blank
    line and of a comment, and a point of a line whose second and third
    field, of at least three fields separated by commas, are read by
    [float]. The first field is anything without a comma. *)
Inductive line_reads (float_of : str -> option N) (line : str) : option (N * N) -> Prop :=
| reads_blank : strip line = [] -> line_reads float_of line None
| reads_comment :
    startswith (strip line) (lit "#") = true -> line_reads float_of line None
| reads_point (number field_x field_y more : str) (x y : N) :
    strip line = number ++ comma :: field_x ++ comma :: field_y ++ more ->
    strip line <> [] -> startswith (strip line) (lit "#") = false ->
    contains comma number = false -> contains comma field_x = false ->
    contains comma field_y = false ->
    (more = [] \/ exists rest, more = comma :: rest) ->
    float_of (strip field_x) = Some x -> float_of (strip field_y) = Some y ->
    line_reads float_of line (Some (x, y)).

(** The waypoint on the canvas for the point a line of the file gives. *)
Definition point_on_canvas (self : t N) (p : N * N) : N * N :=
  (num_mul (num_add (snd p) (origin_x_m self)) (scale self),
   num_mul (num_add (fst p) (origin_y_m self)) (scale self)).

(** The same rack at another place. *)
Definition moved (rack rack' : Rack.t N) : Prop :=
  Rack.width_m rack' = Rack.width_m rack /\ Rack.depth_m rack' = Rack.depth_m rack
  /\ Rack.rotation rack' = Rack.rotation rack /\ Rack.rack_type rack' = Rack.rack_type rack.

End AnyNumber.




(** *** Concrete layouts *)

(** The designer of [WarehouseGeneratorSpec] with no rack selected. *)
Definition idle_designer : t Q :=
  with_selected WarehouseGeneratorSpec.exact_designer None.


(** The mouse in select mode, the drag started on the selected rack. *)
Definition dragging : canvas Q :=
  Canvas WarehouseGeneratorSpec.exact_designer Select (Some (100%Q, 200%Q)) false.


(** A layout file without a ["racks"] entry. *)
Definition layout_without_racks : dict Q :=
  [ (lit "scale", PyNum 40%Q); (lit "warehouse_width_m", PyNum 54%Q) ].

(** What is left of the designer after that file was tried. *)
Definition after_failed_load : t Q :=
  Make 40%Q 54%Q 30%Q (54 # 2)%Q (30 # 2)%Q [] None [].

(** The designer with its rack selected, 10 pixels from the right edge. *)
Definition designer_at_the_edge : t Q :=
  Make 50%Q 30%Q 20%Q 15%Q 10%Q
    [Rack.Make 1490%Q 200%Q (PyNum 2%Q) (PyNum (96 # 100)%Q) (PyNum 0%Q)
       (PyStr (lit "SmallRack"))]
    (Some 0%nat) [].

(** A rack on the origin marker of the designer, and the record of a rack
    at world (0, 0). *)
Definition rack_on_marker : Rack.t Q :=
  Rack.Make 750%Q 500%Q (PyNum 2%Q) (PyNum (96 # 100)%Q) (PyNum 0%Q)
    (PyStr (lit "SmallRack")).

Definition record_at_zero : dict Q :=
  [ (lit "type", PyStr (lit "SmallRack"));
    (lit "x", PyNum 0%Q); (lit "y", PyNum 0%Q);
    (lit "width_m", PyNum 2%Q); (lit "depth_m", PyNum (96 # 100)%Q);
    (lit "rotation", PyNum 0%Q) ].

(** [str] of a [Fraction]: the numerator, and the denominator after a
    slash when it is not 1. Only numbers are written to the path. *)
Definition str_of_fraction (obj : pyobj Q) : str :=
  match obj with
  | PyNum q =>
      let r := Qred q in
      (if (Qnum r <? 0)%Z then lit "-" else [])
      ++ PlaceRacksConfiguration.uint_text (Nat.to_uint (Z.abs_nat (Qnum r)))
      ++ (if (Qden r =? 1)%positive then []
          else lit "/" ++ PlaceRacksConfiguration.uint_text (Pos.to_uint (Qden r)))
  | _ => []
  end.

(** A [float] that reads every text as 1. *)
Definition float_of_anything (text : str) : option Q := Some 1%Q.

(** A [float] for the numbers of the file below. *)
Definition float_of_digit (text : str) : option Q :=
  match text with
  | [c] =>
      let n := nat_of_ascii c in
      if (48 <=? n)%nat && (n <=? 57)%nat then Some (inject_Z (Z.of_nat (n - 48))) else None
  | _ => None
  end.

(** A path file in the format [load_path_txt] reads. *)
Definition numbered_path : str := lit "# waypoint, x, y
1, 2, 3

2, 4, 5, stop
".

(** The file [export_path_txt] writes for the path of [exact_designer]. *)
Definition exported_path : str := lit "Character Idle 10
Character GoTo -15/2 -10 0.0 _
".

End WarehouseEditingSpec.
(** * Properties *)

(** ** change_arg_in_yaml.py *)

Module ChangeArgInYamlFacts.
Import Py ChangeArgInYaml ChangeArgInYamlSpec.

Lemma ascii_eqb_eq a b : ascii_eqb a b = true <-> a = b.
Proof. apply Ascii.eqb_eq. Qed.

Lemma str_eqb_eq s t : str_eqb s t = true <-> s = t.
Proof.
  revert t; induction s as [|a s IH]; intros [|b t]; simpl; try easy.
  rewrite andb_true_iff, ascii_eqb_eq, IH. split.
  - intros [-> ->]; reflexivity.
  - intros [= -> ->]; auto.
Qed.

Lemma ascii_eqb_refl c : ascii_eqb c c = true.
Proof. apply ascii_eqb_eq. reflexivity. Qed.

Lemma matches_many p r s :
  matches (Many p :: r) s = true <->
  exists a s', s = a ++ s' /\ forallb p a = true /\ matches r s' = true.
Proof.
  cbn [matches]. induction s as [|c s IH].
  - rewrite orb_false_r. split.
    + intros H. exists [], []. auto.
    + intros (a & s' & E & _ & H). symmetry in E. apply app_eq_nil in E as [-> ->]. exact H.
  - rewrite orb_true_iff, andb_true_iff, IH. split.
    + intros [H | (Hc & a & s' & -> & Ha & H)].
      * exists [], (c :: s). auto.
      * exists (c :: a), s'. simpl. rewrite Hc, Ha. auto.
    + intros ([|c' a] & s' & E & Ha & H).
      * left. simpl in E. subst s'. exact H.
      * right. simpl in E. injection E as -> ->. simpl in Ha.
        apply andb_true_iff in Ha as [Hc Ha]. split; [exact Hc|].
        exists a, s'. auto.
Qed.

Lemma matches_literal name r s :
  matches (map (fun c => Cls (ascii_eqb c)) name ++ r) s = true <->
  exists s', s = name ++ s' /\ matches r s' = true.
Proof.
  revert s; induction name as [|c name IH]; intros s.
  - simpl. split; [intros H; exists s; auto | intros (s' & -> & H); exact H].
  - cbn [map app matches]. destruct s as [|d s].
    + split; [discriminate | intros (s' & E & _); discriminate].
    + rewrite andb_true_iff, ascii_eqb_eq, IH. split.
      * intros (-> & s' & -> & H). exists s'. auto.
      * intros (s' & E & H). simpl in E. injection E as -> ->. eauto.
Qed.

Lemma at_end_spec s : at_end s = true <-> s = [] \/ s = [newline].
Proof.
  destruct s as [|c [|d s]]; simpl.
  - intuition.
  - rewrite ascii_eqb_eq. split.
    + intros ->. auto.
    + intros [E | E]; [discriminate | injection E; auto].
  - split; [discriminate | intros [E | E]; discriminate].
Qed.

(** The matcher decides the language of the pattern. *)
Lemma re_search_spec p line :
  re_search p line = true <->
  exists w a b rest,
    line = w ++ a ++ p ++ b ++ colon :: rest
    /\ forallb is_space w = true /\ forallb non_space a = true
    /\ forallb non_space b = true /\ line_rest rest.
Proof.
  unfold re_search, search_pattern. cbn [app].
  rewrite matches_many. split.
  - intros (w & s1 & -> & Hw & H). apply matches_many in H as (a & s2 & -> & Ha & H).
    apply matches_literal in H as (s3 & -> & H).
    apply matches_many in H as (b & s4 & -> & Hb & H).
    cbn [matches] in H. destruct s4 as [|c s4]; [discriminate|].
    apply andb_true_iff in H as [Hc H]. apply ascii_eqb_eq in Hc. subst c.
    change (matches [Many dot; Dollar] s4 = true) in H.
    apply matches_many in H as (r & s5 & -> & Hr & H).
    cbn [matches] in H. rewrite andb_true_r in H. apply at_end_spec in H.
    exists w, a, b, (r ++ s5). repeat split; auto.
    exists r. split; [exact Hr|]. destruct H as [-> | ->]; [left; apply app_nil_r | right; reflexivity].
  - intros (w & a & b & rest & -> & Hw & Ha & Hb & r & Hr & Hrest).
    exists w, (a ++ p ++ b ++ colon :: rest). repeat split; auto.
    apply matches_many. exists a, (p ++ b ++ colon :: rest). repeat split; auto.
    apply matches_literal. exists (b ++ colon :: rest). split; auto.
    apply matches_many. exists b, (colon :: rest). repeat split; auto.
    cbn [matches]. rewrite ascii_eqb_refl. cbn [andb].
    change (matches [Many dot; Dollar] rest = true).
    apply matches_many.
    destruct Hrest as [-> | ->].
    + exists r, []. rewrite app_nil_r. auto.
    + exists r, [newline]. auto.
Qed.

Lemma find_char_contains c s :
  contains c s = true <-> exists i, find_char c s = Some i.
Proof.
  unfold contains. induction s as [|a s IH]; simpl.
  - split; [discriminate | intros [i H]; discriminate].
  - destruct (ascii_eqb c a); simpl.
    + split; eauto.
    + rewrite IH. split; intros [i H].
      * rewrite H. simpl. eauto.
      * destruct (find_char c s); [eauto | discriminate].
Qed.

(** [find_char] returns the first occurrence. *)
Lemma find_char_first c s i :
  find_char c s = Some i ->
  s !! i = Some c /\ contains c (take i s) = false.
Proof.
  revert i; induction s as [|a s IH]; intros i; simpl; [discriminate|].
  destruct (ascii_eqb c a) eqn:E.
  - intros [= <-]. apply ascii_eqb_eq in E. subst a. auto.
  - destruct (find_char c s) as [j|]; [|discriminate]. intros [= <-].
    destruct (IH j eq_refl) as [H1 H2]. split; [exact H1|].
    unfold contains in *. simpl. rewrite E. exact H2.
Qed.

Lemma index_found c s i : find_char c s = Some i -> index c s = Ok i.
Proof. unfold index. intros ->. reflexivity. Qed.

Lemma re_search_colon p line :
  re_search p line = true -> exists i, find_char colon line = Some i.
Proof.
  intros H. apply re_search_spec in H as (w & a & b & rest & -> & _).
  apply find_char_contains. unfold contains.
  rewrite !existsb_app. cbn [existsb]. rewrite ascii_eqb_refl.
  rewrite !orb_true_r. reflexivity.
Qed.

Lemma first_match_ordered tree ls k :
  first_match tree ls = Some k -> ordered_match tree ls k.
Proof.
  revert tree k; induction ls as [|line ls IH]; intros tree k; [discriminate|].
  destruct tree as [|p rest]; [discriminate|]. simpl.
  destruct (re_search p line) eqn:E.
  - destruct rest as [|q rest].
    + intros [= <-]. constructor. exact E.
    + destruct (first_match (q :: rest) ls) as [j|] eqn:F; [|discriminate].
      intros [= <-]. apply om_component; auto.
  - destruct (first_match (p :: rest) ls) as [j|] eqn:F; [|discriminate].
    intros [= <-]. apply om_later; auto.
Qed.

Lemma ordered_match_tail p q tree ls k :
  ordered_match (p :: q :: tree) ls k -> ordered_match (q :: tree) ls k.
Proof.
  intros H. remember (p :: q :: tree) as t eqn:Et.
  induction H as [p' line ls _ | p' q' tree' line ls k _ H _ | tree' line ls k H IH].
  - discriminate.
  - injection Et as -> -> ->. apply om_later. exact H.
  - apply om_later. apply IH. exact Et.
Qed.

Lemma ordered_match_nil ls k : ~ ordered_match [] ls k.
Proof.
  intros H. remember [] as t eqn:Et.
  induction H; try discriminate. auto.
Qed.

Lemma ordered_match_first tree ls k :
  ordered_match tree ls k -> exists g, first_match tree ls = Some g /\ g <= k.
Proof.
  revert tree k; induction ls as [|line ls IH]; intros tree k H.
  - inversion H.
  - inversion H as [p l ls' Hp | p q tree' l ls' k' Hp Hrest | tree' l ls' k' Hrest]; subst.
    + exists 0. simpl. rewrite Hp. auto.
    + simpl. rewrite Hp. destruct (IH _ _ Hrest) as (g & -> & Hg).
      exists (S g). split; [reflexivity | lia].
    + destruct tree as [|p rest]; [destruct (ordered_match_nil _ _ Hrest)|]. simpl.
      destruct (re_search p line).
      * destruct rest as [|q rest].
        -- exists 0. split; [reflexivity | lia].
        -- apply ordered_match_tail in Hrest.
           destruct (IH _ _ Hrest) as (g & -> & Hg).
           exists (S g). split; [reflexivity | lia].
      * destruct (IH _ _ Hrest) as (g & -> & Hg).
        exists (S g). split; [reflexivity | lia].
Qed.

Lemma rewrite_line_spec nv ci line :
  find_char colon line = Some ci ->
  exists nl, rewrite_line nv ci line = Ok nl /\ new_line_of nv line = Some nl.
Proof.
  intros Hc. unfold rewrite_line, new_line_of, index. rewrite Hc.
  destruct (contains hash line) eqn:Eh.
  - apply find_char_contains in Eh as [h Eh]. rewrite Eh. simpl. eauto.
  - destruct (find_char hash line) as [h|] eqn:Fh.
    + assert (contains hash line = true) by (apply find_char_contains; eauto). congruence.
    + eauto.
Qed.

(** The loop against [first_match]: with a match, exactly the line of that
    index is assigned; without one, nothing is. *)
Lemma scan_lines_spec nv todo : forall i st,
  param_tree st <> [] ->
  match first_match (param_tree st) todo with
  | Some k =>
      exists line nl st',
        todo !! k = Some line /\ new_line_of nv line = Some nl
        /\ scan_lines nv i todo st = Ok st'
        /\ lines st' = <[i + k := nl]> (lines st) /\ replaced st' = true
  | None =>
      exists st', scan_lines nv i todo st = Ok st'
        /\ lines st' = lines st /\ replaced st' = replaced st
  end.
Proof.
  induction todo as [|line todo IH]; intros i st Hne.
  - simpl. destruct (param_tree st); eauto.
  - destruct st as [tree pn ms ls rp]. simpl in Hne.
    destruct tree as [|p rest]; [congruence|].
    cbn [first_match scan_lines scan_step param_tree].
    destruct (re_search p line) eqn:E.
    + destruct (re_search_colon _ _ E) as [ci Hci]. rewrite (index_found _ _ _ Hci).
      cbn [bind length match_str lines replaced param_tree].
      destruct rest as [|q rest].
      * cbn [length Nat.ltb Nat.leb].
        destruct (rewrite_line_spec nv ci line Hci) as (nl & -> & Hnl).
        cbn [bind]. exists line, nl. eexists. repeat split; eauto.
        cbn [lines]. rewrite Nat.add_0_r. reflexivity.
      * cbn [length Nat.ltb Nat.leb].
        specialize (IH (S i) (Scan (q :: rest) p
          (ms ++ (if str_eqb ms [] then [] else lit ".") ++ strip (take ci line)) ls rp)).
        cbn [param_tree lines replaced] in IH.
        destruct (first_match (q :: rest) todo) as [k|]; cbn [option_map].
        -- destruct IH as (l & nl & st' & H1 & H2 & H3 & H4 & H5); [congruence|].
           exists l, nl, st'. repeat split; auto.
           rewrite H4. f_equal. lia.
        -- destruct IH as (st' & H1 & H2 & H3); [congruence|]. eauto.
    + cbn [bind].
      specialize (IH (S i) (Scan (p :: rest) p ms ls rp)).
      cbn [param_tree lines replaced] in IH.
      destruct (first_match (p :: rest) todo) as [k|]; cbn [option_map].
      * destruct IH as (l & nl & st' & H1 & H2 & H3 & H4 & H5); [congruence|].
        exists l, nl, st'. repeat split; auto.
        rewrite H4. f_equal. lia.
      * destruct IH as (st' & H1 & H2 & H3); [congruence|]. eauto.
Qed.

Lemma split_nonempty sep s : split sep s <> [].
Proof.
  destruct s as [|c s]; simpl; [discriminate|].
  destruct (ascii_eqb c sep); [discriminate|].
  destruct (split sep s); discriminate.
Qed.

Lemma universal_newlines_id s :
  contains carriage_return s = false -> universal_newlines s = s.
Proof.
  unfold contains. induction s as [|c s IH]; [reflexivity|].
  cbn [existsb universal_newlines]. intros Hc. apply orb_false_iff in Hc as [Hc Hs].
  assert (Hc' : ascii_eqb c carriage_return = false).
  { destruct (ascii_eqb c carriage_return) eqn:E; [|reflexivity].
    apply ascii_eqb_eq in E. subst c. rewrite ascii_eqb_refl in Hc. discriminate. }
  rewrite Hc'. f_equal. apply IH. exact Hs.
Qed.

(** The lines of a text are the text, cut. *)
Lemma writelines_readlines s : writelines (readlines s) = s.
Proof.
  unfold writelines. induction s as [|c s IH]; [reflexivity|].
  cbn [readlines]. destruct (ascii_eqb c newline).
  - cbn [concat app]. rewrite IH. reflexivity.
  - destruct (readlines s) as [|l ls] eqn:E.
    + destruct s as [|d s]; [reflexivity|]. exfalso.
      cbn [readlines] in E. destruct (ascii_eqb d newline); [discriminate|].
      destruct (readlines s); discriminate.
    + cbn [concat app] in *. rewrite IH. reflexivity.
Qed.

(** C3, as the code has it. For a parameter path of plain names whose
    components match lines of the file in order, [replace_parameter]
    rewrites one line, the first on which such a match can end: the new line
    is the old one up to and including its first colon, a space, the new
    value, and then a space and the old text from the first [#] on when the
    line has a [#], a newline otherwise. The written file is the lines read
    with that one replaced, every other line as it was read; and in a file
    without carriage returns the lines read are, byte for byte, the lines
    of the file. *)
Theorem replace_parameter_rewrites_one_line content filename param v :
  forallb plain_name (path_of param) = true ->
  (exists k, ordered_match (path_of param) (lines_read content) k) ->
  exists i line colon_index nl msg,
    ordered_match (path_of param) (lines_read content) i
    /\ (forall j, ordered_match (path_of param) (lines_read content) j -> i <= j)
    /\ lines_read content !! i = Some line
    /\ find_char colon line = Some colon_index
    /\ nl = take (colon_index + 1) line ++ lit " " ++ value_text v
            ++ match find_char hash line with
               | Some comment_index => lit " " ++ drop comment_index line
               | None => [newline]
               end
    /\ replace_parameter content filename param v
       = Ok (Outcome (writelines (<[i := nl]> (lines_read content))) msg)
    /\ length (<[i := nl]> (lines_read content)) = length (lines_read content)
    /\ (forall j, j <> i ->
          <[i := nl]> (lines_read content) !! j = lines_read content !! j)
    /\ (contains carriage_return content = false ->
          lines_read content = readlines content
          /\ writelines (lines_read content) = content).
Proof.
  intros _ [k Hk].
  destruct (ordered_match_first _ _ _ Hk) as (g & Hg & _).
  pose proof (scan_lines_spec (value_text v) (lines_read content) 0
                (Scan (path_of param) param [] (lines_read content) false)) as S.
  cbn [param_tree lines replaced] in S. rewrite Hg in S.
  destruct S as (line & nl & st' & Hline & Hnl & Hscan & Hlines & Hrep).
  { apply split_nonempty. }
  unfold new_line_of in Hnl.
  destruct (find_char colon line) as [ci|] eqn:Hci; [|discriminate].
  injection Hnl as Hnl.
  exists g, line, ci, nl. eexists. split; [apply first_match_ordered; exact Hg|].
  split.
  { intros j Hj. destruct (ordered_match_first _ _ _ Hj) as (g' & Hg' & Hle).
    rewrite Hg in Hg'. injection Hg' as <-. exact Hle. }
  split; [exact Hline|]. split; [exact Hci|]. split; [symmetry; exact Hnl|].
  split.
  { unfold replace_parameter. fold (lines_read content). rewrite Hscan. cbn [bind].
    rewrite Hrep, Hlines. reflexivity. }
  split; [apply length_insert|].
  split; [intros j Hj; apply list_lookup_insert_ne; auto|].
  intros Hcr. unfold lines_read. rewrite (universal_newlines_id _ Hcr).
  split; [reflexivity | apply writelines_readlines].
Qed.


Lemma replace_parameter_rewrites_one_line_witness :
  exists i line colon_index nl msg,
    ordered_match (path_of (lit "kilo-v1.lidar_mapper")) (lines_read features_yaml) i
    /\ (forall j, ordered_match (path_of (lit "kilo-v1.lidar_mapper"))
                    (lines_read features_yaml) j -> i <= j)
    /\ lines_read features_yaml !! i = Some line
    /\ find_char colon line = Some colon_index
    /\ nl = take (colon_index + 1) line ++ lit " " ++ value_text (StrValue (lit "false"))
            ++ match find_char hash line with
               | Some comment_index => lit " " ++ drop comment_index line
               | None => [newline]
               end
    /\ replace_parameter features_yaml (lit "features.yaml") (lit "kilo-v1.lidar_mapper")
         (StrValue (lit "false"))
       = Ok (Outcome (writelines (<[i := nl]> (lines_read features_yaml))) msg)
    /\ length (<[i := nl]> (lines_read features_yaml)) = length (lines_read features_yaml)
    /\ (forall j, j <> i ->
          <[i := nl]> (lines_read features_yaml) !! j = lines_read features_yaml !! j)
    /\ (contains carriage_return features_yaml = false ->
          lines_read features_yaml = readlines features_yaml
          /\ writelines (lines_read features_yaml) = features_yaml).
Proof.
  apply (replace_parameter_rewrites_one_line features_yaml (lit "features.yaml")
           (lit "kilo-v1.lidar_mapper") (StrValue (lit "false"))).
  - vm_compute. reflexivity.
  - exists 2. apply first_match_ordered. vm_compute. reflexivity.
Defined.

(** In a file with Windows line endings every line loses its carriage
    return when one parameter is replaced. *)
Lemma replace_parameter_crlf_counterexample :
  exists after msg,
    replace_parameter crlf_yaml (lit "f.yaml") (lit "a") (StrValue (lit "5"))
    = Ok (Outcome after msg)
    /\ readlines after !! 0 = Some (lit "a: 5" ++ [newline])
    /\ ~ other_lines_unchanged crlf_yaml after 0.
Proof.
  eexists. eexists. split; [vm_compute; reflexivity|].
  split; [vm_compute; reflexivity|].
  intros Hsame. specialize (Hsame 1 ltac:(lia)). vm_compute in Hsame. discriminate.
Qed.


Lemma reaches_functional config tree v w :
  reaches config tree v -> reaches config tree w -> v = w.
Proof.
  intros Hv; revert w; induction Hv as [c | items p rest c v Hc Hv IH]; intros w Hw.
  - inversion Hw; reflexivity.
  - inversion Hw as [| items' p' rest' c' w' Hc' Hw']; subst.
    rewrite Hc in Hc'. injection Hc' as <-. apply IH. exact Hw'.
Qed.

Lemma walk_spec param_name filename tree : forall config,
  (exists v, reaches config tree v
     /\ walk param_name filename tree config = Ok (v, [ReadAs param_name v filename]))
  \/ ((forall v, ~ reaches config tree v)
      /\ exists stage at_config e,
           In stage tree /\ subscript at_config stage = Raise e
           /\ walk param_name filename tree config
              = Ok (YNull, [SearchFailed param_name filename stage at_config])).
Proof.
  induction tree as [|p rest IH]; intros config.
  - left. exists config. split; [constructor | reflexivity].
  - cbn [walk]. destruct (subscript config p) as [config'|e] eqn:E.
    + assert (Hmap : exists items, config = YMap items /\ dict_item items p = Ok config').
      { destruct config; try discriminate. eauto. }
      destruct Hmap as (items & -> & Hitem).
      destruct (IH config') as [(v & Hv & Hw) | (Hno & stage & c & e & Hin & He & Hw)].
      * left. exists v. split; [econstructor; eauto | exact Hw].
      * right. split.
        -- intros v Hv. inversion Hv as [| items' p' rest' c' v' Hc' Hv']; subst.
           rewrite Hitem in Hc'. injection Hc' as <-. exact (Hno v Hv').
        -- exists stage, c, e. repeat split; auto. right. exact Hin.
    + right. split.
      * intros v Hv. inversion Hv as [| items' p' rest' c' v' Hc' Hv']; subst.
        simpl in E. congruence.
      * exists p, config, e. repeat split; auto. left. reflexivity.
Qed.

(** C4. [read_parameter] returns for every loaded configuration and every
    parameter name, and never raises: when the path reaches a value, it
    returns that value (and prints it); when a lookup on the way fails,
    whatever the exception, it prints the diagnostic and returns [None]. *)
Theorem read_parameter_never_raises filename param_name loaded :
  exists v out,
    read_parameter filename param_name loaded = Ok (v, out)
    /\ ((reaches loaded (split "."%char param_name) v
          /\ out = [ReadAs param_name v filename])
        \/ ((forall w, ~ reaches loaded (split "."%char param_name) w)
            /\ v = YNull
            /\ exists stage at_config e,
                 In stage (split "."%char param_name)
                 /\ subscript at_config stage = Raise e
                 /\ out = [SearchFailed param_name filename stage at_config])).
Proof.
  unfold read_parameter.
  destruct (walk_spec param_name filename (split "."%char param_name) loaded)
    as [(v & Hv & Hw) | (Hno & stage & c & e & Hin & He & Hw)].
  - exists v, [ReadAs param_name v filename]. split; [exact Hw|]. left. auto.
  - exists YNull, [SearchFailed param_name filename stage c]. split; [exact Hw|].
    right. split; [exact Hno|]. split; [reflexivity|]. exists stage, c, e. auto.
Qed.

(** C6. The parser declares [-f/--file] and [-p/--param], required, and
    [-v/--value], optional with default [None]; each stores a string. With
    the file and the parameter given, [main] calls [read_parameter] when no
    value was given and [replace_parameter] with that very value otherwise;
    without one of the two required arguments it calls neither and exits. *)
Theorem main_reads_or_replaces (given : command_line) :
  map (fun a => (flags a, required a, default a)) parser_arguments
  = [ ([lit "-f"; lit "--file"], true, None);
      ([lit "-p"; lit "--param"], true, None);
      ([lit "-v"; lit "--value"], false, None) ]
  /\ match given (lit "filepath"), given (lit "param") with
     | Some f, Some p =>
         match given (lit "value") with
         | None => main given = Ok (CallRead (Some f) (Some p))
         | Some v => main given = Ok (CallReplace (Some f) (Some p) (StrValue v))
         end
     | _, _ => main given = Raise (SystemExit 2)
     end.
Proof.
  split; [reflexivity|].
  unfold main, parse_args, stored.
  cbn [dest required default file_argument param_argument value_argument].
  destruct (given (lit "filepath")) as [f|]; [|reflexivity].
  destruct (given (lit "param")) as [p|]; [|reflexivity].
  destruct (given (lit "value")) as [v|]; reflexivity.
Qed.

End ChangeArgInYamlFacts.

(** ** place_racks_startup.py *)

Module PlaceRacksStartupFacts.
Import Py PyNumber PyObject PlaceRacksStartup PlaceRacksStartupSpec.

Section Placement.
Context {N : Type} `{Number N}.

Lemma subscript_exception (obj : pyobj N) key e :
  subscript obj key = Raise e -> is_Exception e = true.
Proof.
  destruct obj; simpl; try (intros [= <-]; reflexivity).
  unfold getitem. destruct (lookup_key items key); [discriminate|].
  intros [= <-]. reflexivity.
Qed.

Lemma Vec3d_exception (x_m y_m : pyobj N) e :
  Vec3d x_m y_m = Raise e -> is_Exception e = true.
Proof.
  unfold Vec3d, as_number.
  destruct x_m; simpl; try (intros [= <-]; reflexivity);
    destruct y_m; simpl; try (intros [= <-]; reflexivity); discriminate.
Qed.

(** The [try] body against [fully_placed]. *)
Lemma try_place_spec sim i rack x_m y_m :
  raises_exceptions_only sim ->
  subscript rack (lit "x") = Ok x_m -> subscript rack (lit "y") = Ok y_m ->
  match try_place sim i rack x_m y_m with
  | Ok (Some _) => fully_placed sim i rack = true
  | Ok None => fully_placed sim i rack = false
  | Raise e => fully_placed sim i rack = false /\ is_Exception e = true
  end.
Proof.
  intros Hsim Hx Hy. unfold try_place, fully_placed, prim_obtained.
  rewrite Hx, Hy.
  destruct (create_reference sim i) as [[]|e] eqn:E1; cbn [bind is_ok andb].
  2:{ split; [reflexivity|]. apply (Hsim i). auto. }
  destruct (app_update sim i) as [[]|e] eqn:E2; cbn [bind is_ok andb].
  2:{ split; [reflexivity|]. apply (Hsim i). auto. }
  destruct (get_prim_at_path sim i) as [[|]|e] eqn:E3; cbn [bind is_ok andb].
  3:{ split; [reflexivity|]. apply (Hsim i). auto. }
  2:{ reflexivity. }
  destruct (add_translate_op sim i) as [[]|e] eqn:E4; cbn [bind is_ok andb].
  2:{ split; [reflexivity|]. apply (Hsim i). auto. }
  destruct (Vec3d x_m y_m) as [[x y]|e] eqn:E5; cbn [bind is_ok andb].
  2:{ split; [reflexivity|]. eapply Vec3d_exception; eauto. }
  destruct (set_translate sim i x y) as [[]|e] eqn:E6; cbn [bind is_ok andb].
  2:{ split; [reflexivity|]. apply (Hsim i). do 4 right. left. eauto. }
  destruct (subscript rack (lit "rotation")) as [r|e] eqn:E7; cbn [bind is_ok andb].
  2:{ split; [reflexivity|]. eapply subscript_exception; eauto. }
  destruct (ne_zero r); cbn [bind]; [|reflexivity].
  destruct (add_rotate_op sim i) as [[]|e] eqn:E8; cbn [bind is_ok andb].
  2:{ split; [reflexivity|]. apply (Hsim i). do 5 right. left. auto. }
  destruct (set_rotate sim i r) as [[]|e] eqn:E9; cbn [bind is_ok andb].
  - reflexivity.
  - split; [reflexivity|]. apply (Hsim i). do 6 right. eauto.
Qed.

Lemma place_rack_spec sim i rack st :
  raises_exceptions_only sim -> has_position rack ->
  exists l,
    place_rack sim i rack st
    = Ok (Progress (successful st + (if fully_placed sim i rack then 1 else 0))
            (printed st ++ [l]))
    /\ about l = Some i /\ is_placed l = fully_placed sim i rack.
Proof.
  intros Hsim (x_m & y_m & Hx & Hy). unfold place_rack. rewrite Hx, Hy. cbn [bind].
  pose proof (try_place_spec sim i rack x_m y_m Hsim Hx Hy) as T.
  destruct (try_place sim i rack x_m y_m) as [[[x y]|]|e].
  - rewrite T. eexists. split; [reflexivity|]. auto.
  - rewrite T, Nat.add_0_r. eexists. split; [reflexivity|]. auto.
  - destruct T as [-> ->]. rewrite Nat.add_0_r. eexists. split; [reflexivity|]. auto.
Qed.

Lemma place_from_spec sim racks : forall i st,
  raises_exceptions_only sim -> Forall has_position racks ->
  exists ls,
    place_from sim i racks st
    = Ok (Progress (successful st + count_placed sim i racks) (printed st ++ ls))
    /\ length ls = length racks
    /\ forall k rack, racks !! k = Some rack ->
         exists l, ls !! k = Some l /\ about l = Some (i + k)
                   /\ is_placed l = fully_placed sim (i + k) rack.
Proof.
  induction racks as [|rack racks IH]; intros i st Hsim Hpos.
  - exists []. simpl. rewrite Nat.add_0_r, app_nil_r. split; [destruct st; reflexivity|].
    split; [reflexivity|]. intros k r Hk. discriminate.
  - inversion Hpos as [|? ? Hrack Hracks]; subst.
    destruct (place_rack_spec sim i rack st Hsim Hrack) as (l & Hl & Hi & Hp).
    cbn [place_from]. rewrite Hl. cbn [bind].
    destruct (IH (S i) (Progress (successful st + (if fully_placed sim i rack then 1 else 0))
                          (printed st ++ [l])) Hsim Hracks) as (ls & Hls & Hlen & Hlines).
    exists (l :: ls). cbn [successful printed] in Hls. rewrite Hls.
    split; [|split].
    + cbn [count_placed]. rewrite <- app_assoc. simpl. f_equal. f_equal. lia.
    + simpl. rewrite Hlen. reflexivity.
    + intros [|k] r Hk.
      * simpl in Hk. injection Hk as <-. exists l. rewrite Nat.add_0_r. auto.
      * simpl in Hk. destruct (Hlines k r Hk) as (l' & H1 & H2 & H3).
        exists l'. replace (i + S k) with (S i + k) by lia. auto.
Qed.

End Placement.

Section PlacementClaims.
Context {N : Type} `{Number N}.

(** C7, as the code has it. When every rack has an ["x"] and a ["y"] and
    Isaac Sim raises nothing but [Exception]s, the loop visits every rack
    whatever fails inside the [try]: each rack gets its own printed line,
    the line says "placed" exactly when every step inside the [try] went
    through for that rack, [successful] counts exactly those racks, and the
    report after the loop shows [successful] out of [len(racks)]. *)
Theorem place_racks_tolerates_failures (sim : isaac_sim N) (racks : list (pyobj N)) :
  raises_exceptions_only sim -> Forall has_position racks ->
  exists st ls,
    place_racks sim racks = Ok st
    /\ successful st = count_placed sim 0 racks
    /\ printed st = ls ++ [Complete (successful st) (length racks)]
    /\ length ls = length racks
    /\ forall k rack, racks !! k = Some rack ->
         exists l, ls !! k = Some l /\ about l = Some k
                   /\ is_placed l = fully_placed sim k rack.
Proof.
  intros Hsim Hpos.
  destruct (place_from_spec sim racks 0 (Progress 0 []) Hsim Hpos)
    as (ls & Hls & Hlen & Hlines).
  unfold place_racks. rewrite Hls. cbn [bind successful printed app Nat.add].
  eexists. exists ls. split; [reflexivity|]. cbn [successful printed].
  repeat split; auto.
Qed.

End PlacementClaims.

Lemma place_racks_tolerates_failures_witness :
  exists st ls,
    place_racks sim_failing_once three_racks = Ok st
    /\ successful st = count_placed sim_failing_once 0 three_racks
    /\ printed st = ls ++ [Complete (successful st) (length three_racks)]
    /\ length ls = length three_racks
    /\ forall k rack, three_racks !! k = Some rack ->
         exists l, ls !! k = Some l /\ about l = Some k
                   /\ is_placed l = fully_placed sim_failing_once k rack.
Proof.
  apply (place_racks_tolerates_failures sim_failing_once three_racks).
  - intros i e. simpl.
    intros [E | [E | [E | [E | [(x & y & E) | [E | (r & E)]]]]]]; try discriminate.
    destruct (i =? 1); [injection E as <-; reflexivity | discriminate].
  - repeat constructor; eexists; eexists; split; reflexivity.
Defined.

Lemma place_racks_counts_obtained_prims_counterexample :
  ~ counts_obtained_prims obliging_sim [rack_without_rotation].
Proof.
  intros (st & Hst & Hcount). vm_compute in Hst. injection Hst as <-.
  vm_compute in Hcount. discriminate.
Qed.

(** A rack without an ["x"] ends the loop: the lookup is before the [try],
    and the rack after it is never visited. *)
Remark place_racks_stops_at_a_rack_without_x :
  place_racks obliging_sim [PyDict [(lit "y", PyNum 2%float)]; rack_at 3 2 0]
  = Raise (KeyError (lit "x")).
Proof. vm_compute. reflexivity. Qed.

End PlaceRacksStartupFacts.

(** ** Exact numbers *)

Module ExactFacts.
Import Py PyNumber.
Local Open Scope Q_scope.

Lemma is_zero_false (a : Q) : ~ a == 0 -> Exact.is_zero a = false.
Proof.
  unfold Exact.is_zero, Qeq. simpl. intros H. apply Z.eqb_neq. lia.
Qed.

Lemma is_zero_true (a : Q) : a == 0 -> Exact.is_zero a = true.
Proof.
  unfold Exact.is_zero, Qeq. simpl. intros H. apply Z.eqb_eq. lia.
Qed.

Lemma truediv_defined (a b : Q) : ~ b == 0 -> Exact.truediv a b = Ok (a / b).
Proof. intros Hb. unfold Exact.truediv. rewrite is_zero_false; auto. Qed.

(** Rounding to the nearest integer moves a fraction by at most a half. *)
Lemma round_half_even_near (num : Z) (den : positive) :
  (Z.abs (2 * (round_half_even num den * Zpos den - num)) <= Zpos den)%Z.
Proof.
  unfold round_half_even. cbv zeta.
  pose proof (Z.div_mod num (Zpos den) ltac:(lia)) as Hdm.
  pose proof (Z.mod_pos_bound num (Zpos den) ltac:(lia)) as Hr.
  pose proof (Pos2Z.is_pos den) as Hd.
  generalize dependent (Zpos den). intros d.
  generalize (num / d)%Z (num mod d)%Z. intros q r Hdm Hr Hd.
  apply Z.abs_le. subst num.
  destruct (Z.compare_spec (2 * r) d) as [C | C | C].
  - destruct (Z.even q); lia.
  - lia.
  - lia.
Qed.

(** [round(a, 3)] is within half a thousandth of [a]. *)
Lemma round3_near (a : Q) : Qabs (Exact.round3 a - a) <= 5 # 10000.
Proof.
  unfold Exact.round3.
  set (s := a * 1000). set (n := round_half_even (Qnum s) (Qden s)).
  assert (Hn : Qabs (inject_Z n - s) <= 1 # 2).
  { pose proof (round_half_even_near (Qnum s) (Qden s)) as Hz. fold n in Hz.
    apply Qabs_Qle_condition. destruct s as [sn sd]. simpl in Hz.
    unfold Qle, Qminus, Qplus, Qopp, inject_Z. simpl. split; lia. }
  assert (E : inject_Z n / 1000 - a == (inject_Z n - s) / 1000).
  { unfold s. field. }
  rewrite E. apply Qabs_Qle_condition in Hn as [H1 H2].
  apply Qabs_Qle_condition. split.
  - apply Qle_shift_div_l; [reflexivity|]. lra.
  - apply Qle_shift_div_r; [reflexivity|]. lra.
Qed.

End ExactFacts.

(** ** warehouse_generator.py *)

Module WarehouseGeneratorFacts.
Import Py PyNumber PyObject WarehouseGenerator WarehouseGeneratorSpec.
Import PlaceRacksStartupSpec (is_ok).

(** *** For every kind of number *)

Section AnyNumber.
Context {N : Type} `{Number N}.

Lemma divides_quotient scale a :
  divides scale -> exists q, num_truediv a scale = Ok q.
Proof.
  intros Hs. specialize (Hs a). destruct (num_truediv a scale) as [q|e]; [eauto | discriminate].
Qed.

Lemma to_dict_record (self : Rack.t N) ox oy scale x_m y_m :
  num_truediv (Rack.x self) scale = Ok x_m ->
  num_truediv (Rack.y self) scale = Ok y_m ->
  Rack.to_dict self ox oy scale = Ok (rack_record self ox oy x_m y_m).
Proof. intros Hx Hy. unfold Rack.to_dict. rewrite Hx, Hy. reflexivity. Qed.

Lemma from_dict_record (self : Rack.t N) ox oy scale x_m y_m :
  Rack.from_dict (rack_record self ox oy x_m y_m) ox oy scale
  = Ok (Rack.Make
          (num_mul (num_add (num_round3 (num_sub x_m ox)) ox) scale)
          (num_mul (num_add (num_round3 (num_sub y_m oy)) oy) scale)
          (Rack.width_m self) (Rack.depth_m self)
          (Rack.rotation self) (Rack.rack_type self)).
Proof. reflexivity. Qed.

(** Reading back what [to_dict] wrote: the four passive fields return as
    they were, and each canvas coordinate returns as
    [(round(c / scale - origin, 3) + origin) * scale]. *)
Lemma from_dict_to_dict (self : Rack.t N) ox oy scale x_m y_m :
  num_truediv (Rack.x self) scale = Ok x_m ->
  num_truediv (Rack.y self) scale = Ok y_m ->
  bind (Rack.to_dict self ox oy scale) (fun d => Rack.from_dict d ox oy scale)
  = Ok (Rack.Make
          (num_mul (num_add (num_round3 (num_sub x_m ox)) ox) scale)
          (num_mul (num_add (num_round3 (num_sub y_m oy)) oy) scale)
          (Rack.width_m self) (Rack.depth_m self)
          (Rack.rotation self) (Rack.rack_type self)).
Proof.
  intros Hx Hy. rewrite (to_dict_record self ox oy scale x_m y_m Hx Hy).
  apply from_dict_record.
Qed.

Lemma waypoint_to_dict_record (self : WarehouseDesigner.t N) x_px y_px x_m y_m :
  num_truediv x_px (WarehouseDesigner.scale self) = Ok x_m ->
  num_truediv y_px (WarehouseDesigner.scale self) = Ok y_m ->
  WarehouseDesigner.waypoint_to_dict self (x_px, y_px) = Ok (waypoint_record self x_m y_m).
Proof.
  intros Hx Hy. unfold WarehouseDesigner.waypoint_to_dict. rewrite Hx, Hy. reflexivity.
Qed.

(** Every waypoint gets its record, in order. *)
Lemma waypoints_to_dict_from_spec (self : WarehouseDesigner.t N) todo :
  divides (WarehouseDesigner.scale self) ->
  exists ds,
    WarehouseDesigner.waypoints_to_dict_from self todo = Ok ds
    /\ Forall2 (fun w d =>
         exists x_m y_m,
           num_truediv (fst w) (WarehouseDesigner.scale self) = Ok x_m
           /\ num_truediv (snd w) (WarehouseDesigner.scale self) = Ok y_m
           /\ d = waypoint_record self x_m y_m) todo ds.
Proof.
  intros Hs. induction todo as [|[x_px y_px] todo (ds & Hds & Hall)].
  - exists []. split; [reflexivity | constructor].
  - destruct (divides_quotient _ x_px Hs) as [x_m Hx].
    destruct (divides_quotient _ y_px Hs) as [y_m Hy].
    exists (waypoint_record self x_m y_m :: ds). split.
    + cbn [WarehouseDesigner.waypoints_to_dict_from].
      rewrite (waypoint_to_dict_record self x_px y_px x_m y_m Hx Hy), Hds. reflexivity.
    + constructor; [|exact Hall]. exists x_m, y_m. auto.
Qed.

(** C2. For every rack and every waypoint, when division by the scale is
    defined, the serialized ["x"] is [round(canvas_y / scale - origin_y_m, 3)]
    and the serialized ["y"] is [round(canvas_x / scale - origin_x_m, 3)]:
    pixels are divided by the scale, moved by the origin, and the two axes
    change places. *)
Theorem serialization_swaps_axes (self : WarehouseDesigner.t N) (rack : Rack.t N) :
  divides (WarehouseDesigner.scale self) ->
  (exists x_m y_m d,
      num_truediv (Rack.x rack) (WarehouseDesigner.scale self) = Ok x_m
      /\ num_truediv (Rack.y rack) (WarehouseDesigner.scale self) = Ok y_m
      /\ Rack.to_dict rack (WarehouseDesigner.origin_x_m self)
           (WarehouseDesigner.origin_y_m self) (WarehouseDesigner.scale self) = Ok d
      /\ getitem d (lit "x")
         = Ok (PyNum (num_round3 (num_sub y_m (WarehouseDesigner.origin_y_m self))))
      /\ getitem d (lit "y")
         = Ok (PyNum (num_round3 (num_sub x_m (WarehouseDesigner.origin_x_m self)))))
  /\ (exists ds,
        WarehouseDesigner.waypoints_to_dict self = Ok ds
        /\ Forall2 (fun w d =>
             exists x_m y_m,
               num_truediv (fst w) (WarehouseDesigner.scale self) = Ok x_m
               /\ num_truediv (snd w) (WarehouseDesigner.scale self) = Ok y_m
               /\ getitem d (lit "x")
                  = Ok (PyNum (num_round3 (num_sub y_m (WarehouseDesigner.origin_y_m self))))
               /\ getitem d (lit "y")
                  = Ok (PyNum (num_round3 (num_sub x_m (WarehouseDesigner.origin_x_m self)))))
             (WarehouseDesigner.waypoints self) ds).
Proof.
  intros Hs. split.
  - destruct (divides_quotient _ (Rack.x rack) Hs) as [x_m Hx].
    destruct (divides_quotient _ (Rack.y rack) Hs) as [y_m Hy].
    exists x_m, y_m. eexists. split; [exact Hx|]. split; [exact Hy|].
    split; [apply to_dict_record; eauto|]. split; reflexivity.
  - destruct (waypoints_to_dict_from_spec self (WarehouseDesigner.waypoints self) Hs)
      as (ds & Hds & Hall).
    exists ds. split; [exact Hds|].
    eapply Forall2_impl; [exact Hall|].
    intros w d (x_m & y_m & Hx & Hy & ->). exists x_m, y_m. repeat split; auto.
Qed.

End AnyNumber.

Section Records.
Context {N : Type} `{Number N}.



(** What [apply_rotation_to_selected] does to the state when the entry
    parses: the selected rack gets the remainder as its rotation and
    nothing else changes. *)
Lemma apply_rotation_sets_rotation (self : WarehouseDesigner.t N) idx r q drawing :
  WarehouseDesigner.selected_rack self = Some idx ->
  num_mod r (of_int 360) = Ok q ->
  WarehouseDesigner.apply_rotation_to_selected self (Some r) drawing
  = (WarehouseDesigner.Make (WarehouseDesigner.scale self)
       (WarehouseDesigner.warehouse_width_m self) (WarehouseDesigner.warehouse_height_m self)
       (WarehouseDesigner.origin_x_m self) (WarehouseDesigner.origin_y_m self)
       (alter (WarehouseDesigner.set_rotation (PyNum q)) idx (WarehouseDesigner.racks self))
       (WarehouseDesigner.selected_rack self) (WarehouseDesigner.waypoints self),
     WarehouseDesigner.except_ValueError
       (bind drawing (fun _ => Ok (Some WarehouseDesigner.showinfo)))).
Proof.
  intros Hsel Hq. unfold WarehouseDesigner.apply_rotation_to_selected.
  rewrite Hsel, Hq. reflexivity.
Qed.

End Records.

Section WaypointsBack.
Context {N : Type} `{Number N}.

Lemma append_waypoints_records (self : WarehouseDesigner.t N) qs : forall acc,
  WarehouseDesigner.append_waypoints (WarehouseDesigner.with_waypoints self acc)
    (map (fun q => waypoint_record self (fst q) (snd q)) qs)
  = (WarehouseDesigner.with_waypoints self (acc ++ map (waypoint_back self) qs), None).
Proof.
  induction qs as [|q qs IH]; intros acc.
  - simpl. rewrite app_nil_r. reflexivity.
  - cbn [map WarehouseDesigner.append_waypoints].
    change (WarehouseDesigner.waypoint_from_dict (WarehouseDesigner.with_waypoints self acc)
              (waypoint_record self (fst q) (snd q)))
      with (@Ok (N * N) (waypoint_back self q)).
    cbv iota.
    change (WarehouseDesigner.with_waypoints (WarehouseDesigner.with_waypoints self acc)
              (WarehouseDesigner.waypoints (WarehouseDesigner.with_waypoints self acc)
               ++ [waypoint_back self q]))
      with (WarehouseDesigner.with_waypoints self (acc ++ [waypoint_back self q])).
    rewrite IH, <- app_assoc. reflexivity.
Qed.

End WaypointsBack.

(** *** With exact numbers *)

Section ExactNumbers.
Import ExactFacts.
Local Open Scope Q_scope.

Lemma back_near (c o s : Q) :
  0 < s -> Qabs (back o s (c / s) - c) <= (5 # 10000) * s.
Proof.
  intros Hs. unfold back. cbn [num_mul num_add num_sub num_round3 exact].
  set (w := c / s - o).
  assert (E : (Exact.round3 w + o) * s - c == (Exact.round3 w - w) * s).
  { unfold w. field. lra. }
  rewrite E, Qabs_Qmult, (Qabs_pos s) by lra.
  apply Qmult_le_compat_r; [apply round3_near | lra].
Qed.

Lemma exact_waypoints_to_dict (self : WarehouseDesigner.t Q) todo :
  ~ WarehouseDesigner.scale self == 0 ->
  WarehouseDesigner.waypoints_to_dict_from self todo
  = Ok (map (fun q => waypoint_record self (fst q) (snd q))
          (map (fun w => (fst w / WarehouseDesigner.scale self,
                          snd w / WarehouseDesigner.scale self)) todo)).
Proof.
  intros Hs. induction todo as [|[x_px y_px] todo IH]; [reflexivity|].
  cbn [WarehouseDesigner.waypoints_to_dict_from map].
  rewrite (waypoint_to_dict_record self x_px y_px
             (x_px / WarehouseDesigner.scale self) (y_px / WarehouseDesigner.scale self))
    by (apply truediv_defined; exact Hs).
  rewrite IH. reflexivity.
Qed.

(** C1, in exact arithmetic. For a positive scale, reading back what
    [to_dict] wrote gives a rack with the same [width_m], [depth_m],
    [rotation] and [rack_type] and with canvas coordinates at most
    [0.0005 * scale] pixels from the original ones on each axis; and
    [waypoints_from_dict] of [waypoints_to_dict] puts every waypoint back
    within the same distance, leaving the rest of the state as it was. *)
Theorem roundtrip_within_rounding (self : WarehouseDesigner.t Q) (rack : Rack.t Q)
    (origin_x_m origin_y_m scale : Q) :
  0 < scale -> 0 < WarehouseDesigner.scale self ->
  (exists d rack',
      Rack.to_dict rack origin_x_m origin_y_m scale = Ok d
      /\ Rack.from_dict d origin_x_m origin_y_m scale = Ok rack'
      /\ Rack.width_m rack' = Rack.width_m rack
      /\ Rack.depth_m rack' = Rack.depth_m rack
      /\ Rack.rotation rack' = Rack.rotation rack
      /\ Rack.rack_type rack' = Rack.rack_type rack
      /\ close scale (Rack.x rack, Rack.y rack) (Rack.x rack', Rack.y rack'))
  /\ (exists ds ws',
        WarehouseDesigner.waypoints_to_dict self = Ok ds
        /\ WarehouseDesigner.waypoints_from_dict self ds
           = (WarehouseDesigner.with_waypoints self ws', None)
        /\ Forall2 (close (WarehouseDesigner.scale self))
             (WarehouseDesigner.waypoints self) ws').
Proof.
  intros Hs Hself. split.
  - eexists. eexists.
    split; [apply to_dict_record; apply truediv_defined; lra|].
    split; [apply from_dict_record|].
    cbn [Rack.width_m Rack.depth_m Rack.rotation Rack.rack_type Rack.x Rack.y].
    repeat split; apply back_near; exact Hs.
  - eexists. eexists. split.
    { unfold WarehouseDesigner.waypoints_to_dict. apply exact_waypoints_to_dict. lra. }
    split.
    { unfold WarehouseDesigner.waypoints_from_dict. rewrite append_waypoints_records.
      reflexivity. }
    cbn [app]. induction (WarehouseDesigner.waypoints self) as [|w ws IH]; [constructor|].
    cbn [map]. constructor; [|exact IH].
    split; cbn [fst snd waypoint_back]; apply back_near; exact Hself.
Qed.

Lemma mod_360_range (r : Q) :
  exists q, Exact.rem r 360 = Ok q
            /\ q == r - 360 * inject_Z (Qfloor (r / 360)) /\ 0 <= q /\ q < 360.
Proof.
  eexists. split; [reflexivity|]. split; [reflexivity|].
  pose proof (Qfloor_le (r / 360)) as Hlo.
  pose proof (Qlt_floor (r / 360)) as Hhi.
  rewrite inject_Z_plus in Hhi.
  assert (E : r == 360 * (r / 360)) by (field).
  set (t := r / 360) in *. set (f := inject_Z (Qfloor t)) in *.
  change (inject_Z 1) with 1 in Hhi.
  split; lra.
Qed.

(** In exact arithmetic rotations stay normalized. With a rack selected and
    a rotation entry that parses to [r], [apply_rotation_to_selected] makes
    that rack's rotation [r - 360 * floor(r / 360)], a number of [[0, 360)],
    and ends with the success box when the rack could be drawn; the rack's
    position, [width_m], [depth_m] and [rack_type] are as before, and so are
    all other racks and the rest of the state. *)
Lemma exact_rotation_stays_normalized (self : WarehouseDesigner.t Q) (idx : nat)
    (rack : Rack.t Q) (r : Q) (drawing : result unit) :
  WarehouseDesigner.selected_rack self = Some idx ->
  WarehouseDesigner.racks self !! idx = Some rack ->
  exists q self' ending,
    WarehouseDesigner.apply_rotation_to_selected self (Some r) drawing = (self', ending)
    /\ (drawing = Ok tt -> ending = WarehouseDesigner.Box WarehouseDesigner.showinfo)
    /\ WarehouseDesigner.racks self' !! idx
       = Some (Rack.Make (Rack.x rack) (Rack.y rack) (Rack.width_m rack)
                 (Rack.depth_m rack) (PyNum q) (Rack.rack_type rack))
    /\ q == r - 360 * inject_Z (Qfloor (r / 360)) /\ 0 <= q /\ q < 360
    /\ (forall j, j <> idx ->
          WarehouseDesigner.racks self' !! j = WarehouseDesigner.racks self !! j)
    /\ WarehouseDesigner.scale self' = WarehouseDesigner.scale self
    /\ WarehouseDesigner.waypoints self' = WarehouseDesigner.waypoints self
    /\ WarehouseDesigner.selected_rack self' = WarehouseDesigner.selected_rack self.
Proof.
  intros Hsel Hrack. destruct (mod_360_range r) as (q & Hq & Heq & Hlo & Hhi).
  exists q. eexists. eexists. split.
  { apply apply_rotation_sets_rotation; [exact Hsel | exact Hq]. }
  split; [intros ->; reflexivity|].
  cbn [WarehouseDesigner.racks WarehouseDesigner.scale WarehouseDesigner.waypoints
       WarehouseDesigner.selected_rack].
  split.
  { rewrite list_lookup_alter_eq, Hrack. reflexivity. }
  repeat split; auto.
  intros j Hj. apply list_lookup_alter_ne. auto.
Qed.

End ExactNumbers.

Section ExactScale.
Import ExactFacts.
Local Open Scope Q_scope.




End ExactScale.

(** *** Concrete layouts *)

Lemma serialization_swaps_axes_witness :
  (exists x_m y_m d,
      num_truediv (Rack.x small_rack) (WarehouseDesigner.scale designer) = Ok x_m
      /\ num_truediv (Rack.y small_rack) (WarehouseDesigner.scale designer) = Ok y_m
      /\ Rack.to_dict small_rack (WarehouseDesigner.origin_x_m designer)
           (WarehouseDesigner.origin_y_m designer) (WarehouseDesigner.scale designer) = Ok d
      /\ getitem d (lit "x")
         = Ok (PyNum (num_round3 (num_sub y_m (WarehouseDesigner.origin_y_m designer))))
      /\ getitem d (lit "y")
         = Ok (PyNum (num_round3 (num_sub x_m (WarehouseDesigner.origin_x_m designer)))))
  /\ (exists ds,
        WarehouseDesigner.waypoints_to_dict designer = Ok ds
        /\ Forall2 (fun w d =>
             exists x_m y_m,
               num_truediv (fst w) (WarehouseDesigner.scale designer) = Ok x_m
               /\ num_truediv (snd w) (WarehouseDesigner.scale designer) = Ok y_m
               /\ getitem d (lit "x")
                  = Ok (PyNum (num_round3 (num_sub y_m (WarehouseDesigner.origin_y_m designer))))
               /\ getitem d (lit "y")
                  = Ok (PyNum (num_round3 (num_sub x_m (WarehouseDesigner.origin_x_m designer)))))
             (WarehouseDesigner.waypoints designer) ds).
Proof.
  apply (serialization_swaps_axes designer small_rack).
  intros a. reflexivity.
Defined.



Lemma roundtrip_within_rounding_witness :
  (0 < 50 /\ 0 < WarehouseDesigner.scale exact_designer)%Q
  /\ (exists d rack',
        Rack.to_dict exact_rack 15%Q 10%Q 50%Q = Ok d
        /\ Rack.from_dict d 15%Q 10%Q 50%Q = Ok rack'
        /\ Rack.width_m rack' = Rack.width_m exact_rack
        /\ Rack.depth_m rack' = Rack.depth_m exact_rack
        /\ Rack.rotation rack' = Rack.rotation exact_rack
        /\ Rack.rack_type rack' = Rack.rack_type exact_rack
        /\ close 50%Q (Rack.x exact_rack, Rack.y exact_rack) (Rack.x rack', Rack.y rack'))
  /\ (exists ds ws',
        WarehouseDesigner.waypoints_to_dict exact_designer = Ok ds
        /\ WarehouseDesigner.waypoints_from_dict exact_designer ds
           = (WarehouseDesigner.with_waypoints exact_designer ws', None)
        /\ Forall2 (close (WarehouseDesigner.scale exact_designer))
             (WarehouseDesigner.waypoints exact_designer) ws').
Proof.
  split; [split; reflexivity|].
  apply (roundtrip_within_rounding exact_designer exact_rack 15%Q 10%Q 50%Q); reflexivity.
Defined.

(** An origin far from the warehouse: the meters of the rack vanish next to
    it, and the rack comes back at pixel 0 instead of pixel 100. *)
Lemma roundtrip_far_origin_counterexample :
  exists d rack',
    Rack.to_dict small_rack 1e20%float 10%float 50%float = Ok d
    /\ Rack.from_dict d 1e20%float 10%float 50%float = Ok rack'
    /\ Rack.x small_rack = 100%float /\ Rack.x rack' = 0%float
    /\ within_rounding 50 (Rack.x small_rack) (Rack.x rack') = false.
Proof.
  eexists. eexists. split; [vm_compute; reflexivity|].
  split; [vm_compute; reflexivity|].
  repeat split; vm_compute; reflexivity.
Qed.

(** The same in the designer as it starts, for a rack at pixel 0.875: it
    comes back a little more than [0.0005 * scale] pixels away. *)
Remark roundtrip_near_origin_exceeds_rounding :
  exists d rack',
    Rack.to_dict (Rack.Make 0.875%float 200%float PyNone PyNone PyNone PyNone)
      15%float 10%float 50%float = Ok d
    /\ Rack.from_dict d 15%float 10%float 50%float = Ok rack'
    /\ Rack.x rack' = 0.9000000000000341%float
    /\ within_rounding 50 0.875 (Rack.x rack') = false.
Proof.
  eexists. eexists. split; [vm_compute; reflexivity|].
  split; [vm_compute; reflexivity|].
  split; vm_compute; reflexivity.
Qed.

Example exact_rotation_of_minus_362_5 :
  (WarehouseDesigner.selected_rack exact_designer = Some 0%nat
   /\ WarehouseDesigner.racks exact_designer !! 0%nat = Some exact_rack)
  /\ exists q self' ending,
       WarehouseDesigner.apply_rotation_to_selected exact_designer (Some (-(725 # 2))%Q)
         (Ok tt)
       = (self', ending)
       /\ (Ok tt = Ok tt -> ending = WarehouseDesigner.Box WarehouseDesigner.showinfo)
       /\ WarehouseDesigner.racks self' !! 0%nat
          = Some (Rack.Make (Rack.x exact_rack) (Rack.y exact_rack) (Rack.width_m exact_rack)
                    (Rack.depth_m exact_rack) (PyNum q) (Rack.rack_type exact_rack))
       /\ (q == -(725 # 2) - 360 * inject_Z (Qfloor (-(725 # 2) / 360)))%Q
       /\ (0 <= q)%Q /\ (q < 360)%Q
       /\ (forall j, j <> 0%nat ->
             WarehouseDesigner.racks self' !! j = WarehouseDesigner.racks exact_designer !! j)
       /\ WarehouseDesigner.scale self' = WarehouseDesigner.scale exact_designer
       /\ WarehouseDesigner.waypoints self' = WarehouseDesigner.waypoints exact_designer
       /\ WarehouseDesigner.selected_rack self'
          = WarehouseDesigner.selected_rack exact_designer.
Proof.
  split; [split; reflexivity|].
  apply (exact_rotation_stays_normalized exact_designer 0%nat exact_rack (-(725 # 2))%Q);
    reflexivity.
Qed.

(** C9, where it fails. With the rack selected and [-1e-20] in the rotation
    entry, [float] parses the entry, the remainder [fmod] returns is the
    entry itself, adding 360 to it rounds to 360, and the method ends with
    the success box: the rack's rotation is 360.0, which is not below 360. *)
Theorem rotation_reaches_360 :
  exists self' rack',
    WarehouseDesigner.apply_rotation_to_selected designer (Some (-1e-20)%float) (Ok tt)
    = (self', WarehouseDesigner.Box WarehouseDesigner.showinfo)
    /\ WarehouseDesigner.racks self' !! 0%nat = Some rack'
    /\ Rack.rotation rack' = PyNum 360%float
    /\ (360 <? 360)%float = false.
Proof.
  eexists. eexists. split; [vm_compute; reflexivity|].
  repeat split; vm_compute; reflexivity.
Qed.



(** The entry [nan] passes both comparisons of the guard: the scale and
    every position become NaN before [int(...)] raises the [ValueError]
    that brings up the error box. *)
Remark update_scale_takes_nan :
  exists self' rack',
    WarehouseDesigner.update_scale designer (Some nan) (Ok tt)
    = (self', WarehouseDesigner.Box WarehouseDesigner.showerror)
    /\ is_nan (WarehouseDesigner.scale self') = true
    /\ WarehouseDesigner.racks self' !! 0%nat = Some rack'
    /\ is_nan (Rack.x rack') = true.
Proof.
  eexists. eexists. split; [vm_compute; reflexivity|].
  repeat split; vm_compute; reflexivity.
Qed.

End WarehouseGeneratorFacts.

(** ** change_arg_in_yaml.py: names, separators and paths *)

Module ChangeArgInYamlLaws.
Import Py ChangeArgInYaml ChangeArgInYamlSpec ChangeArgInYamlReport ChangeArgInYamlFacts.

(** X1. The search of [replace_parameter] takes a name that is only part
    of a key. A plain name is found on a line exactly when the line is:
    whitespace, then text without whitespace that holds the name (anything
    without whitespace before it and after it), then a colon, then text
    without a newline, then at most one final newline. *)
Theorem search_accepts_partial_names (p line : str) :
  plain_name p = true ->
  (re_search p line = true <->
   exists w a b rest,
     line = w ++ a ++ p ++ b ++ colon :: rest
     /\ forallb is_space w = true /\ forallb non_space a = true
     /\ forallb non_space b = true /\ line_rest rest).
Proof. intros _. apply re_search_spec. Qed.

Lemma replace_colon_twice s :
  replace colon "."%char (replace colon "."%char s) = replace colon "."%char s.
Proof.
  unfold replace. induction s as [|c s IH]; [reflexivity|].
  cbn [map]. rewrite IH. f_equal.
  destruct (ascii_eqb c colon) eqn:E; [reflexivity | rewrite E; reflexivity].
Qed.

Lemma lines_read_nonempty content : content <> [] -> lines_read content <> [].
Proof.
  unfold lines_read. destruct content as [|c rest]; [congruence|]. intros _.
  assert (E : exists d s, universal_newlines (c :: rest) = d :: s).
  { cbn [universal_newlines]. destruct (ascii_eqb c carriage_return); [|eauto].
    destruct rest as [|d rest']; [eauto|]. destruct (ascii_eqb d newline); eauto. }
  destruct E as (d & s & ->). cbn [readlines].
  destruct (ascii_eqb d newline); [discriminate|].
  destruct (readlines s); discriminate.
Qed.

(** The loop does not read the [param_name] it starts with. *)
Lemma scan_lines_forgets_name nv i todo tree n1 n2 m ls r :
  todo <> [] ->
  scan_lines nv i todo (Scan tree n1 m ls r) = scan_lines nv i todo (Scan tree n2 m ls r).
Proof. destruct todo; [congruence | reflexivity]. Qed.

Lemma scan_lines_returns nv todo i st :
  param_tree st <> [] -> exists st', scan_lines nv i todo st = Ok st'.
Proof.
  intros Hne. pose proof (scan_lines_spec nv todo i st Hne) as S.
  destruct (first_match (param_tree st) todo).
  - destruct S as (? & ? & st' & _ & _ & E & _). eauto.
  - destruct S as (st' & E & _). eauto.
Qed.

(** X2. A colon separates the components of a parameter path as a dot
    does: for a path of plain names, the call with the colons of the path
    and the call with dots in their place both return, leave the same file
    behind, and, unless the file is empty, print the same line. *)
Theorem colon_separates_like_dot (content filename param : str) (v : value) :
  forallb plain_name (path_of param) = true ->
  exists o o',
    replace_parameter content filename param v = Ok o
    /\ replace_parameter content filename (replace colon "."%char param) v = Ok o'
    /\ file_after o = file_after o'
    /\ (content <> [] -> printed o = printed o').
Proof.
  intros _. unfold replace_parameter, path_of. rewrite replace_colon_twice.
  fold (path_of param). fold (lines_read content).
  destruct (lines_read content) as [|l ls] eqn:E.
  - cbn [scan_lines bind replaced param_name]. do 2 eexists.
    split; [reflexivity|]. split; [reflexivity|]. split; [reflexivity|].
    intros Hne. apply lines_read_nonempty in Hne. congruence.
  - rewrite (scan_lines_forgets_name _ _ _ _ (replace colon "."%char param) param)
      by discriminate.
    destruct (scan_lines_returns (value_text v) (l :: ls) 0
                (Scan (path_of param) param [] (l :: ls) false)) as [st' ->].
    { apply split_nonempty. }
    cbn [bind]. destruct (replaced st'); do 2 eexists; repeat split; reflexivity.
Qed.

Lemma split_app sep a b : split sep (a ++ sep :: b) = split sep a ++ split sep b.
Proof.
  induction a as [|c a IH]; cbn [app split].
  - rewrite ascii_eqb_refl. reflexivity.
  - destruct (ascii_eqb c sep); [rewrite IH; reflexivity|].
    rewrite IH. pose proof (split_nonempty sep a) as Hne.
    destruct (split sep a); [congruence | reflexivity].
Qed.

Lemma walk_returns n f tree : forall config, exists v out, walk n f tree config = Ok (v, out).
Proof.
  induction tree as [|p rest IH]; intros config; cbn [walk]; [eauto|].
  destruct (subscript config p); [apply IH | eauto].
Qed.

Lemma walk_app n1 n2 n3 f t1 t2 : forall config,
  t2 <> [] ->
  exists v1 out1 v out2 out,
    walk n1 f t1 config = Ok (v1, out1)
    /\ walk n2 f t2 v1 = Ok (v, out2)
    /\ walk n3 f (t1 ++ t2) config = Ok (v, out).
Proof.
  induction t1 as [|p rest IH]; intros config Hne; cbn [walk app].
  - destruct (walk_returns n2 f t2 config) as (v & out2 & E2).
    destruct t2 as [|q t2]; [congruence|].
    exists config. eexists. exists v.
    assert (E3 : exists out, walk n3 f (q :: t2) config = Ok (v, out)).
    { clear -E2. revert config v out2 E2.
      generalize (q :: t2) as tree. induction tree as [|p rest IH]; intros config v out2 E.
      - cbn [walk] in *. injection E as <- _. eauto.
      - cbn [walk] in *. destruct (subscript config p); [eapply IH; eauto|].
        injection E as <- _. eauto. }
    destruct E3 as [out E3]. exists out2, out. auto.
  - destruct (subscript config p) as [config'|e]; [apply IH; exact Hne|].
    destruct t2 as [|q t2]; [congruence|].
    do 5 eexists. split; [reflexivity|]. split; reflexivity.
Qed.

(** X3. [read_parameter] descends along the path: what it returns for the
    path [a.b] is what it returns for [b] in the value it returns for [a],
    also when the search fails on the way and the value is [None]. *)
Theorem read_parameter_descends (filename a b : str) (loaded : yaml) :
  exists v1 out1 v out2 out,
    read_parameter filename a loaded = Ok (v1, out1)
    /\ read_parameter filename b v1 = Ok (v, out2)
    /\ read_parameter filename (a ++ "."%char :: b) loaded = Ok (v, out).
Proof.
  unfold read_parameter. rewrite split_app. apply walk_app. apply split_nonempty.
Qed.

Lemma find_char_app_first c s t :
  contains c s = false -> find_char c (s ++ c :: t) = Some (length s).
Proof.
  unfold contains. induction s as [|a s IH]; cbn [app find_char existsb length].
  - rewrite ascii_eqb_refl. reflexivity.
  - intros Hc. apply orb_false_iff in Hc as [-> Hs]. rewrite (IH Hs). reflexivity.
Qed.

(** X4. A parameter that is commented out is found and rewritten too, and
    stays commented out. When the first line that matches the name has its
    first [#] before its first colon, the line written in its place is the
    old line up to the colon, the new value, and then the whole old line
    from the [#] on: the old key and value follow the new ones. *)
Theorem commented_out_parameter_is_rewritten
    (content filename name : str) (v : value) (k : nat) (w key rest : str) :
  plain_name name = true -> path_of name = [name] ->
  first_match [name] (lines_read content) = Some k ->
  lines_read content !! k = Some (w ++ hash :: key ++ colon :: rest) ->
  contains hash w = false -> contains colon w = false -> contains colon key = false ->
  exists msg,
    replace_parameter content filename name v
    = Ok (Outcome
            (writelines
               (<[k := w ++ hash :: key ++ [colon] ++ lit " " ++ value_text v ++ lit " "
                        ++ hash :: key ++ colon :: rest]> (lines_read content)))
            msg).
Proof.
  intros _ Hpath Hfirst Hline Hhash Hcw Hck.
  pose proof (scan_lines_spec (value_text v) (lines_read content) 0
                (Scan [name] name [] (lines_read content) false)) as S.
  cbn [param_tree lines replaced] in S. rewrite Hfirst in S.
  destruct S as (line & nl & st' & Hl & Hnl & Hscan & Hlines & Hrep); [discriminate|].
  pose proof (eq_trans (eq_sym Hl) Hline) as Hsame. injection Hsame as ->. clear Hl.
  assert (Hcolon : find_char colon (w ++ hash :: key ++ colon :: rest)
                   = Some (length (w ++ hash :: key))).
  { replace (w ++ hash :: key ++ colon :: rest) with ((w ++ hash :: key) ++ colon :: rest)
      by (rewrite <- app_assoc; reflexivity).
    apply find_char_app_first. unfold contains in *. rewrite existsb_app.
    cbn [existsb]. rewrite Hcw, Hck. reflexivity. }
  unfold new_line_of in Hnl. rewrite Hcolon, (find_char_app_first _ _ _ Hhash) in Hnl.
  injection Hnl as Hnl.
  replace (take (length (w ++ hash :: key) + 1) (w ++ hash :: key ++ colon :: rest))
    with (w ++ hash :: key ++ [colon]) in Hnl.
  2:{ replace (w ++ hash :: key ++ colon :: rest)
        with ((w ++ hash :: key ++ [colon]) ++ rest)
        by (rewrite <- !app_assoc; cbn [app]; rewrite <- app_assoc; reflexivity).
      symmetry. apply take_app_length'.
      rewrite !length_app. cbn [length]. rewrite length_app. cbn [length]. lia. }
  rewrite drop_app_length in Hnl.
  eexists. unfold replace_parameter. rewrite Hpath. fold (lines_read content).
  rewrite Hscan. cbn [bind]. rewrite Hrep, Hlines. cbn [Nat.add].
  rewrite <- Hnl. rewrite <- !app_assoc. cbn [app]. rewrite <- !app_assoc. reflexivity.
Qed.

(** The names the loop collects, against [matched_keys]. *)
Lemma scan_lines_keys nv todo : forall i st k,
  first_match (param_tree st) todo = Some k ->
  exists st',
    scan_lines nv i todo st = Ok st' /\ replaced st' = true
    /\ match_str st'
       = fold_left (fun joined key =>
                      joined ++ (if str_eqb joined [] then [] else lit ".") ++ key)
           (matched_keys (param_tree st) todo) (match_str st).
Proof.
  induction todo as [|line todo IH]; intros i st k Hk.
  - destruct (param_tree st); discriminate.
  - destruct st as [tree pn ms ls rp]. cbn [param_tree match_str] in *.
    destruct tree as [|p rest]; [discriminate|].
    cbn [first_match matched_keys scan_lines scan_step param_tree] in *.
    destruct (re_search p line) eqn:E.
    + destruct (re_search_colon _ _ E) as [ci Hci]. rewrite (index_found _ _ _ Hci).
      cbn [bind length match_str lines replaced param_tree].
      unfold key_of. rewrite Hci.
      destruct rest as [|q rest].
      * cbn [length Nat.ltb Nat.leb].
        destruct (rewrite_line_spec nv ci line Hci) as (nl & -> & _).
        cbn [bind]. eexists. split; [reflexivity|]. split; reflexivity.
      * cbn [length Nat.ltb Nat.leb].
        destruct (first_match (q :: rest) todo) as [k'|] eqn:Hk'; [|discriminate].
        destruct (IH (S i) (Scan (q :: rest) p
                    (ms ++ (if str_eqb ms [] then [] else lit ".") ++ strip (take ci line))
                    ls rp) k' Hk') as (st' & H1 & H2 & H3).
        exists st'. split; [exact H1|]. split; [exact H2|]. exact H3.
    + cbn [bind].
      destruct (first_match (p :: rest) todo) as [k'|] eqn:Hk'; [|discriminate].
      destruct (IH (S i) (Scan (p :: rest) p ms ls rp) k' Hk') as (st' & H1 & H2 & H3).
      exists st'. split; [exact H1|]. split; [exact H2|]. exact H3.
Qed.

(** X5. The confirmation names the keys of the file, not the names that
    were given: after a replacement, the line printed is "Replaced
    parameter", the key of each matched line (the text before its first
    colon, stripped) from the first component of the path to the last with
    dots between them, "with", the new value as it was written, "in" and the
    file name. *)
Theorem replaced_message_names_matched_keys (content filename param : str) (v : value)
    (k : nat) :
  forallb plain_name (path_of param) = true ->
  first_match (path_of param) (lines_read content) = Some k ->
  exists after,
    replace_parameter content filename param v
    = Ok (Outcome after
            (lit "Replaced parameter '"
             ++ join_keys (matched_keys (path_of param) (lines_read content))
             ++ lit "' with '" ++ value_text v ++ lit "' in " ++ filename ++ [newline])).
Proof.
  intros _ Hk.
  destruct (scan_lines_keys (value_text v) (lines_read content) 0
              (Scan (path_of param) param [] (lines_read content) false) k Hk)
    as (st' & Hscan & Hrep & Hkeys).
  unfold replace_parameter. fold (lines_read content). rewrite Hscan. cbn [bind].
  rewrite Hrep, Hkeys. eexists. reflexivity.
Qed.

(** The loop on lines that do not match the component it looks for. *)
Lemma scan_lines_to_last nv a b : forall todo i pn ms ls rp,
  first_match [a] todo = Some (length todo - 1) ->
  exists key,
    scan_lines nv i todo (Scan [a; b] pn ms ls rp) = Ok (Scan [b] a key ls rp).
Proof.
  induction todo as [|line todo IH]; intros i pn ms ls rp Hk; [discriminate|].
  cbn [first_match scan_lines scan_step param_tree length] in *.
  destruct (re_search a line) eqn:E.
  - injection Hk as Hk. assert (todo = []) as -> by (destruct todo; [reflexivity | cbn in Hk; lia]).
    destruct (re_search_colon _ _ E) as [ci Hci]. rewrite (index_found _ _ _ Hci).
    cbn [bind length Nat.ltb Nat.leb match_str lines replaced param_tree scan_lines].
    eexists. reflexivity.
  - cbn [bind]. destruct (first_match [a] todo) as [k'|] eqn:Hk'; [|discriminate].
    cbn [option_map] in Hk. injection Hk as Hk.
    assert (Hlast : k' = length todo - 1).
    { destruct todo; [discriminate|]. cbn [length] in *. lia. }
    subst k'. apply (IH (S i) a ms ls rp). reflexivity.
Qed.

(** X6. The message "not found" can name a component that was found. For
    a path of two plain names [a.b], when the first line that matches [a] is
    the last line of the file, no line is left for [b]: the file stays as it
    is, and the line printed says that the parameter [a] was not found. *)
Theorem not_found_message_names_the_last_name_sought (content filename a b : str)
    (v : value) :
  forallb plain_name [a; b] = true -> path_of (a ++ "."%char :: b) = [a; b] ->
  first_match [a] (lines_read content) = Some (length (lines_read content) - 1) ->
  replace_parameter content filename (a ++ "."%char :: b) v
  = Ok (Outcome content
          (lit "Parameter '" ++ a ++ lit "' not found in " ++ filename ++ [newline])).
Proof.
  intros _ Hpath Hlast. unfold replace_parameter. rewrite Hpath. fold (lines_read content).
  destruct (scan_lines_to_last (value_text v) a b (lines_read content) 0
              (a ++ "."%char :: b) [] (lines_read content) false Hlast) as [key ->].
  reflexivity.
Qed.

(** *** Concrete files *)

Lemma search_accepts_partial_names_witness :
  plain_name (lit "mapper") = true
  /\ (re_search (lit "mapper") (lit "  lidar_mapper_v2: true") = true <->
      exists w a b rest,
        lit "  lidar_mapper_v2: true" = w ++ a ++ lit "mapper" ++ b ++ colon :: rest
        /\ forallb is_space w = true /\ forallb non_space a = true
        /\ forallb non_space b = true /\ line_rest rest).
Proof.
  split; [reflexivity|].
  apply (search_accepts_partial_names (lit "mapper") (lit "  lidar_mapper_v2: true")).
  reflexivity.
Defined.

Lemma colon_separates_like_dot_witness :
  exists o o',
    replace_parameter features_yaml (lit "features.yaml") (lit "kilo-v1:lidar_mapper")
      (StrValue (lit "false")) = Ok o
    /\ replace_parameter features_yaml (lit "features.yaml")
         (replace colon "."%char (lit "kilo-v1:lidar_mapper")) (StrValue (lit "false")) = Ok o'
    /\ file_after o = file_after o'
    /\ (features_yaml <> [] -> printed o = printed o').
Proof.
  apply (colon_separates_like_dot features_yaml (lit "features.yaml")
           (lit "kilo-v1:lidar_mapper") (StrValue (lit "false"))).
  reflexivity.
Defined.

Lemma commented_out_parameter_is_rewritten_witness :
  exists msg,
    replace_parameter commented_yaml (lit "known_paths.yaml") (lit "spoof")
      (OtherValue (lit "True"))
    = Ok (Outcome
            (writelines
               (<[1 := lit "  " ++ hash :: lit "spoof_kpc" ++ [colon] ++ lit " "
                        ++ value_text (OtherValue (lit "True")) ++ lit " "
                        ++ hash :: lit "spoof_kpc" ++ colon :: lit " false" ++ [newline]]>
                  (lines_read commented_yaml)))
            msg).
Proof.
  apply (commented_out_parameter_is_rewritten commented_yaml (lit "known_paths.yaml")
           (lit "spoof") (OtherValue (lit "True")) 1
           (lit "  ") (lit "spoof_kpc") (lit " false" ++ [newline]));
    reflexivity.
Defined.

Lemma replaced_message_names_matched_keys_witness :
  exists after,
    replace_parameter features_yaml (lit "features.yaml") (lit "kilo.mapper")
      (OtherValue (lit "False"))
    = Ok (Outcome after
            (lit "Replaced parameter '"
             ++ join_keys (matched_keys (path_of (lit "kilo.mapper")) (lines_read features_yaml))
             ++ lit "' with '" ++ value_text (OtherValue (lit "False")) ++ lit "' in "
             ++ lit "features.yaml" ++ [newline])).
Proof.
  apply (replaced_message_names_matched_keys features_yaml (lit "features.yaml")
           (lit "kilo.mapper") (OtherValue (lit "False")) 2);
    reflexivity.
Defined.

Lemma not_found_message_names_the_last_name_sought_witness :
  replace_parameter features_yaml (lit "features.yaml") (lit "last.value")
    (StrValue (lit "6"))
  = Ok (Outcome features_yaml
          (lit "Parameter '" ++ lit "last" ++ lit "' not found in " ++ lit "features.yaml"
           ++ [newline])).
Proof.
  apply (not_found_message_names_the_last_name_sought features_yaml (lit "features.yaml")
           (lit "last") (lit "value") (StrValue (lit "6")));
    reflexivity.
Defined.

End ChangeArgInYamlLaws.

(** ** place_racks_startup.py: the configuration and the loop *)

Module PlaceRacksStartupLaws.
Import Py PyNumber PyObject PyMethods.
Import PlaceRacksStartup PlaceRacksStartupSpec PlaceRacksConfiguration.
Import PlaceRacksConfigurationSpec.
Import PlaceRacksStartupFacts.

Lemma and_then_done {A B} (o : outcome A) (k : A -> outcome B) b :
  and_then o k = Done b -> exists a, o = Done a /\ k a = Done b.
Proof. destruct o; cbn; [eauto | discriminate]. Qed.

Lemma of_result_done {A} (r : result A) a : of_result r = Done a -> r = Ok a.
Proof. destruct r; cbn; congruence. Qed.

Section Configuration.
Context {N : Type} `{Number N}.

Lemma get_method_done (obj : pyobj N) key default v :
  get_method obj key default = Done v ->
  exists d, obj = PyDict d /\ v = get d key default.
Proof. destruct obj; cbn; try discriminate. intros [= <-]. eauto. Qed.

(** A path that passed the test was found under its key: the default of
    the lookup, the empty text, does not pass. *)
Lemma usable_found (d : dict N) key :
  unusable (get d key (PyStr [])) = false ->
  lookup_key d key = Some (get d key (PyStr []))
  /\ truthy (get d key (PyStr [])) = true
  /\ eq_text (get d key (PyStr [])) (lit "default path") = false.
Proof.
  unfold unusable, get. intros Hu. apply orb_false_iff in Hu as [Ht He].
  apply negb_false_iff in Ht.
  destruct (lookup_key d key); [auto | discriminate].
Qed.

(** X7. The script goes on to launch Isaac Sim only with paths it found
    in the YAML file: the warehouse USD file under the lower-cased warehouse
    type of the layout ("small" when the layout names none) and the rack
    asset under "narrow_standard", neither of them empty, or otherwise
    false, or the text "default path"; and with the scale and the racks
    the layout holds. *)
Theorem configure_refuses_placeholders (config : pyobj N)
    (json_load : pyobj N -> outcome (pyobj N)) (s : settings N) :
  configure config json_load = Done s ->
  exists settings_yaml path layout given_type usd_files asset_files,
    config = PyDict settings_yaml
    /\ path = get settings_yaml (lit "json_file_path") (PyStr [])
    /\ json_load path = Done (PyDict layout)
    /\ get layout (lit "warehouse_type") (PyStr (lit "small")) = PyStr given_type
    /\ warehouse_type s = lower given_type
    /\ lookup_key layout (lit "scale") = Some (scale s)
    /\ lookup_key layout (lit "racks") = Some (racks s)
    /\ lookup_key settings_yaml (lit "warehouse_usd_file") = Some (PyDict usd_files)
    /\ lookup_key usd_files (warehouse_type s) = Some (warehouse_usd_file s)
    /\ truthy (warehouse_usd_file s) = true
    /\ eq_text (warehouse_usd_file s) (lit "default path") = false
    /\ lookup_key settings_yaml (lit "rack_asset_file") = Some (PyDict asset_files)
    /\ lookup_key asset_files (lit "narrow_standard") = Some (rack_asset_file s)
    /\ truthy (rack_asset_file s) = true
    /\ eq_text (rack_asset_file s) (lit "default path") = false.
Proof.
  unfold configure. intros E.
  apply and_then_done in E as (path & Epath & E).
  apply get_method_done in Epath as (settings_yaml & -> & ->).
  apply and_then_done in E as (data & Edata & E).
  apply and_then_done in E as (given & Egiven & E).
  apply get_method_done in Egiven as (layout & -> & ->).
  apply and_then_done in E as (wtype & Etype & E).
  destruct (get layout (lit "warehouse_type") (PyStr (lit "small"))) as [| | |given_type| |] eqn:Eg;
    try discriminate.
  cbn [lower_method] in Etype. injection Etype as <-.
  apply and_then_done in E as (sc & Esc & E). apply of_result_done in Esc.
  apply and_then_done in E as (rk & Erk & E). apply of_result_done in Erk.
  apply and_then_done in E as (usd & Eusd & E). apply of_result_done in Eusd.
  apply and_then_done in E as (usd_file & Eusd_file & E).
  apply get_method_done in Eusd_file as (usd_files & -> & ->).
  destruct (unusable (get usd_files (lower given_type) (PyStr []))) eqn:Uusd; [discriminate|].
  apply and_then_done in E as (asset & Easset & E). apply of_result_done in Easset.
  apply and_then_done in E as (asset_file & Easset_file & E).
  apply get_method_done in Easset_file as (asset_files & -> & ->).
  destruct (unusable (get asset_files (lit "narrow_standard") (PyStr []))) eqn:Uasset;
    [discriminate|].
  injection E as <-. cbn [warehouse_type scale racks warehouse_usd_file rack_asset_file].
  apply usable_found in Uusd as (U1 & U2 & U3).
  apply usable_found in Uasset as (A1 & A2 & A3).
  cbn [subscript] in Esc, Erk, Eusd, Easset. unfold getitem in Esc, Erk, Eusd, Easset.
  destruct (lookup_key layout (lit "scale")) eqn:Lsc; [|discriminate].
  injection Esc as ->.
  destruct (lookup_key layout (lit "racks")) eqn:Lrk; [|discriminate].
  injection Erk as ->.
  destruct (lookup_key settings_yaml (lit "warehouse_usd_file")) eqn:Lusd; [|discriminate].
  injection Eusd as ->.
  destruct (lookup_key settings_yaml (lit "rack_asset_file")) eqn:Lasset; [|discriminate].
  injection Easset as ->.
  exists settings_yaml, (get settings_yaml (lit "json_file_path") (PyStr [])),
    layout, given_type, usd_files, asset_files.
  repeat split; auto.
Qed.

(** X8. The position of a rack is read before the [try]: at the first
    rack that has no ["x"] or no ["y"], or is not a mapping at all, the
    script ends with the exception of that lookup, whatever Isaac Sim did
    for the racks before it, and no rack after it is visited. *)
Theorem place_racks_ends_at_rack_without_position (sim : isaac_sim N)
    (racks : list (pyobj N)) (k : nat) (rack : pyobj N) :
  raises_exceptions_only sim ->
  (forall j r, j < k -> racks !! j = Some r -> has_position r) ->
  racks !! k = Some rack -> ~ has_position rack ->
  exists e,
    place_racks sim racks = Raise e
    /\ (subscript rack (lit "x") = Raise e
        \/ subscript rack (lit "y") = Raise e).
Proof.
  intros Hsim Hbefore Hk Hno. unfold place_racks.
  assert (G : forall i st, exists e,
             place_from sim i racks st = Raise e
             /\ (subscript rack (lit "x") = Raise e \/ subscript rack (lit "y") = Raise e)).
  { revert k Hbefore Hk. induction racks as [|r rs IH]; intros k Hbefore Hk i st.
    - destruct k; discriminate.
    - destruct k as [|k].
      + cbn in Hk. injection Hk as ->. cbn [place_from]. unfold place_rack.
        destruct (subscript rack (lit "x")) as [x_m|e] eqn:Ex; cbn [bind].
        * destruct (subscript rack (lit "y")) as [y_m|e] eqn:Ey; cbn [bind].
          -- exfalso. apply Hno. exists x_m, y_m. auto.
          -- eauto.
        * eauto.
      + cbn [place_from].
        destruct (place_rack_spec sim i r st Hsim) as (l & -> & _).
        { apply (Hbefore 0 r); [lia | reflexivity]. }
        cbn [bind]. apply (IH k).
        * intros j r' Hj Hr'. apply (Hbefore (S j) r'); [lia | exact Hr'].
        * exact Hk. }
  destruct (G 0 (Progress 0 [])) as (e & -> & He). exists e. split; [reflexivity | exact He].
Qed.

End Configuration.

(** *** The prim paths *)

Lemma text_uint_text d : text_uint (uint_text d) = d.
Proof. induction d; cbn; congruence. Qed.

Lemma of_uint_zeros k d :
  Nat.of_uint (text_uint (repeat "0"%char k ++ uint_text d)) = Nat.of_uint d.
Proof.
  induction k as [|k IH]; cbn [repeat app].
  - rewrite text_uint_text. reflexivity.
  - cbn [text_uint ascii_eqb Ascii.eqb Bool.eqb]. exact IH.
Qed.

Lemma format_03d_value i : Nat.of_uint (text_uint (format_03d i)) = i.
Proof. unfold format_03d. rewrite of_uint_zeros. apply DecimalNat.Unsigned.of_to. Qed.

(** X9. No two racks get the same prim path: the paths of racks with
    different indices differ. The path of a rack ends with its index in
    decimal digits, at least three of them, and gives the index back. *)
Theorem rack_paths_are_distinct (i j : nat) :
  i <> j ->
  rack_path i <> rack_path j
  /\ index_of_path (rack_path i) = i /\ index_of_path (rack_path j) = j
  /\ 3 <= length (format_03d i).
Proof.
  assert (Hindex : forall k, index_of_path (rack_path k) = k).
  { intros k. unfold index_of_path, rack_path. rewrite app_assoc, drop_app_length.
    apply format_03d_value. }
  intros Hne. split; [|split; [apply Hindex | split; [apply Hindex|]]].
  - intros E. apply Hne. rewrite <- (Hindex i), <- (Hindex j), E. reflexivity.
  - unfold format_03d. rewrite length_app, repeat_length. lia.
Qed.

(** *** Concrete files *)

Lemma configure_refuses_placeholders_witness :
  exists settings_yaml path layout given_type usd_files asset_files,
    place_racks_yaml = PyDict settings_yaml
    /\ path = get settings_yaml (lit "json_file_path") (PyStr [])
    /\ one_file path = Done (PyDict layout)
    /\ get layout (lit "warehouse_type") (PyStr (lit "small")) = PyStr given_type
    /\ lit "small" = lower given_type
    /\ lookup_key layout (lit "scale") = Some (PyNum 50%float)
    /\ lookup_key layout (lit "racks") = Some (PyList [])
    /\ lookup_key settings_yaml (lit "warehouse_usd_file") = Some (PyDict usd_files)
    /\ lookup_key usd_files (lit "small") = Some (PyStr (lit "/assets/small.usd"))
    /\ truthy (PyStr (lit "/assets/small.usd") : pyobj float) = true
    /\ eq_text (PyStr (lit "/assets/small.usd") : pyobj float) (lit "default path") = false
    /\ lookup_key settings_yaml (lit "rack_asset_file") = Some (PyDict asset_files)
    /\ lookup_key asset_files (lit "narrow_standard") = Some (PyStr (lit "/assets/rack.usd"))
    /\ truthy (PyStr (lit "/assets/rack.usd") : pyobj float) = true
    /\ eq_text (PyStr (lit "/assets/rack.usd") : pyobj float) (lit "default path") = false.
Proof.
  apply (configure_refuses_placeholders place_racks_yaml one_file
           (Settings (lit "small") (PyNum 50%float) (PyList [])
              (PyStr (lit "/assets/small.usd")) (PyStr (lit "/assets/rack.usd")))).
  reflexivity.
Defined.

Lemma rack_paths_are_distinct_witness :
  rack_path 7 <> rack_path 1234
  /\ index_of_path (rack_path 7) = 7 /\ index_of_path (rack_path 1234) = 1234
  /\ 3 <= length (format_03d 7).
Proof. apply (rack_paths_are_distinct 7 1234). lia. Defined.

Lemma place_racks_ends_at_rack_without_position_witness :
  exists e,
    place_racks sim_failing_once
      [rack_at 1 2 0; rack_at 3 2 90; PyDict [(lit "x", PyNum 5%float)]; rack_at 7 2 0]
    = Raise e
    /\ (subscript (PyDict [(lit "x", PyNum 5%float)] : pyobj float) (lit "x") = Raise e
        \/ subscript (PyDict [(lit "x", PyNum 5%float)] : pyobj float) (lit "y") = Raise e).
Proof.
  apply (place_racks_ends_at_rack_without_position sim_failing_once
           [rack_at 1 2 0; rack_at 3 2 90; PyDict [(lit "x", PyNum 5%float)]; rack_at 7 2 0]
           2 (PyDict [(lit "x", PyNum 5%float)])).
  - intros i e He. unfold sim_failing_once in He. cbn in He.
    destruct He as [He | [He | [He | [He | [(x & y & He) | [He | (r & He)]]]]]];
      try discriminate.
    destruct (i =? 1); [injection He as <-; reflexivity | discriminate].
  - intros j r Hj Hr. destruct j as [|[|j]]; [| |lia];
      cbn in Hr; injection Hr as <-; eexists _, _; split; reflexivity.
  - reflexivity.
  - intros (x_m & y_m & _ & Hy). discriminate.
Defined.

End PlaceRacksStartupLaws.

(** ** warehouse_generator.py: editing the layout *)

Module WarehouseEditingFacts.
Import Py PyNumber PyObject PyMethods WarehouseGenerator WarehouseEditing.
Import WarehouseDesigner WarehouseEditingSpec.
Import PlaceRacksStartupSpec (is_ok).

(** *** For every kind of number *)

Section AnyNumber.
Context {N : Type} `{Number N}.

Lemma place_cells_spec x y spacing_px row_spacing_px width depth rotation rack_type
    draw_rack cells : forall self : t N,
  exists new,
    fst (place_cells self x y spacing_px row_spacing_px width depth rotation rack_type
           draw_rack cells)
    = with_racks self (racks self ++ new)
    /\ Forall (fun rack => within_bounds self (Rack.x rack) (Rack.y rack) = true
                           /\ Rack.width_m rack = PyNum width
                           /\ Rack.depth_m rack = PyNum depth
                           /\ Rack.rotation rack = PyNum rotation
                           /\ Rack.rack_type rack = PyStr rack_type) new
    /\ length new <= length cells.
Proof.
  induction cells as [|[row col] cells IH]; intros self; cbn [place_cells].
  - exists []. rewrite app_nil_r. destruct self. repeat split; [constructor | cbn; lia].
  - destruct (within_bounds self _ _) eqn:Hb.
    + match goal with |- context [with_racks self (racks self ++ [?r])] => set (rack := r) end.
      assert (Hrack : within_bounds self (Rack.x rack) (Rack.y rack) = true
                      /\ Rack.width_m rack = PyNum width /\ Rack.depth_m rack = PyNum depth
                      /\ Rack.rotation rack = PyNum rotation
                      /\ Rack.rack_type rack = PyStr rack_type)
        by (repeat split; exact Hb).
      destruct (draw_rack (length (racks self))).
      * destruct (IH (with_racks self (racks self ++ [rack]))) as (new & E & Hnew & Hlen).
        exists (rack :: new). rewrite E. cbn [with_racks racks scale warehouse_width_m
          warehouse_height_m origin_x_m origin_y_m selected_rack waypoints].
        rewrite <- app_assoc. repeat split; [constructor; [exact Hrack | exact Hnew] | cbn; lia].
      * exists [rack]. repeat split; [constructor; [exact Hrack | constructor] | cbn; lia].
    + destruct (IH self) as (new & E & Hnew & Hlen). exists new.
      repeat split; auto. cbn [length]. lia.
Qed.

Lemma length_grid_cells rows count :
  length (grid_cells rows count) = Z.to_nat rows * Z.to_nat count.
Proof.
  unfold grid_cells.
  rewrite (flat_map_constant_length (c := Z.to_nat count)).
  - rewrite length_seq. reflexivity.
  - intros row _. rewrite length_map, length_seq. reflexivity.
Qed.

(** X10. [place_grid] changes nothing but the list of racks, to which it
    adds at the end: every rack it adds lies within the bounds of the
    warehouse and has the width, depth, rotation and type of the entries,
    and it adds at most rows times count racks, none when an entry cannot be
    read; whatever the drawing does. *)
Theorem place_grid_stays_within_bounds (self : t N) (entries : rack_entries N) (x y : N)
    (draw_rack : nat -> result unit) (update_stats : result unit) :
  exists new,
    fst (place_grid self entries x y draw_rack update_stats)
    = with_racks self (racks self ++ new)
    /\ Forall (fun rack => within_bounds self (Rack.x rack) (Rack.y rack) = true
                           /\ Some (Rack.width_m rack) = option_map PyNum (width_var entries)
                           /\ Some (Rack.depth_m rack) = option_map PyNum (depth_var entries)
                           /\ Some (Rack.rotation rack) = option_map PyNum (rotation_var entries)
                           /\ Rack.rack_type rack = PyStr (preset_var entries)) new
    /\ length new <= match rows_var entries, count_var entries with
                     | Some rows, Some count => Z.to_nat rows * Z.to_nat count
                     | _, _ => 0
                     end.
Proof.
  assert (Hnone : exists new : list (Rack.t N),
            self = with_racks self (racks self ++ new)
            /\ Forall (fun rack => within_bounds self (Rack.x rack) (Rack.y rack) = true
                 /\ Some (Rack.width_m rack) = option_map PyNum (width_var entries)
                 /\ Some (Rack.depth_m rack) = option_map PyNum (depth_var entries)
                 /\ Some (Rack.rotation rack) = option_map PyNum (rotation_var entries)
                 /\ Rack.rack_type rack = PyStr (preset_var entries)) new
            /\ length new <= 0).
  { exists []. rewrite app_nil_r. destruct self. repeat split; [constructor | cbn; lia]. }
  unfold place_grid.
  destruct (width_var entries) as [width|]; [|destruct Hnone as (new & ? & ? & ?);
    exists new; repeat split; auto; destruct (rows_var entries), (count_var entries); lia].
  destruct (depth_var entries) as [depth|]; [|destruct Hnone as (new & ? & ? & ?);
    exists new; repeat split; auto; destruct (rows_var entries), (count_var entries); lia].
  destruct (count_var entries) as [count|]; [|destruct Hnone as (new & ? & ? & ?);
    exists new; repeat split; auto; destruct (rows_var entries); lia].
  destruct (rows_var entries) as [rows|]; [|destruct Hnone as (new & ? & ? & ?);
    exists new; repeat split; auto].
  destruct (spacing_var entries) as [spacing|]; [|destruct Hnone as (new & ? & ? & ?);
    exists new; repeat split; auto; lia].
  destruct (row_spacing_var entries) as [row_spacing|]; [|destruct Hnone as (new & ? & ? & ?);
    exists new; repeat split; auto; lia].
  destruct (rotation_var entries) as [rotation|]; [|destruct Hnone as (new & ? & ? & ?);
    exists new; repeat split; auto; lia].
  clear Hnone.
  destruct (place_cells_spec x y (num_mul spacing (scale self))
              (num_mul row_spacing (scale self)) width depth rotation (preset_var entries)
              draw_rack (grid_cells rows count) self) as (new & E & Hnew & Hlen).
  destruct (place_cells _ _ _ _ _ _ _ _ _ _ _) as [self' drawn]. cbn [fst] in *.
  exists new. split; [exact E|]. split.
  - eapply Forall_impl; [exact Hnew|]. cbn. intros rack (? & -> & -> & -> & ->). auto.
  - rewrite length_grid_cells in Hlen. exact Hlen.
Qed.

(** X11. Dragging keeps the racks within the bounds of the warehouse: when
    every rack lies within them before [canvas_drag], every rack does
    after it. Only the selected rack can move, no rack is added or removed,
    and the mode and the rest of the state stay as they were. *)
Theorem canvas_drag_keeps_racks_within_bounds (c : canvas N) (x y : N)
    (drawing : result unit) :
  racks_within_bounds (state c) ->
  let c' := fst (canvas_drag c x y drawing) in
  racks_within_bounds (state c')
  /\ length (racks (state c')) = length (racks (state c))
  /\ (forall j, selected_rack (state c) <> Some j ->
        racks (state c') !! j = racks (state c) !! j)
  /\ (forall j rack rack', racks (state c) !! j = Some rack ->
        racks (state c') !! j = Some rack' -> moved rack rack')
  /\ mode_of c' = mode_of c
  /\ exists rs, state c' = with_racks (state c) rs.
Proof.
  intros Hin. cbv zeta.
  assert (Hsame : forall e : ending,
            racks_within_bounds (state (fst (c, e)))
            /\ length (racks (state (fst (c, e)))) = length (racks (state c))
            /\ (forall j, selected_rack (state c) <> Some j ->
                  racks (state (fst (c, e))) !! j = racks (state c) !! j)
            /\ (forall j rack rack', racks (state c) !! j = Some rack ->
                  racks (state (fst (c, e))) !! j = Some rack' -> moved rack rack')
            /\ mode_of (fst (c, e)) = mode_of c
            /\ exists rs, state (fst (c, e)) = with_racks (state c) rs).
  { intros e. cbn [fst].
    split; [exact Hin|]. split; [reflexivity|]. split; [reflexivity|]. split.
    - intros j rack rack' E E'. pose proof (eq_trans (eq_sym E) E') as Hrr.
      injection Hrr as <-. repeat split.
    - split; [reflexivity|]. exists (racks (state c)). destruct (state c). reflexivity. }
  unfold canvas_drag. destruct (mode_of c) eqn:Em; try apply Hsame.
  - destruct (drag_start c); [destruct (temp_line c)|]; apply Hsame.
  - destruct (selected_rack (state c)) as [idx|] eqn:Es;
      [|destruct (drag_start c) as [[? ?]|]; apply Hsame].
    destruct (drag_start c) as [[start_x start_y]|]; [|apply Hsame].
    destruct (racks (state c) !! idx) as [rack|] eqn:Er; [|apply Hsame].
    destruct (within_bounds (state c) _ _) eqn:Hb; [|apply Hsame].
    cbn [fst state mode_of]. clear Hsame.
    split; [|split; [|split; [|split; [|split]]]].
    + unfold racks_within_bounds. cbn [with_racks racks].
      apply Forall_insert; [exact Hin | exact Hb].
    + cbn [with_racks racks]. apply length_insert.
    + intros j Hj. cbn [with_racks racks]. apply list_lookup_insert_ne. congruence.
    + intros j r r' E E'. cbn [with_racks racks] in E'.
      destruct (decide (idx = j)) as [<-|Hne].
      * rewrite list_lookup_insert_eq in E'
          by (apply lookup_lt_is_Some; rewrite Er; eauto).
        injection E' as <-. pose proof (eq_trans (eq_sym E) Er) as Hsame.
        injection Hsame as <-. repeat split.
      * rewrite list_lookup_insert_ne in E' by exact Hne.
        pose proof (eq_trans (eq_sym E) E') as Hsame. injection Hsame as <-. repeat split.
    + reflexivity.
    + eexists. reflexivity.
Qed.

Lemma with_waypoints_same (self : t N) : with_waypoints self (waypoints self) = self.
Proof. destruct self. reflexivity. Qed.

Lemma add_waypoints_spec ws drawing : forall self : t N,
  add_waypoints self ws drawing = with_waypoints self (waypoints self ++ ws).
Proof.
  induction ws as [|[x y] ws IH]; intros self; cbn [add_waypoints].
  - rewrite app_nil_r. symmetry. apply with_waypoints_same.
  - rewrite IH. cbn [add_waypoint fst snd with_waypoints waypoints scale warehouse_width_m
      warehouse_height_m origin_x_m origin_y_m racks selected_rack].
    rewrite <- app_assoc. reflexivity.
Qed.

Lemma undo_waypoints_spec (ws : list (N * N)) drawing : forall (self : t N) kept,
  undo_waypoints (with_waypoints self (kept ++ ws)) (length ws) drawing
  = with_waypoints self kept.
Proof.
  induction ws as [|w ws IH] using rev_ind; intros self kept.
  - rewrite app_nil_r. reflexivity.
  - rewrite length_app. cbn [length]. rewrite Nat.add_1_r. cbn [undo_waypoints].
    unfold undo_last_waypoint. cbn [with_waypoints waypoints].
    destruct (kept ++ ws ++ [w]) as [|a rest] eqn:E.
    { exfalso. destruct kept; [destruct ws|]; discriminate. }
    rewrite <- E. rewrite app_assoc, removelast_last. cbn [fst].
    exact (IH self kept).
Qed.

(** X12. Undoing takes back what was clicked: after any number of
    waypoints were added in path mode, undoing the last waypoint as many
    times leaves the state as it was before the first of them; and on an
    empty path undoing changes nothing and shows the information box. *)
Theorem undo_takes_back_added_waypoints (self : t N) (ws : list (N * N))
    (drawing : result unit) :
  undo_waypoints (add_waypoints self ws drawing) (length ws) drawing = self
  /\ waypoints (add_waypoints self ws drawing) = waypoints self ++ ws
  /\ (waypoints self = [] -> undo_last_waypoint self drawing = (self, Box showinfo)).
Proof.
  split; [|split].
  - rewrite add_waypoints_spec, undo_waypoints_spec. apply with_waypoints_same.
  - rewrite add_waypoints_spec. reflexivity.
  - intros E. unfold undo_last_waypoint. rewrite E. reflexivity.
Qed.

(** X13. [delete_selected] removes the selected rack and no other: the
    racks before it keep their place, the racks after it move one place
    down, the selection is cleared and the rest of the state stays as it
    was; and nothing at all changes when the canvas refuses to delete the
    item of the rack. *)
Theorem delete_selected_removes_one_rack (self : t N) (idx : nat) (rack : Rack.t N)
    (canvas_delete update_stats : result unit) :
  selected_rack self = Some idx -> racks self !! idx = Some rack ->
  let self' := fst (delete_selected self canvas_delete update_stats) in
  (is_ok canvas_delete = true ->
     self' = with_selected (with_racks self (delete idx (racks self))) None
     /\ S (length (racks self')) = length (racks self)
     /\ (forall j, j < idx -> racks self' !! j = racks self !! j)
     /\ (forall j, idx <= j -> racks self' !! j = racks self !! S j))
  /\ (is_ok canvas_delete = false -> self' = self).
Proof.
  intros Es Er. cbv zeta. unfold delete_selected. rewrite Es.
  assert (Hlt : idx < length (racks self)) by (apply lookup_lt_is_Some; eauto).
  destruct canvas_delete as [[]|e]; cbn [is_ok]; (split; [|intros; try discriminate]).
  - intros _. apply Nat.ltb_lt in Hlt as Hb. rewrite Hb. cbn [fst].
    split; [reflexivity|]. cbn [with_selected with_racks racks].
    split; [|split].
    + rewrite length_delete by eauto. lia.
    + intros j Hj. apply list_lookup_delete_lt. exact Hj.
    + intros j Hj. apply list_lookup_delete_ge. exact Hj.
  - discriminate.
  - reflexivity.
Qed.

Lemma except_Exception_failed (b : messagebox) (f : failure) :
  except_Exception b (Failed f) <> Box showinfo.
Proof.
  destruct f as [e| |]; cbn; try discriminate. destruct (is_Exception e); discriminate.
Qed.

(** X14. A layout file without ["racks"] is not loaded, and the layout on
    the canvas is lost all the same: [load_layout] ends without the box
    "Layout loaded", with no racks and no waypoints, and with the scale and
    the size of the file (or their defaults 50, 40 and 30) in place of the
    ones the designer had. *)
Theorem load_layout_without_racks_empties_layout (self st : t N) (d : dict N)
    (drawing : result unit) (e : ending) :
  lookup_key d (lit "racks") = None ->
  load_layout self (PyDict d) drawing = Some (st, e) ->
  racks st = [] /\ waypoints st = [] /\ e <> Box showinfo
  /\ number_setting (get d (lit "scale") (PyNum (of_int 50))) = Some (scale st)
  /\ number_setting (get d (lit "warehouse_width_m") (PyNum (of_int 40)))
     = Some (warehouse_width_m st)
  /\ number_setting (get d (lit "warehouse_height_m") (PyNum (of_int 30)))
     = Some (warehouse_height_m st).
Proof.
  intros Hno E. unfold load_layout in E.
  destruct (selected_rack self); [discriminate|].
  destruct (number_setting (get d (lit "scale") _)) as [s|]; [|discriminate].
  destruct (number_setting (get d (lit "warehouse_width_m") _)) as [w|]; [|discriminate].
  destruct (number_setting (get d (lit "warehouse_height_m") _)) as [h|]; [|discriminate].
  assert (Hend : forall (self' : t N) f,
            racks self' = [] -> waypoints self' = [] -> scale self' = s ->
            warehouse_width_m self' = w -> warehouse_height_m self' = h ->
            Some (self', except_Exception showinfo (Failed f)) = Some (st, e) ->
            racks st = [] /\ waypoints st = [] /\ e <> Box showinfo
            /\ Some s = Some (scale st) /\ Some w = Some (warehouse_width_m st)
            /\ Some h = Some (warehouse_height_m st)).
  { clear E. intros self' f Hr Hw Hs Hwd Hh Eq. injection Eq as Est Ee.
    subst st e s w h.
    split; [exact Hr|]. split; [exact Hw|].
    split; [exact (except_Exception_failed showinfo f)|]. auto. }
  destruct (num_truediv w (of_int 2)) as [half_width|e1].
  2:{ destruct (num_truediv h (of_int 2)); eapply Hend; try exact E; reflexivity. }
  destruct (num_truediv h (of_int 2)) as [half_height|e2].
  2:{ eapply Hend; try exact E; reflexivity. }
  destruct (subscript _ (lit "x")) as [x_obj|ex].
  2:{ eapply Hend; try exact E; reflexivity. }
  destruct (number_setting x_obj) as [x_m|]; [|discriminate].
  destruct (subscript _ (lit "y")) as [y_obj|ey].
  2:{ eapply Hend; try exact E; reflexivity. }
  destruct (number_setting y_obj) as [y_m|]; [|discriminate].
  unfold getitem in E. rewrite Hno in E. cbn [bind] in E.
  eapply Hend; try exact E; reflexivity.
Qed.

(** *** The path as text *)

Lemma contains_app c (s u : str) : contains c (s ++ u) = contains c s || contains c u.
Proof. apply existsb_app. Qed.

Lemma contains_lstrip c s : contains c s = false -> contains c (lstrip s) = false.
Proof.
  induction s as [|a s IH]; [auto|]. cbn [lstrip]. destruct (is_space a); [|auto].
  intros Hc. apply IH. cbn in Hc. apply orb_false_iff in Hc. tauto.
Qed.

Lemma contains_rev c s : contains c (rev s) = contains c s.
Proof.
  induction s as [|a s IH]; [reflexivity|]. cbn [rev]. rewrite contains_app, IH.
  cbn. rewrite orb_false_r. apply orb_comm.
Qed.

Lemma contains_strip c s : contains c s = false -> contains c (strip s) = false.
Proof.
  intros Hc. unfold strip. rewrite contains_rev. apply contains_lstrip.
  rewrite contains_rev. apply contains_lstrip. exact Hc.
Qed.

Lemma split_without_separator sep s : contains sep s = false -> split sep s = [s].
Proof.
  induction s as [|a s IH]; [reflexivity|]. cbn. intros Hc.
  apply orb_false_iff in Hc as [Ha Hs].
  assert (Hb : ascii_eqb a sep = false).
  { destruct (ascii_eqb a sep) eqn:E; [|reflexivity]. apply Ascii.eqb_eq in E. subst a.
    unfold ascii_eqb in Ha. rewrite Ascii.eqb_refl in Ha. discriminate. }
  rewrite Hb, (IH Hs). reflexivity.
Qed.

(** A line without a comma holds no waypoint. *)
Lemma parse_line_without_comma (float_of : str -> option N) line :
  contains comma line = false -> parse_line float_of line = None.
Proof.
  intros Hc. unfold parse_line. apply (contains_strip comma) in Hc.
  destruct (strip line) as [|a s] eqn:E; [reflexivity|].
  destruct (startswith (a :: s) (lit "#")); [reflexivity|].
  fold comma. rewrite (split_without_separator comma _ Hc). reflexivity.
Qed.

Lemma universal_newlines_contains c s :
  contains c s = false -> ascii_eqb c newline = false ->
  contains c (universal_newlines s) = false.
Proof.
  intros Hc Hn. remember (length s) as n eqn:Hlen.
  revert s Hc Hlen. induction n as [n IH] using lt_wf_ind. intros s Hc Hlen.
  destruct s as [|a rest]; [reflexivity|].
  cbn in Hc. apply orb_false_iff in Hc as [Ha Hrest]. cbn [universal_newlines].
  destruct (ascii_eqb a carriage_return).
  - destruct rest as [|b rest']; [cbn; rewrite Hn; reflexivity|].
    destruct (ascii_eqb b newline).
    + cbn [contains existsb]. rewrite Hn. cbn [orb].
      apply (IH (length rest')); [cbn in Hlen; lia | | reflexivity].
      cbn in Hrest. apply orb_false_iff in Hrest. tauto.
    + cbn [contains existsb]. rewrite Hn. cbn [orb].
      apply (IH (length (b :: rest'))); [cbn in Hlen |- *; lia | exact Hrest | reflexivity].
  - cbn [contains existsb]. rewrite Ha. cbn [orb].
    apply (IH (length rest)); [cbn in Hlen; lia | exact Hrest | reflexivity].
Qed.

Lemma readlines_contains c s :
  contains c s = false -> Forall (fun line => contains c line = false) (readlines s).
Proof.
  induction s as [|a s IH]; [constructor|]. intros Hc. cbn in Hc.
  apply orb_false_iff in Hc as [Ha Hs]. specialize (IH Hs). cbn [readlines].
  destruct (ascii_eqb a newline).
  - constructor; [cbn; rewrite Ha; reflexivity | exact IH].
  - destruct (readlines s) as [|l ls].
    + constructor; [cbn; rewrite Ha; reflexivity | constructor].
    + inversion IH as [|? ? Hl Hls]; subst. constructor; [|exact Hls].
      cbn. rewrite Ha. exact Hl.
Qed.

Lemma omap_parse_none (float_of : str -> option N) ls :
  Forall (fun line => contains comma line = false) ls ->
  omap (parse_line float_of) ls = [].
Proof.
  induction 1 as [|l ls Hl _ IH]; [reflexivity|].
  cbn [omap list_omap]. rewrite (parse_line_without_comma _ _ Hl). exact IH.
Qed.

(** The records [waypoints_to_dict] returns hold numbers. *)
Lemma waypoints_to_dict_numbers (self : t N) todo ds :
  waypoints_to_dict_from self todo = Ok ds ->
  Forall (fun d => exists a b, d = [ (lit "x", PyNum a); (lit "y", PyNum b) ]) ds.
Proof.
  revert ds. induction todo as [|[x_px y_px] todo IH]; intros ds E; cbn in E.
  - injection E as <-. constructor.
  - destruct (num_truediv x_px (scale self)); [|discriminate]. cbn in E.
    destruct (num_truediv y_px (scale self)); [|discriminate]. cbn in E.
    destruct (waypoints_to_dict_from self todo) as [ds'|]; [|discriminate]. cbn in E.
    injection E as <-. constructor; [eauto | apply IH; reflexivity].
Qed.

Lemma goto_lines_without_comma (str_of : pyobj N -> str) ds :
  (forall n, contains comma (str_of (PyNum n)) = false) ->
  Forall (fun d => exists a b, d = [ (lit "x", PyNum a); (lit "y", PyNum b) ]) ds ->
  contains comma (fst (goto_lines str_of ds)) = false
  /\ snd (goto_lines str_of ds) = Ok tt.
Proof.
  intros Hstr. induction 1 as [|d ds (a & b & ->) _ [IH1 IH2]]; [split; reflexivity|].
  cbn [goto_lines]. change (getitem _ (lit "x")) with (Ok (PyNum a) : result (pyobj N)).
  change (getitem [(lit "x", PyNum a); (lit "y", PyNum b)] (lit "y"))
    with (Ok (PyNum b) : result (pyobj N)).
  cbn iota beta. destruct (goto_lines str_of ds) as [text r]. cbn [fst snd] in *.
  split; [|exact IH2].
  repeat rewrite contains_app. repeat rewrite Hstr. rewrite IH1. reflexivity.
Qed.

(** X15. What [export_path_txt] writes, [load_path_txt] does not read.
    When Python's [str] of a number holds no comma, every line of an exported
    path is "Character ..." without a comma, while [load_path_txt] takes
    waypoints from lines of three fields separated by commas only: loading
    the exported file, into whatever state, finds no waypoint, warns, and
    leaves the state as it was. *)
Theorem exported_path_is_not_loaded (self other : t N) (filename text : str)
    (str_of : pyobj N -> str) (float_of : str -> option N)
    (drawing : result unit) (e : ending) :
  (forall n, contains comma (str_of (PyNum n)) = false) ->
  export_path_txt self (Some filename) str_of = (Some text, e) ->
  e = Box showinfo
  /\ load_path_txt other text float_of drawing = (other, Box showwarning).
Proof.
  intros Hstr E. unfold export_path_txt in E.
  destruct (waypoints self) as [|w ws] eqn:Ew; [discriminate|].
  unfold waypoints_to_dict in E.
  destruct (waypoints_to_dict_from self (waypoints self)) as [ds|] eqn:Eds;
    [|discriminate].
  destruct (goto_lines_without_comma str_of ds Hstr (waypoints_to_dict_numbers _ _ _ Eds))
    as [Hc Hr].
  destruct (goto_lines str_of ds) as [body r]. cbn [fst snd] in Hc, Hr. subst r.
  injection E as <- <-. split; [reflexivity|].
  unfold load_path_txt. rewrite omap_parse_none; [reflexivity|].
  apply readlines_contains, universal_newlines_contains; [|reflexivity].
  exact Hc.
Qed.



Lemma split_fields (number field_x field_y more : str) :
  contains comma number = false -> contains comma field_x = false ->
  contains comma field_y = false -> (more = [] \/ exists rest, more = comma :: rest) ->
  exists others,
    split comma (number ++ comma :: field_x ++ comma :: field_y ++ more)
    = number :: field_x :: field_y :: others.
Proof.
  intros Hn Hx Hy Hmore.
  rewrite ChangeArgInYamlLaws.split_app, (split_without_separator comma number Hn).
  rewrite ChangeArgInYamlLaws.split_app, (split_without_separator comma field_x Hx).
  destruct Hmore as [-> | [rest ->]].
  - rewrite app_nil_r, (split_without_separator comma field_y Hy). exists []. reflexivity.
  - rewrite ChangeArgInYamlLaws.split_app, (split_without_separator comma field_y Hy).
    exists (split comma rest). reflexivity.
Qed.

Lemma parse_line_reads (float_of : str -> option N) line o :
  line_reads float_of line o ->
  parse_line float_of line
  = option_map (fun p => [ (lit "x", PyNum (fst p)); (lit "y", PyNum (snd p)) ]) o.
Proof.
  intros [Hblank | Hcomment | number field_x field_y more x y Hline Hne Hstart Hn Hx Hy
                               Hmore Fx Fy]; unfold parse_line.
  - rewrite Hblank. reflexivity.
  - destruct (strip line); [reflexivity|]. rewrite Hcomment. reflexivity.
  - destruct (split_fields number field_x field_y more Hn Hx Hy Hmore) as [others Hsplit].
    destruct (strip line) as [|c rest] eqn:E; [congruence|].
    rewrite Hstart. fold comma. rewrite Hline, Hsplit.
    cbn [length Nat.leb lookup list_lookup]. rewrite Fx, Fy. reflexivity.
Qed.

Lemma omap_parse_reads (float_of : str -> option N) ls os :
  Forall2 (line_reads float_of) ls os ->
  omap (parse_line float_of) ls
  = map (fun p => [ (lit "x", PyNum (fst p)); (lit "y", PyNum (snd p)) ]) (omap id os).
Proof.
  induction 1 as [|line o ls os Hline _ IH]; [reflexivity|].
  cbn [omap list_omap]. rewrite (parse_line_reads _ _ _ Hline), IH.
  destruct o; reflexivity.
Qed.

Lemma append_waypoints_points (self : t N) (pts : list (N * N)) : forall acc,
  append_waypoints (with_waypoints self acc)
    (map (fun p => [ (lit "x", PyNum (fst p)); (lit "y", PyNum (snd p)) ]) pts)
  = (with_waypoints self (acc ++ map (point_on_canvas self) pts), None).
Proof.
  induction pts as [|p pts IH]; intros acc; cbn [map append_waypoints].
  - rewrite app_nil_r. reflexivity.
  - change (waypoint_from_dict (with_waypoints self acc)
              [ (lit "x", PyNum (fst p)); (lit "y", PyNum (snd p)) ])
      with (@Ok (N * N) (point_on_canvas self p)).
    cbv iota.
    change (with_waypoints (with_waypoints self acc)
              (waypoints (with_waypoints self acc) ++ [point_on_canvas self p]))
      with (with_waypoints self (acc ++ [point_on_canvas self p])).
    rewrite IH, <- app_assoc. reflexivity.
Qed.

(** X16. The format [load_path_txt] reads: blank lines and lines that
    start with [#] are skipped, and a line of at least three fields
    separated by commas gives a waypoint when [float] reads its second and
    third field, whatever the first field and the fields after the third
    are. When the lines of the file give at least one point, the path is
    replaced by the points in the order of the file, the second field being
    the world x, which is laid on the canvas's y axis, and the third the
    world y (third plus origin x, times the scale, is the canvas x); nothing
    else of the state changes. *)
Theorem load_path_txt_reads_numbered_lines (self : t N) (content : str)
    (float_of : str -> option N) (drawing : result unit) (read : list (option (N * N))) :
  Forall2 (line_reads float_of) (readlines (universal_newlines content)) read ->
  omap id read <> [] ->
  load_path_txt self content float_of drawing
  = (with_waypoints self (map (point_on_canvas self) (omap id read)),
     except_Exception showinfo (of_result drawing)).
Proof.
  intros Hread Hne. unfold load_path_txt. rewrite (omap_parse_reads _ _ _ Hread).
  destruct (omap id read) as [|p pts] eqn:E; [congruence|].
  cbn [map]. unfold waypoints_from_dict.
  pose proof (append_waypoints_points self (p :: pts) []) as Hw. cbn [map app] in Hw.
  rewrite Hw. reflexivity.
Qed.


End AnyNumber.

(** *** With exact numbers *)

Section ExactNumbers.
Import ExactFacts WarehouseGeneratorSpec.
Local Open Scope Q_scope.


Lemma exact_le_false (a b : Q) : b < a -> num_le a b = false.
Proof.
  intros Hlt. unfold num_le. cbn [num_lt num_eq exact]. unfold Exact.ltb.
  apply orb_false_iff. split.
  - apply negb_false_iff, Qle_bool_iff, Qlt_le_weak, Hlt.
  - destruct (Qeq_bool a b) eqn:E; [|reflexivity].
    apply Qeq_bool_iff in E. rewrite E in Hlt. exfalso. exact (Qlt_irrefl _ Hlt).
Qed.

(** X17. [duplicate_selected] does not look at the bounds of the
    warehouse: the copy lies 20 pixels to the right of and below the
    selected rack, so when the selected rack is less than 20 pixels from the
    right or the lower edge, the copy is added outside the warehouse. *)
Theorem duplicate_selected_ignores_bounds (self : t Q) (idx : nat) (rack : Rack.t Q)
    (drawing : result unit) :
  selected_rack self = Some idx -> racks self !! idx = Some rack ->
  (warehouse_width_m self * scale self < Rack.x rack + 20
   \/ warehouse_height_m self * scale self < Rack.y rack + 20) ->
  exists copy,
    fst (duplicate_selected self drawing) = with_racks self (racks self ++ [copy])
    /\ moved rack copy
    /\ Rack.x copy = Rack.x rack + 20 /\ Rack.y copy = Rack.y rack + 20
    /\ within_bounds self (Rack.x copy) (Rack.y copy) = false
    /\ ~ racks_within_bounds (fst (duplicate_selected self drawing)).
Proof.
  intros Es Er Hout. unfold duplicate_selected. rewrite Es, Er. cbn [fst].
  eexists. split; [reflexivity|]. split; [repeat split|].
  split; [reflexivity|]. split; [reflexivity|].
  assert (Hb : within_bounds self (Rack.x rack + 20) (Rack.y rack + 20) = false).
  { unfold within_bounds. cbn [num_mul exact].
    destruct Hout as [Hx | Hy].
    - rewrite (exact_le_false _ _ Hx). rewrite andb_false_r. reflexivity.
    - rewrite (exact_le_false _ _ Hy). rewrite !andb_false_r. reflexivity. }
  split; [exact Hb|].
  unfold racks_within_bounds. cbn [with_racks racks]. intros Hall.
  apply Forall_app in Hall as [_ Hlast]. inversion Hlast as [|? ? Hcopy _]; subst.
  discriminate (eq_trans (eq_sym Hcopy) Hb).
Qed.

Lemma round3_of_zero (a : Q) : a == 0 -> Exact.round3 a == 0.
Proof.
  intros Ha. unfold Exact.round3.
  assert (Hn : Qnum (a * 1000) = 0%Z).
  { unfold Qeq in Ha. cbn in Ha |- *. lia. }
  rewrite Hn. unfold round_half_even. rewrite Z.div_0_l, Z.mod_0_l by discriminate.
  cbn. reflexivity.
Qed.

(** X18. The marker "Origin (0,0)" is where world (0, 0) is: a rack that
    stands on the marker is saved with [x] and [y] equal to zero, and a
    record with [x] and [y] zero is read back as a rack on the marker. *)
Theorem origin_marker_is_world_zero (self : t Q) (rack : Rack.t Q) (data : dict Q)
    (width depth : pyobj Q) :
  ~ scale self == 0 ->
  Rack.x rack = fst (origin_marker self) -> Rack.y rack = snd (origin_marker self) ->
  lookup_key data (lit "x") = Some (PyNum 0) -> lookup_key data (lit "y") = Some (PyNum 0) ->
  lookup_key data (lit "width_m") = Some width ->
  lookup_key data (lit "depth_m") = Some depth ->
  (exists d world_x world_y,
      Rack.to_dict rack (origin_x_m self) (origin_y_m self) (scale self) = Ok d
      /\ getitem d (lit "x") = Ok (PyNum world_x) /\ getitem d (lit "y") = Ok (PyNum world_y)
      /\ world_x == 0 /\ world_y == 0)
  /\ (exists rack',
        Rack.from_dict data (origin_x_m self) (origin_y_m self) (scale self) = Ok rack'
        /\ Rack.x rack' == fst (origin_marker self)
        /\ Rack.y rack' == snd (origin_marker self)).
Proof.
  intros Hs Hx Hy Dx Dy Dw Dd. split.
  - rewrite (WarehouseGeneratorFacts.to_dict_record rack _ _ _
               (Rack.x rack / scale self) (Rack.y rack / scale self))
      by (apply truediv_defined; exact Hs).
    eexists _, _, _. split; [reflexivity|]. split; [reflexivity|]. split; [reflexivity|].
    cbn [num_round3 num_sub exact]. rewrite Hx, Hy. unfold origin_marker.
    cbn [fst snd num_mul exact].
    split; apply round3_of_zero; field; exact Hs.
  - unfold Rack.from_dict, getitem. rewrite Dx, Dy, Dw, Dd. cbn [bind add_number as_number].
    eexists. split; [reflexivity|]. cbn [Rack.x Rack.y origin_marker fst snd num_mul num_add exact].
    split; ring.
Qed.










End ExactNumbers.

(** *** Concrete layouts *)

Section Witnesses.
Import WarehouseGeneratorSpec.
Local Open Scope Q_scope.

Lemma canvas_drag_keeps_racks_within_bounds_witness :
  racks_within_bounds (state dragging)
  /\ (let c' := fst (canvas_drag dragging 130 260 (Ok tt)) in
      racks_within_bounds (state c')
      /\ length (racks (state c')) = length (racks (state dragging))
      /\ (forall j, selected_rack (state dragging) <> Some j ->
            racks (state c') !! j = racks (state dragging) !! j)
      /\ (forall j rack rack', racks (state dragging) !! j = Some rack ->
            racks (state c') !! j = Some rack' -> moved rack rack')
      /\ mode_of c' = mode_of dragging
      /\ exists rs, state c' = with_racks (state dragging) rs).
Proof.
  assert (Hin : racks_within_bounds (state dragging))
    by (constructor; [vm_compute; reflexivity | constructor]).
  split; [exact Hin|].
  apply (canvas_drag_keeps_racks_within_bounds dragging 130 260 (Ok tt)). exact Hin.
Defined.

Lemma delete_selected_removes_one_rack_witness :
  let self' := fst (delete_selected exact_designer (Ok tt) (Ok tt)) in
  (is_ok (Ok tt : result unit) = true ->
     self' = with_selected (with_racks exact_designer (delete 0%nat (racks exact_designer))) None
     /\ S (length (racks self')) = length (racks exact_designer)
     /\ (forall j, (j < 0)%nat -> racks self' !! j = racks exact_designer !! j)
     /\ (forall j, (0 <= j)%nat -> racks self' !! j = racks exact_designer !! S j))
  /\ (is_ok (Ok tt : result unit) = false -> self' = exact_designer).
Proof.
  apply (delete_selected_removes_one_rack exact_designer 0 exact_rack (Ok tt) (Ok tt));
    reflexivity.
Defined.

Lemma load_layout_without_racks_empties_layout_witness :
  racks after_failed_load = [] /\ waypoints after_failed_load = []
  /\ Box showerror <> Box showinfo
  /\ number_setting (get layout_without_racks (lit "scale") (PyNum (of_int 50)))
     = Some (scale after_failed_load)
  /\ number_setting (get layout_without_racks (lit "warehouse_width_m") (PyNum (of_int 40)))
     = Some (warehouse_width_m after_failed_load)
  /\ number_setting (get layout_without_racks (lit "warehouse_height_m") (PyNum (of_int 30)))
     = Some (warehouse_height_m after_failed_load).
Proof.
  apply (load_layout_without_racks_empties_layout idle_designer after_failed_load
           layout_without_racks (Ok tt) (Box showerror)); reflexivity.
Defined.

Lemma uint_text_without_comma d :
  contains comma (PlaceRacksConfiguration.uint_text d) = false.
Proof. induction d; cbn; auto. Qed.

Lemma str_of_fraction_without_comma (n : Q) :
  contains comma (str_of_fraction (PyNum n)) = false.
Proof.
  assert (Hslash : forall d, contains comma (lit "/" ++ PlaceRacksConfiguration.uint_text d)
                              = false) by (intros d; exact (uint_text_without_comma d)).
  unfold str_of_fraction. repeat rewrite contains_app. rewrite uint_text_without_comma.
  destruct (Qnum (Qred n) <? 0)%Z, (Qden (Qred n) =? 1)%positive;
    rewrite ?Hslash; reflexivity.
Qed.

Lemma exported_path_is_not_loaded_witness :
  Box showinfo = Box showinfo
  /\ load_path_txt idle_designer exported_path float_of_anything (Ok tt)
     = (idle_designer, Box showwarning).
Proof.
  apply (exported_path_is_not_loaded exact_designer idle_designer (lit "path.txt")
           exported_path str_of_fraction float_of_anything (Ok tt) (Box showinfo)).
  - exact str_of_fraction_without_comma.
  - vm_compute. reflexivity.
Defined.

Lemma duplicate_selected_ignores_bounds_witness :
  exists copy,
    fst (duplicate_selected designer_at_the_edge (Ok tt))
    = with_racks designer_at_the_edge (racks designer_at_the_edge ++ [copy])
    /\ moved (Rack.Make 1490 200 (PyNum 2) (PyNum (96 # 100)) (PyNum 0)
                (PyStr (lit "SmallRack"))) copy
    /\ Rack.x copy = 1490 + 20 /\ Rack.y copy = 200 + 20
    /\ within_bounds designer_at_the_edge (Rack.x copy) (Rack.y copy) = false
    /\ ~ racks_within_bounds (fst (duplicate_selected designer_at_the_edge (Ok tt))).
Proof.
  apply (duplicate_selected_ignores_bounds designer_at_the_edge 0
           (Rack.Make 1490 200 (PyNum 2) (PyNum (96 # 100)) (PyNum 0)
              (PyStr (lit "SmallRack"))) (Ok tt)).
  - reflexivity.
  - reflexivity.
  - left. vm_compute. reflexivity.
Defined.

Lemma origin_marker_is_world_zero_witness :
  (exists d world_x world_y,
      Rack.to_dict rack_on_marker (origin_x_m exact_designer) (origin_y_m exact_designer)
        (scale exact_designer) = Ok d
      /\ getitem d (lit "x") = Ok (PyNum world_x) /\ getitem d (lit "y") = Ok (PyNum world_y)
      /\ world_x == 0 /\ world_y == 0)
  /\ (exists rack',
        Rack.from_dict record_at_zero (origin_x_m exact_designer) (origin_y_m exact_designer)
          (scale exact_designer) = Ok rack'
        /\ Rack.x rack' == fst (origin_marker exact_designer)
        /\ Rack.y rack' == snd (origin_marker exact_designer)).
Proof.
  apply (origin_marker_is_world_zero exact_designer rack_on_marker record_at_zero
           (PyNum 2) (PyNum (96 # 100))); try reflexivity.
  vm_compute. discriminate.
Defined.



Lemma load_path_txt_reads_numbered_lines_witness :
  load_path_txt idle_designer numbered_path float_of_digit (Ok tt)
  = (with_waypoints idle_designer
       (map (point_on_canvas idle_designer)
          (omap id [None; Some (2, 3); None; Some (4, 5)])),
     except_Exception showinfo (of_result (Ok tt))).
Proof.
  apply (load_path_txt_reads_numbered_lines idle_designer numbered_path float_of_digit
           (Ok tt) [None; Some (2, 3); None; Some (4, 5)]).
  - assert (E : readlines (universal_newlines numbered_path)
                = [ lit "# waypoint, x, y" ++ [newline]; lit "1, 2, 3" ++ [newline];
                    [newline]; lit "2, 4, 5, stop" ++ [newline] ])
      by (vm_compute; reflexivity).
    rewrite E. clear E.
    constructor; [apply reads_comment; vm_compute; reflexivity|].
    constructor.
    { apply (reads_point float_of_digit _ (lit "1") (lit " 2") (lit " 3") [] 2 3);
        [vm_compute; reflexivity | vm_compute; discriminate | vm_compute; reflexivity
        | reflexivity | reflexivity | reflexivity
        | left; reflexivity | reflexivity | reflexivity]. }
    constructor; [apply reads_blank; vm_compute; reflexivity|].
    constructor; [|constructor].
    apply (reads_point float_of_digit _ (lit "2") (lit " 4") (lit " 5") (lit ", stop") 4 5);
      [vm_compute; reflexivity | vm_compute; discriminate | vm_compute; reflexivity
      | reflexivity | reflexivity | reflexivity
      | right; exists (lit " stop"); reflexivity | reflexivity | reflexivity].
  - discriminate.
Defined.



End Witnesses.

End WarehouseEditingFacts.
